(** * Return-regression training pipeline: a shallow embedding

    The development follows the three source files of the trainer:
    - [features.py]: [load_prices_csv], [build_features];
    - [utils.py]: [time_split], [assert_no_nan], [ensure_datetime_index],
      [replace_inf_with_nan], [_s3_client], [_ensure_bucket],
      [upload_df_as_csv_to_s3];
    - [train.py]: [get_target_ticker], [make_xy], [main].

    Data frames are modelled row by row: a frame has an index kind, the
    labels of its float columns, the labels of its period-typed columns and
    a list of rows; a row carries its index label and its cells.  Cell
    values are IEEE binary64 floats (Rocq's primitive floats), so NaN and the
    infinities are the real ones.  Exceptions are an explicit result type. *)

From Stdlib Require Import ZArith List String Ascii Bool Lia Permutation Sorted.
From Stdlib Require Import Floats Uint63.
From stdpp Require Import base list.
Import ListNotations.
Open Scope Z_scope.

(* ================================================================= *)
(** ** Python results and exceptions *)

Inductive PyError : Type :=
  | FileNotFoundError
  | ValueError
  | TypeError
  | KeyError
  | IndexError
  | AssertionError
  | ExternalError.

Inductive Result (A : Type) : Type :=
  | Ok (a : A)
  | Raise (e : PyError).
Arguments Ok {A} a.
Arguments Raise {A} e.

Definition rbind {A B : Type} (c : Result A) (k : A -> Result B) : Result B :=
  match c with
  | Ok a => k a
  | Raise e => Raise e
  end.

Notation "'do' x <~ c ; k" := (rbind c (fun x => k))
  (at level 10, x pattern, c at level 100, k at level 200).

(* ================================================================= *)
(** ** Floats as pandas sees them *)

Definition nan : float := PrimFloat.nan.

(** [isna]: the missing-value marker of a float column is NaN. *)
Definition isna (x : float) : bool := PrimFloat.is_nan x.

Definition isinf (x : float) : bool := PrimFloat.is_infinity x.

(** A cell that is neither missing nor infinite. *)
Definition finite (x : float) : bool := negb (isna x) && negb (isinf x).

(* ================================================================= *)
(** ** Timestamps, dates and month periods *)

(** A [Timestamp] is a number of nanoseconds since 1970-01-01T00:00. *)
Definition Timestamp : Type := Z.

Definition NS_PER_DAY : Z := 86400000000000.

(** [Timestamp.date()]: the calendar day, as days since 1970-01-01. *)
Definition date_of (t : Timestamp) : Z := t / NS_PER_DAY.

(** [Timestamp.weekday()]: Monday is 0; 1970-01-01 was a Thursday. *)
Definition weekday (t : Timestamp) : Z := (date_of t + 3) mod 7.

(** Proleptic Gregorian calendar: the (year, month) of a day number. *)
Definition civil_year_month (days : Z) : Z * Z :=
  let z := days + 719468 in
  let era := z / 146097 in
  let doe := z - era * 146097 in
  let yoe := (doe - doe / 1460 + doe / 36524 - doe / 146096) / 365 in
  let y := yoe + era * 400 in
  let doy := doe - (365 * yoe + yoe / 4 - yoe / 100) in
  let mp := (5 * doy + 2) / 153 in
  let m := if mp <? 10 then mp + 3 else mp - 9 in
  (if m <=? 2 then y + 1 else y, m).

(** [to_period("M")]: the ordinal of the calendar month, months since
    1970-01. *)
Definition to_period_M (t : Timestamp) : Z :=
  let '(y, m) := civil_year_month (date_of t) in
  (y - 1970) * 12 + (m - 1).

(** A date string as a [.loc] slice bound and as [pd.Timestamp(s)]:
    [ds_start] is the timestamp the string parses to, [ds_end] the last
    nanosecond of the period the string denotes at its resolution (a slice
    bound given as a string covers that whole period). *)
Record DateStr : Type := mkDateStr { ds_start : Timestamp; ds_end : Timestamp }.

(** A calendar date "YYYY-MM-DD" (day resolution), given by its day
    number: it parses to midnight and, as a slice bound, reaches to the
    end of that day. *)
Definition date_str (d : Z) : DateStr :=
  {| ds_start := d * NS_PER_DAY; ds_end := d * NS_PER_DAY + NS_PER_DAY - 1 |}.

(** [t + BDay(n)] of pandas: operate on whole weeks first, then adjust the
    remaining days around the weekend; the time of day is kept. *)
Definition adjust_ndays (n wday weeks : Z) : Z :=
  let n := if (n <=? 0) && (4 <? wday) then n + 1 else n in
  let n := n - 5 * weeks in
  if (n =? 0) && (4 <? wday) then 4 - wday
  else if 4 <? wday then (7 - wday) + (n - 1)
  else if wday + n <=? 4 then n
  else n + 2.

Definition BDay_add (t : Timestamp) (n : Z) : Timestamp :=
  let wday := weekday t in
  let weeks := n / 5 in
  let days := adjust_ndays n wday weeks in
  t + (7 * weeks + days) * NS_PER_DAY.

(* ================================================================= *)
(** ** Data frames and series *)

Inductive IndexKind : Type :=
  | DatetimeIndex   (* a DatetimeIndex without a time zone; labels are timestamps *)
  | DatetimeIndexTZ (* a DatetimeIndex with a time zone; a label is the time in that zone *)
  | MonthEndIndex   (* the index [resample("ME")] yields; a label is kept as the ordinal of its month *)
  | PeriodIndex     (* labels are month ordinals *)
  | OtherIndex.     (* anything that is not a time index *)

(** [isinstance(index, pd.DatetimeIndex)]. *)
Definition is_DatetimeIndex (k : IndexKind) : bool :=
  match k with
  | DatetimeIndex | DatetimeIndexTZ | MonthEndIndex => true
  | _ => false
  end.

(** [index.tz is not None]. *)
Definition is_tz_aware (k : IndexKind) : bool :=
  match k with
  | DatetimeIndexTZ => true
  | _ => false
  end.

Record Row : Type := mkRow {
  label : Z;             (* the index value of the row *)
  cells : list float;    (* one cell per float column *)
  keys : list Z          (* one cell per period-typed column *)
}.

Record DataFrame : Type := mkDF {
  index_kind : IndexKind;
  columns : list string;       (* labels of the float columns, in order *)
  key_columns : list string;   (* labels of the period-typed columns *)
  rows : list Row
}.

Record Series : Type := mkSeries {
  s_name : string;
  s_items : list (Z * float)   (* (index label, value), in order *)
}.

Definition index (df : DataFrame) : list Z := List.map label (rows df).
Definition s_index (s : Series) : list Z := List.map fst (s_items s).
Definition s_values (s : Series) : list float := List.map snd (s_items s).

(** [len(df)], a Python int. *)
Definition len (df : DataFrame) : Z := Z.of_nat (length (rows df)).
Definition s_len (s : Series) : Z := Z.of_nat (length (s_items s)).

Definition with_rows (df : DataFrame) (rs : list Row) : DataFrame :=
  {| index_kind := index_kind df; columns := columns df;
     key_columns := key_columns df; rows := rs |}.

Definition with_cells (r : Row) (cs : list float) : Row :=
  {| label := label r; cells := cs; keys := keys r |}.

(** Position of the first column carrying a label. *)
Fixpoint index_of (c : string) (cols : list string) : option nat :=
  match cols with
  | [] => None
  | c' :: t => if String.eqb c c' then Some 0%nat else option_map S (index_of c t)
  end.

Definition cell_at (j : nat) (r : Row) : float := nth j (cells r) nan.

(** The values of the column at position [j]. *)
Definition column_at (j : nat) (df : DataFrame) : list float :=
  List.map (cell_at j) (rows df).

(** [df[c]] for a single label (labels are taken to be unique, as
    [read_csv] makes them): a series over the same index. *)
Definition getitem (c : string) (df : DataFrame) : Result Series :=
  match index_of c (columns df) with
  | Some j => Ok {| s_name := c; s_items := List.map (fun r => (label r, cell_at j r)) (rows df) |}
  | None => Raise KeyError
  end.

Fixpoint positions (cs : list string) (cols : list string) : Result (list nat) :=
  match cs with
  | [] => Ok []
  | c :: t =>
      match index_of c cols with
      | Some j => do js <~ positions t cols; Ok (j :: js)
      | None => Raise KeyError
      end
  end.

(** [df[cs]] for a list of labels: the float columns named, in the order
    of the list. *)
Definition getitem_list (cs : list string) (df : DataFrame) : Result DataFrame :=
  do js <~ positions cs (columns df);
  Ok {| index_kind := index_kind df; columns := cs; key_columns := [];
        rows := List.map (fun r => {| label := label r;
                                      cells := List.map (fun j => cell_at j r) js;
                                      keys := [] |}) (rows df) |}.

(** Python's [l[:stop]]: a negative [stop] counts from the end. *)
Definition slice_to {A : Type} (stop : Z) (l : list A) : list A :=
  if stop <? 0
  then firstn (Z.to_nat (Z.max 0 (Z.of_nat (length l) + stop))) l
  else firstn (Z.to_nat stop) l.

(** [df.iloc[:stop]] and [s.iloc[:stop]]. *)
Definition iloc_to (stop : Z) (df : DataFrame) : DataFrame :=
  with_rows df (slice_to stop (rows df)).

Definition s_iloc_to (stop : Z) (s : Series) : Series :=
  {| s_name := s_name s; s_items := slice_to stop (s_items s) |}.

(** [shift(periods)] on the values of a column: positive periods move the
    values down, negative ones up; the vacated places hold NaN and the
    length is kept. *)
Definition shift_values (periods : Z) (vs : list float) : list float :=
  let n := length vs in
  if 0 <=? periods
  then let k := Nat.min (Z.to_nat periods) n in
       repeat nan k ++ firstn (n - k) vs
  else let k := Nat.min (Z.to_nat (- periods)) n in
       skipn k vs ++ repeat nan k.

Definition s_shift (periods : Z) (s : Series) : Series :=
  {| s_name := s_name s;
     s_items := combine (s_index s) (shift_values periods (s_values s)) |}.

Fixpoint labels_eqb (a b : list Z) : bool :=
  match a, b with
  | [], [] => true
  | x :: a', y :: b' => (x =? y) && labels_eqb a' b'
  | _, _ => false
  end.

(** [X.index.equals(y.index)]. *)
Definition index_equals (X : DataFrame) (y : Series) : bool :=
  labels_eqb (index X) (s_index y).

(** [sort_index()]: rows in ascending label order.  The model keeps rows
    of equal label in their original order; pandas sorts with numpy's
    quicksort, which promises no order among rows of equal label.  The
    properties below either do not depend on the order of such rows or
    are stated for unique labels. *)
Fixpoint insert_by {A : Type} (key : A -> Z) (x : A) (l : list A) : list A :=
  match l with
  | [] => [x]
  | y :: t => if key x <=? key y then x :: l else y :: insert_by key x t
  end.

Definition sort_by {A : Type} (key : A -> Z) (l : list A) : list A :=
  fold_right (insert_by key) [] l.

Definition sort_rows (l : list Row) : list Row := sort_by label l.

Definition sort_index (df : DataFrame) : DataFrame := with_rows df (sort_rows (rows df)).

(** [searchsorted] on an ascending list of labels: the number of labels
    strictly below [x] (side left) and at most [x] (side right). *)
Fixpoint searchsorted_left (x : Z) (l : list Row) : nat :=
  match l with
  | [] => 0%nat
  | r :: t => if label r <? x then S (searchsorted_left x t) else 0%nat
  end.

Fixpoint searchsorted_right (x : Z) (l : list Row) : nat :=
  match l with
  | [] => 0%nat
  | r :: t => if label r <=? x then S (searchsorted_right x t) else 0%nat
  end.

(** [df.loc[start:stop]] on a frame sorted by its time index: label
    slices include both bounds and are resolved to positions by
    [searchsorted]; a missing bound is open. *)
Definition loc_slice (start stop : option Timestamp) (df : DataFrame) : DataFrame :=
  let lo := match start with Some a => searchsorted_left a (rows df) | None => 0%nat end in
  let hi := match stop with Some b => searchsorted_right b (rows df) | None => length (rows df) end in
  with_rows df (firstn (hi - lo) (skipn lo (rows df))).

(** [df.replace([np.inf, -np.inf], np.nan)]. *)
Definition replace_inf (x : float) : float := if isinf x then nan else x.

Definition replace_inf_with_nan (df : DataFrame) : DataFrame :=
  with_rows df (List.map (fun r => with_cells r (List.map replace_inf (cells r))) (rows df)).

(** [dropna()]: rows with at least one missing cell are dropped. *)
Definition row_has_na (r : Row) : bool := existsb isna (cells r).

Definition dropna (df : DataFrame) : DataFrame :=
  with_rows df (List.filter (fun r => negb (row_has_na r)) (rows df)).

(** [int(df.isna().sum().sum())]. *)
Definition count_na (df : DataFrame) : Z :=
  fold_right (fun r acc => Z.of_nat (length (List.filter isna (cells r))) + acc) 0 (rows df).

(* ================================================================= *)
(** ** utils.py *)

Definition ensure_datetime_index (df : DataFrame) : Result unit :=
  if negb (is_DatetimeIndex (index_kind df)) then Raise TypeError else Ok tt.

Definition assert_no_nan (df : DataFrame) : Result unit :=
  let n := count_na df in
  if 0 <? n then Raise ValueError else Ok tt.

(** [df.loc[start:stop]] where [start] is [pd.Timestamp(s) +
    pd.Timedelta(days=1)]: a timestamp made from the string alone has no
    time zone, and an index with a time zone refuses the comparison with
    it.  (A bound given as a string is read in the zone of the index.) *)
Definition loc_slice_from (start : Timestamp) (stop : option Timestamp) (df : DataFrame)
  : Result DataFrame :=
  if is_tz_aware (index_kind df) then Raise TypeError
  else Ok (loc_slice (Some start) stop df).

Definition time_split (df : DataFrame) (train_end val_end : DateStr)
  : Result (DataFrame * DataFrame * DataFrame) :=
  do _ <~ ensure_datetime_index df;
  let df := sort_index df in
  let train := loc_slice None (Some (ds_end train_end)) df in
  do val <~ loc_slice_from (ds_start train_end + NS_PER_DAY) (Some (ds_end val_end)) df;
  do test <~ loc_slice_from (ds_start val_end + NS_PER_DAY) None df;
  Ok (train, val, test).

(* ================================================================= *)
(** ** train.py: make_xy *)

Definition ret_prefix : string := "ret_".

Definition make_xy (features_df : DataFrame) (target_ticker : string) (horizon_days : Z)
  : Result (DataFrame * Series * list string) :=
  let target_col := (ret_prefix ++ target_ticker)%string in
  if negb (existsb (String.eqb target_col) (columns features_df)) then Raise ValueError else
  do y0 <~ getitem target_col features_df;
  let y := s_shift (- horizon_days) y0 in
  let feature_cols :=
    List.filter (fun c => String.prefix ret_prefix c && negb (String.eqb c target_col))
                (columns features_df) in
  do X <~ getitem_list feature_cols features_df;
  let X := iloc_to (- horizon_days) X in
  let y := s_iloc_to (- horizon_days) y in
  if negb (index_equals X y) then Raise AssertionError else
  Ok (X, y, feature_cols).

(** [get_target_ticker], lines 24 to 28: the one ticker named by
    TARGET_TICKER; [env] is its value, stripped and upper-cased. *)
Definition get_target_ticker (env : string) (df_prices : DataFrame) : Result string :=
  if negb (existsb (String.eqb env) (columns df_prices)) then Raise ValueError else Ok env.

(* ================================================================= *)
(** ** features.py: load_prices_csv *)

(** The table [pd.read_csv] yields, before any conversion: the header and
    the text of every cell. *)
Record CsvTable : Type := mkCsv {
  csv_columns : list string;
  csv_rows : list (list string)
}.

Fixpoint remove_nth {A : Type} (j : nat) (l : list A) : list A :=
  match j, l with
  | _, [] => []
  | O, _ :: t => t
  | S j', x :: t => x :: remove_nth j' t
  end.

Section Loader.
(** [pd.to_datetime(_, errors="coerce")] on one cell: [None] is NaT. *)
Variable to_datetime : string -> option Timestamp.
(** The number a cell's text denotes, if it denotes one. *)
Variable parse_number : string -> option float.

(** [pd.to_numeric(_, errors="coerce")] on one cell.  A cell is held as
    a float, also where pandas keeps a column of whole numbers as int64:
    the steps after the loader compute with floats. *)
Definition to_numeric (s : string) : float :=
  match parse_number s with
  | Some x => x
  | None => nan
  end.

(** A row after [to_datetime] on the date cell: the parsed date (or
    NaT) and the remaining cells, still text. *)
Definition split_date (j : nat) (r : list string) : option Timestamp * list string :=
  (to_datetime (nth j r EmptyString), remove_nth j r).

(** [dropna(subset=[date_col])]: rows whose date is NaT are dropped. *)
Fixpoint drop_nat (l : list (option Timestamp * list string)) : list (Timestamp * list string) :=
  match l with
  | [] => []
  | (Some t, cs) :: rest => (t, cs) :: drop_nat rest
  | (None, _) :: rest => drop_nat rest
  end.

(** [path] is looked up in the file system: [None] when nothing is
    there.  The dates of the file are taken to be written without a UTC
    offset, so that [to_datetime] gives a time index without a time zone. *)
Definition load_prices_csv (file : option CsvTable) (date_col : string) : Result DataFrame :=
  match file with
  | None => Raise FileNotFoundError
  | Some df =>
      match index_of date_col (csv_columns df) with
      | None => Raise ValueError
      | Some j =>
          let dated := List.map (split_date j) (csv_rows df) in
          let indexed := sort_by fst (drop_nat dated) in
          Ok {| index_kind := DatetimeIndex;
                columns := remove_nth j (csv_columns df);
                key_columns := [];
                rows := List.map (fun r => {| label := fst r;
                                              cells := List.map to_numeric (snd r);
                                              keys := [] |}) indexed |}
      end
  end.
End Loader.

(* ================================================================= *)
(** ** features.py: build_features *)

Fixpoint map2 {A B C : Type} (f : A -> B -> C) (a : list A) (b : list B) : list C :=
  match a, b with
  | x :: a', y :: b' => f x y :: map2 f a' b'
  | _, _ => []
  end.

Definition nan_like (r : Row) : Row := with_cells r (List.map (fun _ => nan) (cells r)).

(** [ffill()]: a missing cell takes the last value seen in its column. *)
Definition pad_cell (prev cur : float) : float := if isna cur then prev else cur.

Fixpoint ffill_from (prev : list float) (rs : list Row) : list Row :=
  match rs with
  | [] => []
  | r :: t => let cur := map2 pad_cell prev (cells r) in
              with_cells r cur :: ffill_from cur t
  end.

Definition ffill (rs : list Row) : list Row :=
  match rs with
  | [] => []
  | r :: t => r :: ffill_from (cells r) t
  end.

(** One cell of [data / data.shift(1) - 1]. *)
Definition pct (prev cur : float) : float := (cur / prev - 1)%float.

Fixpoint pct_from (prev : list float) (rs : list Row) : list Row :=
  match rs with
  | [] => []
  | r :: t => with_cells r (map2 pct prev (cells r)) :: pct_from (cells r) t
  end.

(** [add_prefix(p)]. *)
Definition add_prefix (p : string) (df : DataFrame) : DataFrame :=
  {| index_kind := index_kind df; columns := List.map (String.append p) (columns df);
     key_columns := key_columns df; rows := rows df |}.

(** [monthly.columns = names]. *)
Definition set_columns (names : list string) (df : DataFrame) : DataFrame :=
  {| index_kind := index_kind df; columns := names;
     key_columns := key_columns df; rows := rows df |}.

(** [monthly.index = monthly.index.to_period("M")]: a month-end label is
    already kept as the ordinal of its month, so only the kind changes. *)
Definition index_to_period (df : DataFrame) : DataFrame :=
  {| index_kind := PeriodIndex; columns := columns df;
     key_columns := key_columns df; rows := rows df |}.

(** [shift(1)] on a frame: every row takes the cells of the row before
    it, the first row holds NaN. *)
Fixpoint shift_from (prev : list float) (rs : list Row) : list Row :=
  match rs with
  | [] => []
  | r :: t => with_cells r prev :: shift_from (cells r) t
  end.

Definition shift1 (df : DataFrame) : DataFrame :=
  with_rows df (match rows df with
                | [] => []
                | r :: t => nan_like r :: shift_from (cells r) t
                end).

(** [daily[name] = daily.index.to_period("M")]: a new period-typed
    column.  The name is taken not to be a float column's: a ticker
    labelled "ym" would be overwritten by line 56 and dropped by line
    57. *)
Definition set_period_column (name : string) (df : DataFrame) : DataFrame :=
  {| index_kind := index_kind df; columns := columns df;
     key_columns := key_columns df ++ [name];
     rows := List.map (fun r => {| label := label r; cells := cells r;
                                   keys := keys r ++ [to_period_M (label r)] |}) (rows df) |}.

Definition key_at (j : nat) (r : Row) : Z := nth j (keys r) 0.

Definition lookup_label (k : Z) (rs : list Row) : option Row :=
  List.find (fun r => label r =? k) rs.

(** The cells a left join attaches to a row whose key is [k]: those of
    the row labelled [k] on the right, NaN when there is none. *)
Definition joined_cells (k : Z) (right : DataFrame) : list float :=
  match lookup_label k (rows right) with
  | Some q => cells q
  | None => repeat nan (length (columns right))
  end.

Definition overlaps (a b : list string) : bool :=
  existsb (fun c => existsb (String.eqb c) b) a.

(** [left.join(right, on=key)]: a left join of the key column against
    the (unique) index of [right]; overlapping column labels are refused. *)
Definition join_on (key : string) (left right : DataFrame) : Result DataFrame :=
  match index_of key (key_columns left) with
  | None => Raise KeyError
  | Some j =>
      if overlaps (columns left) (columns right) then Raise ValueError else
      Ok {| index_kind := index_kind left;
            columns := columns left ++ columns right;
            key_columns := key_columns left;
            rows := List.map (fun r => with_cells r (cells r ++ joined_cells (key_at j r) right))
                             (rows left) |}
  end.

(** [drop(columns=[name])] of a period-typed column. *)
Definition drop_column (name : string) (df : DataFrame) : Result DataFrame :=
  match index_of name (key_columns df) with
  | None => Raise KeyError
  | Some j =>
      Ok {| index_kind := index_kind df; columns := columns df;
            key_columns := remove_nth j (key_columns df);
            rows := List.map (fun r => {| label := label r; cells := cells r;
                                          keys := remove_nth j (keys r) |}) (rows df) |}
  end.

(** [pd.concat([a, b], axis=1)] of two frames over the same index: the
    columns of [b] are put to the right of those of [a], row by row. *)
Definition concat_columns (a b : DataFrame) : DataFrame :=
  {| index_kind := index_kind a;
     columns := columns a ++ columns b;
     key_columns := key_columns a ++ key_columns b;
     rows := map2 (fun ra rb => {| label := label ra; cells := cells ra ++ cells rb;
                                   keys := keys ra ++ keys rb |}) (rows a) (rows b) |}.

(** [clip(lower, upper)] with scalar thresholds: a NaN threshold is
    ignored, reversed thresholds are swapped, a missing value is kept;
    both tests read the unclipped value. *)
Definition fmin (a b : float) : float := if (b <? a)%float then b else a.
Definition fmax (a b : float) : float := if (a <? b)%float then b else a.

Definition clip_thresholds (lo hi : float) : option float * option float :=
  let lower := if isna lo then None else Some lo in
  let upper := if isna hi then None else Some hi in
  match lower, upper with
  | Some l, Some u => (Some (fmin l u), Some (fmax l u))
  | _, _ => (lower, upper)
  end.

Definition clip_scalar (lower upper : option float) (x : float) : float :=
  let r := match lower with
           | Some l => if isna x || (l <=? x)%float then x else l
           | None => x
           end in
  match upper with
  | Some u => if isna x || (x <=? u)%float then r else u
  | None => r
  end.

Definition clip (lo hi : float) (x : float) : float :=
  let '(lower, upper) := clip_thresholds lo hi in clip_scalar lower upper x.

Definition is_ret_col (c : string) : bool := String.prefix ret_prefix c.

(** [out[ret_cols]] with [ret_cols = [c for c in out.columns if
    c.startswith("ret_")]]: the columns whose label starts with "ret_". *)
Definition ret_cells (cols : list string) (cs : list float) : list float :=
  List.map snd (List.filter (fun cx => is_ret_col (fst cx)) (combine cols cs)).

Definition ret_columns_of (df : DataFrame) : DataFrame :=
  {| index_kind := index_kind df;
     columns := List.filter is_ret_col (columns df);
     key_columns := [];
     rows := List.map (fun r => {| label := label r; cells := ret_cells (columns df) (cells r);
                                   keys := [] |}) (rows df) |}.

(** [frame.clip(lo, hi)]: every cell is clipped. *)
Definition clip_frame (lo hi : float) (df : DataFrame) : DataFrame :=
  with_rows df (List.map (fun r => with_cells r (List.map (clip lo hi) (cells r))) (rows df)).

(** [out.loc[:, ret_cols] = values]: the cells of the "ret_" columns are
    overwritten, in column order, by those of [values]; the other cells
    are kept. *)
Fixpoint scatter_ret (cols : list string) (cs vals : list float) : list float :=
  match cols, cs with
  | c :: cols', x :: cs' =>
      if is_ret_col c
      then match vals with
           | v :: vals' => v :: scatter_ret cols' cs' vals'
           | [] => x :: scatter_ret cols' cs' []
           end
      else x :: scatter_ret cols' cs' vals
  | _, _ => cs
  end.

Definition set_ret_cells (values : DataFrame) (df : DataFrame) : DataFrame :=
  with_rows df (map2 (fun r v => with_cells r (scatter_ret (columns df) (cells r) (cells v)))
                     (rows df) (rows values)).

(** Whether a label occurs twice in a list of labels. *)
Fixpoint has_duplicates (l : list string) : bool :=
  match l with
  | [] => false
  | c :: l' => existsb (String.eqb c) l' || has_duplicates l'
  end.

(** Line 67 as pandas runs it: the assignment needs the labels it sets to
    be unique among the columns, and raises a [ValueError] when one of
    the "ret_" labels is there twice (a ticker named "ret_A" next to a
    ticker "A" gives two columns "ret_A"). *)
Definition loc_set_ret_columns (values : DataFrame) (df : DataFrame) : Result DataFrame :=
  if has_duplicates (List.filter is_ret_col (columns df)) then Raise ValueError
  else Ok (set_ret_cells values df).

Definition STATS : list string := ["mean"; "median"; "std"]%string.

(** The label pandas gives the aggregate [s] of column [t]: the tuple
    [(t, s)] of a two-level column index, kept as its printed text. *)
Definition tuple_label (t s : string) : string :=
  ("(" ++ t ++ ", " ++ s ++ ")")%string.

(** [[f"{t}_{s}" for t, s in monthly.columns]]. *)
Definition flat_labels (cols : list string) : list string :=
  flat_map (fun t => List.map (fun s => (t ++ "_" ++ s)%string) STATS) cols.

Section Features.
(** Whether [pct_change] forward-fills missing prices first: the
    default of pandas 2 ([fill_method="pad"]) or of pandas 3 (none). *)
Variable pct_fill_pad : bool.
(** The three aggregates of [agg(["mean", "median", "std"])], on the
    values one column has in one bin. *)
Variables agg_mean agg_median agg_std : list float -> float.

(** [df.pct_change()]. *)
Definition pct_change (df : DataFrame) : DataFrame :=
  let rs := if pct_fill_pad then ffill (rows df) else rows df in
  with_rows df (match rs with
                | [] => []
                | r :: t => nan_like r :: pct_from (cells r) t
                end).

Definition month_bin (m : Z) (rs : list Row) : list Row :=
  List.filter (fun r => to_period_M (label r) =? m) rs.

Definition agg3 (vs : list float) : list float :=
  [agg_mean vs; agg_median vs; agg_std vs].

(** The row of the monthly table for month [m]: for every column, its
    three aggregates over the rows of that calendar month. *)
Definition agg_row (ncols : nat) (rs : list Row) (m : Z) : Row :=
  let bin := month_bin m rs in
  {| label := m;
     cells := flat_map (fun j => agg3 (List.map (cell_at j) bin)) (seq 0 ncols);
     keys := [] |}.

Definition month_range (first last : Z) : list Z :=
  List.map (fun i => first + Z.of_nat i) (seq 0 (Z.to_nat (last - first + 1))).

(** [df.resample("ME").agg(["mean", "median", "std"])] on a frame
    sorted by time: one row per calendar month from the month of the
    first row to the month of the last, empty months included. *)
Definition resample_ME_agg (df : DataFrame) : DataFrame :=
  {| index_kind := MonthEndIndex;
     columns := flat_map (fun t => List.map (tuple_label t) STATS) (columns df);
     key_columns := [];
     rows := match rows df with
             | [] => []
             | r0 :: _ =>
                 List.map (agg_row (length (columns df)) (rows df))
                          (month_range (to_period_M (label r0))
                                       (to_period_M (label (List.last (rows df) r0))))
             end |}.

(** Lines 51 to 54: the monthly table, relabelled, and lagged by one
    month. *)
Definition monthly_lag1 (df : DataFrame) : DataFrame :=
  let monthly := resample_ME_agg df in
  let monthly := set_columns (flat_labels (columns df)) monthly in
  let monthly := index_to_period monthly in
  shift1 monthly.

(** Lines 56 to 58: every daily row joined to the lagged statistics of
    its month. *)
Definition join_monthly (df : DataFrame) : Result DataFrame :=
  let daily := set_period_column "ym" df in
  do joined <~ join_on "ym" daily (monthly_lag1 df);
  drop_column "ym" joined.

Definition build_features (df_prices : DataFrame) (include_monthly clip_returns : bool)
                          (clip_low clip_high : float) : Result DataFrame :=
  if negb (is_DatetimeIndex (index_kind df_prices)) then Raise TypeError else
  let df := sort_index df_prices in
  let rets := add_prefix ret_prefix (pct_change df) in
  do out <~ (if include_monthly then join_monthly df else Ok df);
  let out := concat_columns out rets in
  let out := dropna (replace_inf_with_nan out) in
  if clip_returns
  then loc_set_ret_columns (clip_frame clip_low clip_high (ret_columns_of out)) out
  else Ok out.
End Features.


(* ================================================================= *)
(** ** train.py: the training loop of main *)

(** [X.join(y.rename("y"), how="inner")]: an inner join on the index.
    Every row of [X] is paired with every item of [y] that carries its
    label; over a unique index this pairs each row with its own label. *)
Definition s_rename (name : string) (s : Series) : Series :=
  {| s_name := name; s_items := s_items s |}.

Definition join_series (X : DataFrame) (y : Series) : Result DataFrame :=
  if existsb (String.eqb (s_name y)) (columns X) then Raise ValueError else
  Ok {| index_kind := index_kind X;
        columns := columns X ++ [s_name y];
        key_columns := key_columns X;
        rows := flat_map (fun r =>
                  List.map (fun it => with_cells r (cells r ++ [snd it]))
                           (List.filter (fun it => fst it =? label r) (s_items y)))
                  (rows X) |}.

(** Lines 117 to 119: the dataset of one (target, horizon) pair. *)
Definition supervised_dataset (X : DataFrame) (y : Series) : Result DataFrame :=
  do data <~ join_series X (s_rename "y" y);
  let data := dropna (replace_inf_with_nan data) in
  do _ <~ assert_no_nan data;
  Ok data.

(** [X.iloc[[-1]]]: the frame made of the last row; out of bounds on an
    empty frame. *)
Definition iloc_last (df : DataFrame) : Result DataFrame :=
  match rev (rows df) with
  | [] => Raise IndexError
  | r :: _ => Ok (with_rows df [r])
  end.

(** [features_df.index.max()]: [None] is NaT, on an empty index.  NaT
    raises nowhere in [main]: its date is NaT again. *)
Definition index_max (df : DataFrame) : option Timestamp :=
  match index df with
  | [] => None
  | t :: ts => Some (fold_right Z.max t ts)
  end.

(** [range(1, n + 1)]. *)
Definition range1 (n : Z) : list Z :=
  List.map (fun i => 1 + Z.of_nat i) (seq 0 (Z.to_nat n)).

Record Config : Type := mkConfig {
  dry_run : bool;                 (* DRY_RUN == "1" *)
  horizon_max : Z;                (* HORIZON_DAYS_MAX *)
  include_monthly : bool;         (* INCLUDE_MONTHLY == "1" *)
  mlflow_uri : string;
  experiment : string;
  clip_low : float;
  clip_high : float;
  train_end : DateStr;
  val_end : DateStr;
  pred_bucket : string;
  s3_endpoint : option string;    (* MLFLOW_S3_ENDPOINT_URL, when set *)
  min_samples : Z;                (* MIN_SAMPLES_PER_SPLIT *)
  target_env : string             (* TARGET_TICKER, stripped and upper-cased *)
}.

(** The object key [f"{target}/H{h}/{file}"]. *)
Record ObjectKey : Type := mkKey { key_target : string; key_horizon : Z; key_file : string }.

Record PredictionRecord : Type := mkPrediction {
  p_asof_date : Timestamp;
  p_target_ticker : string;
  p_horizon_days : Z;
  p_y_true : float;
  p_y_pred : float;
  p_run_id : string;
  p_created_at : string;
  p_split : string
}.

Record ForecastRecord : Type := mkForecast {
  f_asof_date : option Z;            (* a date, as its day number; [None] is the text "NaT" *)
  f_forecast_for_date : option Z;    (* a date, as its day number; [None] is the text "NaT" *)
  f_target_ticker : string;
  f_horizon_days : Z;
  f_pred_ret_next : float;
  f_pred_sign : Z;
  f_run_id : string;
  f_created_at : string;
  f_split : string
}.

Inductive Table : Type :=
  | PredictionTable (records : list PredictionRecord)
  | ForecastTable (records : list ForecastRecord).

Inductive PyValue : Type :=
  | VStr (s : string)
  | VInt (z : Z)
  | VFloat (x : float)
  | VBool (b : bool)
  | VDate (d : DateStr).

Inductive Message : Type :=
  | MsgDryRun
  | MsgStart (targets : list string) (hmax : Z) (asof : option Z) (monthly : bool)
  | MsgSkip (target : string) (h : Z) (n_train n_val n_test : Z)
  | MsgMetrics (target : string) (h : Z) (val_mae val_rmse test_mae test_rmse : float)
  | MsgUploaded (test_key forecast_key : ObjectKey)
  | MsgAllDone.

(** What a run does to the outside world, in order. *)
Inductive Event : Type :=
  | Print (m : Message)
  | SetTrackingUri (uri : string)
  | SetExperiment (name : string)
  | StartRun (target : string) (h : Z)
  | LogParam (name : string) (v : PyValue)
  | LogMetric (name : string) (x : float)
  | LogModel
  | PutObject (bucket : string) (key : ObjectKey) (endpoint : string) (body : Table).

(** The artifacts of a pair: everything recorded by the tracker or put
    into the object store. *)
Definition is_artifact (e : Event) : bool :=
  match e with
  | StartRun _ _ | LogParam _ _ | LogMetric _ _ | LogModel | PutObject _ _ _ _ => true
  | _ => false
  end.

(** A computation that leaves a trace of events and returns or raises. *)
Definition Run (A : Type) : Type := (list Event * Result A)%type.

Definition ret {A : Type} (a : A) : Run A := ([], Ok a).

Definition bind {A B : Type} (c : Run A) (k : A -> Run B) : Run B :=
  match c with
  | (ev, Ok a) => let '(ev', r) := k a in (ev ++ ev', r)
  | (ev, Raise e) => (ev, Raise e)
  end.

Definition lift {A : Type} (r : Result A) : Run A := ([], r).

Definition print (m : Message) : Run unit := ([Print m], Ok tt).

Notation "'run' x <- c ; k" := (bind c (fun x => k))
  (at level 10, x name, c at level 100, k at level 200).
Notation "'exec' c ; k" := (bind c (fun _ => k))
  (at level 10, c at level 100, k at level 200).

(** [int(pred_last > 0)]. *)
Definition pred_sign (x : float) : Z := if (0 <? x)%float then 1 else 0.

Definition FORECAST_FILE : string := "forecast_latest.csv".
Definition TEST_FILE : string := "predictions_test.csv".

Section Training.
(** The regressor: [HistGradientBoostingRegressor(...).fit] and
    [predict], which may raise. *)
Variable Model : Type.
Variable fit : DataFrame -> list float -> Result Model.
Variable predict : Model -> DataFrame -> Result (list float).
(** [sklearn.metrics]. *)
Variable mean_absolute_error : list float -> list float -> Result float.
Variable mean_squared_error : list float -> list float -> Result float.
(** The tracker and the object store: whether a call goes through, the
    identifier the tracker gives the run of a pair, and the clock. *)
Variable external_ok : Event -> bool.
Variable run_id_of : string -> Z -> string.
Variable utc_now : string -> Z -> string.
(** The parameters of the feature builder and of the loader. *)
Variable pct_fill_pad : bool.
Variables agg_mean agg_median agg_std : list float -> float.
Variable to_datetime : string -> option Timestamp.
Variable parse_number : string -> option float.

(** A call to the tracker or to the object store: recorded when it goes
    through, raised otherwise. *)
Definition external (e : Event) : Run unit :=
  if external_ok e then ([e], Ok tt) else ([], Raise ExternalError).

(** [upload_df_as_csv_to_s3(df, bucket, key, endpoint_url)]. *)
Definition upload_df_as_csv_to_s3 (body : Table) (bucket : string) (key : ObjectKey)
                                  (endpoint : string) : Run unit :=
  external (PutObject bucket key endpoint body).

(** [pd.DataFrame({...})] of the test predictions: one record per test
    row; columns of different lengths are refused. *)
Definition prediction_table (test_df : DataFrame) (y_test : Series) (test_pred : list float)
                            (target : string) (h : Z) (run_id created_at : string)
  : Result Table :=
  if negb ((length (rows test_df) =? length (s_items y_test))%nat
           && (length (rows test_df) =? length test_pred)%nat)
  then Raise ValueError
  else Ok (PredictionTable
             (map2 (fun ty p => {| p_asof_date := fst ty; p_target_ticker := target;
                                   p_horizon_days := h; p_y_true := snd ty; p_y_pred := p;
                                   p_run_id := run_id; p_created_at := created_at;
                                   p_split := "test" |})
                   (combine (index test_df) (s_values y_test)) test_pred)).

(** The body of the loop over (target, horizon) pairs, lines 115 to 212.
    [last_asof] is [None] when it is NaT: NaT plus an offset is NaT, the
    date of NaT is NaT and its ISO text is "NaT". *)
Definition iteration (cfg : Config) (endpoint : string) (features_df : DataFrame)
                     (last_asof : option Timestamp) (target_ticker : string) (h : Z)
  : Run unit :=
  run xy <- lift (make_xy features_df target_ticker h);
  let '(X, y, feature_cols) := xy in
  run data <- lift (supervised_dataset X y);
  run split <- lift (time_split data (train_end cfg) (val_end cfg));
  let '(train_df, val_df, test_df) := split in
  if (len train_df <? min_samples cfg) || (len val_df <? min_samples cfg)
     || (len test_df <? min_samples cfg)
  then print (MsgSkip target_ticker h (len train_df) (len val_df) (len test_df))
  else
    run X_train <- lift (getitem_list feature_cols train_df);
    run y_train <- lift (getitem "y" train_df);
    run X_val <- lift (getitem_list feature_cols val_df);
    run y_val <- lift (getitem "y" val_df);
    run X_test <- lift (getitem_list feature_cols test_df);
    run y_test <- lift (getitem "y" test_df);
    exec external (StartRun target_ticker h);
    let run_id := run_id_of target_ticker h in
    let created_at := utc_now target_ticker h in
    exec external (LogParam "target_ticker" (VStr target_ticker));
    exec external (LogParam "horizon_days" (VInt h));
    exec external (LogParam "train_end" (VDate (train_end cfg)));
    exec external (LogParam "val_end" (VDate (val_end cfg)));
    exec external (LogParam "clip_low" (VFloat (clip_low cfg)));
    exec external (LogParam "clip_high" (VFloat (clip_high cfg)));
    exec external (LogParam "include_monthly" (VBool (include_monthly cfg)));
    exec external (LogParam "model" (VStr "HistGradientBoostingRegressor"));
    exec external (LogParam "features" (VStr "ret_only_excluding_target_ret"));
    run model <- lift (fit X_train (s_values y_train));
    run val_pred <- lift (predict model X_val);
    run test_pred <- lift (predict model X_test);
    run val_mae <- lift (mean_absolute_error (s_values y_val) val_pred);
    run val_mse <- lift (mean_squared_error (s_values y_val) val_pred);
    let val_rmse := PrimFloat.sqrt val_mse in
    run test_mae <- lift (mean_absolute_error (s_values y_test) test_pred);
    run test_mse <- lift (mean_squared_error (s_values y_test) test_pred);
    let test_rmse := PrimFloat.sqrt test_mse in
    exec external (LogMetric "val_mae" val_mae);
    exec external (LogMetric "val_rmse" val_rmse);
    exec external (LogMetric "test_mae" test_mae);
    exec external (LogMetric "test_rmse" test_rmse);
    exec external LogModel;
    run pred_test_df <- lift (prediction_table test_df y_test test_pred target_ticker h
                                               run_id created_at);
    let test_key := mkKey target_ticker h TEST_FILE in
    exec upload_df_as_csv_to_s3 pred_test_df (pred_bucket cfg) test_key endpoint;
    run x_last <- lift (iloc_last X);
    run last_pred <- lift (predict model x_last);
    run pred_last <- lift (match last_pred with
                           | p :: _ => Ok p
                           | [] => Raise IndexError
                           end);
    let forecast_for := option_map (fun t => date_of (BDay_add t h)) last_asof in
    let forecast_df := ForecastTable
      [ {| f_asof_date := option_map date_of last_asof;
           f_forecast_for_date := forecast_for;
           f_target_ticker := target_ticker;
           f_horizon_days := h;
           f_pred_ret_next := pred_last;
           f_pred_sign := pred_sign pred_last;
           f_run_id := run_id;
           f_created_at := created_at;
           f_split := "forecast_latest" |} ] in
    let forecast_key := mkKey target_ticker h FORECAST_FILE in
    exec upload_df_as_csv_to_s3 forecast_df (pred_bucket cfg) forecast_key endpoint;
    exec print (MsgMetrics target_ticker h val_mae val_rmse test_mae test_rmse);
    print (MsgUploaded test_key forecast_key).

(** The two nested [for] loops: the pairs in order, each run after the
    one before it has returned; an exception ends the loop. *)
Definition pairs (targets : list string) (hmax : Z) : list (string * Z) :=
  flat_map (fun t => List.map (fun h => (t, h)) (range1 hmax)) targets.

Fixpoint loop (body : string -> Z -> Run unit) (ps : list (string * Z)) : Run unit :=
  match ps with
  | [] => ret tt
  | (t, h) :: rest => exec body t h; loop body rest
  end.

Definition get_target_tickers (env : string) (df_prices : DataFrame) : Result (list string) :=
  if String.eqb env "ALL" then Ok (columns df_prices)
  else if negb (existsb (String.eqb env) (columns df_prices)) then Raise ValueError
  else Ok [env].

Definition main (cfg : Config) (file : option CsvTable) : Run unit :=
  if dry_run cfg then print MsgDryRun else
  match s3_endpoint cfg with
  | None => lift (Raise ValueError)
  | Some endpoint =>
    if String.eqb endpoint "" then lift (Raise ValueError) else
    exec external (SetTrackingUri (mlflow_uri cfg));
    exec external (SetExperiment (experiment cfg));
    run df_prices <- lift (load_prices_csv to_datetime parse_number file "Date");
    exec lift (ensure_datetime_index df_prices);
    let df_prices := sort_index df_prices in
    run target_tickers <- lift (get_target_tickers (target_env cfg) df_prices);
    run features_df <- lift (build_features pct_fill_pad agg_mean agg_median agg_std df_prices
                                            (include_monthly cfg) true
                                            (clip_low cfg) (clip_high cfg));
    let features_df := dropna (replace_inf_with_nan features_df) in
    exec lift (assert_no_nan features_df);
    let last_asof := index_max features_df in
    exec print (MsgStart target_tickers (horizon_max cfg) (option_map date_of last_asof)
                        (include_monthly cfg));
    exec loop (iteration cfg endpoint features_df last_asof)
             (pairs target_tickers (horizon_max cfg));
    print MsgAllDone
  end.
End Training.


(* ================================================================= *)
(** ** build_features at the level of objects

    Python variables hold references.  To say which frame objects
    [build_features] writes to, the function is given a second reading in
    which every frame lives in a store: a method call that returns a new
    frame allocates it, an assignment through [obj.columns = ...],
    [obj.index = ...], [obj[name] = ...] or [obj.loc[...] = ...] updates the
    object in place. *)

Definition Ref : Type := nat.
Abbreviation Store := (list DataFrame).

Definition St (A : Type) : Type := Store -> Result A * Store.

Definition st_ret {A : Type} (a : A) : St A := fun s => (Ok a, s).

Definition st_raise {A : Type} (e : PyError) : St A := fun s => (Raise e, s).

Definition st_bind {A B : Type} (c : St A) (k : A -> St B) : St B :=
  fun s => match c s with
           | (Ok a, s') => k a s'
           | (Raise e, s') => (Raise e, s')
           end.

Notation "'obj' x <- c ; k" := (st_bind c (fun x => k))
  (at level 10, x name, c at level 100, k at level 200).
Notation "'upd' c ; k" := (st_bind c (fun _ => k))
  (at level 10, c at level 100, k at level 200).

(** A new object, at the next free address. *)
Definition new (df : DataFrame) : St Ref :=
  fun s => (Ok (length s), s ++ [df]).

(** The frame a reference points to. *)
Definition deref (l : Ref) : St DataFrame :=
  fun s => match s !! l with
           | Some df => (Ok df, s)
           | None => (Raise KeyError, s)
           end.

(** An update in place of the object at [l]. *)
Definition mutate (l : Ref) (f : DataFrame -> DataFrame) : St unit :=
  fun s => match s !! l with
           | Some df => (Ok tt, <[l := f df]> s)
           | None => (Raise KeyError, s)
           end.

(** An update in place that may raise; the object is then left as it
    was. *)
Definition mutate_r (l : Ref) (f : DataFrame -> Result DataFrame) : St unit :=
  fun s => match s !! l with
           | Some df => match f df with
                        | Ok df' => (Ok tt, <[l := df']> s)
                        | Raise e => (Raise e, s)
                        end
           | None => (Raise KeyError, s)
           end.

(** A method that returns a new frame. *)
Definition method (f : DataFrame -> DataFrame) (l : Ref) : St Ref :=
  obj df <- deref l; new (f df).

Definition method_r (f : DataFrame -> Result DataFrame) (l : Ref) : St Ref :=
  obj df <- deref l;
  match f df with
  | Ok df' => new df'
  | Raise e => st_raise e
  end.

Definition method2 (f : DataFrame -> DataFrame -> DataFrame) (l1 l2 : Ref) : St Ref :=
  obj a <- deref l1; obj b <- deref l2; new (f a b).

Definition method2_r (f : DataFrame -> DataFrame -> Result DataFrame) (l1 l2 : Ref) : St Ref :=
  obj a <- deref l1; obj b <- deref l2;
  match f a b with
  | Ok df' => new df'
  | Raise e => st_raise e
  end.

(** [df.copy()]. *)
Definition copy (df : DataFrame) : DataFrame := df.

Section FeaturesObjects.
Variable pct_fill_pad : bool.
Variables agg_mean agg_median agg_std : list float -> float.

Definition build_features_st (df_prices : Ref) (include_monthly clip_returns : bool)
                             (clip_low clip_high : float) : St Ref :=
  obj prices <- deref df_prices;
  if negb (is_DatetimeIndex (index_kind prices)) then st_raise TypeError else
  obj sorted <- method sort_index df_prices;
  obj df <- method copy sorted;
  obj changes <- method (pct_change pct_fill_pad) df;
  obj rets <- method (add_prefix ret_prefix) changes;
  obj out <- method copy df;
  obj out <- (if include_monthly then
                obj monthly <- method (resample_ME_agg agg_mean agg_median agg_std) df;
                obj dfv <- deref df;
                upd mutate monthly (set_columns (flat_labels (columns dfv)));
                upd mutate monthly index_to_period;
                obj monthly_lag1 <- method shift1 monthly;
                obj daily <- method copy df;
                upd mutate daily (set_period_column "ym");
                obj joined <- method2_r (join_on "ym") daily monthly_lag1;
                method_r (drop_column "ym") joined
              else st_ret out);
  obj out <- method2 concat_columns out rets;
  obj replaced <- method replace_inf_with_nan out;
  obj out <- method dropna replaced;
  upd (if clip_returns then
         obj selected <- method ret_columns_of out;
         obj clipped <- method (clip_frame clip_low clip_high) selected;
         obj values <- deref clipped;
         mutate_r out (loc_set_ret_columns values)
       else st_ret tt);
  st_ret out.
End FeaturesObjects.

(* ================================================================= *)
(** ** utils.py: the upload, call by call

    [upload_df_as_csv_to_s3] read at the level of the calls it makes to
    the object store.  The store is a state the calls act on; a call
    returns or raises.  The body of an object is the table whose CSV text
    it holds. *)

Module S3.
Section Client.
(** The state of the object store, and a client bound to an endpoint. *)
Variable World : Type.
Variable Client : Type.
(** [boto3.client("s3", endpoint_url=..., ...)], with the credentials of
    the environment. *)
Variable client : string -> World -> Result Client * World.
Variable head_bucket : Client -> string -> World -> Result unit * World.
Variable create_bucket : Client -> string -> World -> Result unit * World.
(** [put_object(Bucket, Key, Body, ContentType)]. *)
Variable put_object : Client -> string -> ObjectKey -> Table -> string -> World
                      -> Result unit * World.

Definition _s3_client (endpoint_url : string) : World -> Result Client * World :=
  client endpoint_url.

(** [try: head_bucket(...) except Exception: create_bucket(...)]. *)
Definition _ensure_bucket (s3 : Client) (bucket : string) : World -> Result unit * World :=
  fun w => match head_bucket s3 bucket w with
           | (Ok _, w') => (Ok tt, w')
           | (Raise _, w') => create_bucket s3 bucket w'
           end.

Definition upload_df_as_csv_to_s3 (df : Table) (bucket : string) (key : ObjectKey)
                                  (endpoint_url : string) : World -> Result unit * World :=
  fun w => match _s3_client endpoint_url w with
           | (Raise e, w1) => (Raise e, w1)
           | (Ok s3, w1) =>
               match _ensure_bucket s3 bucket w1 with
               | (Raise e, w2) => (Raise e, w2)
               | (Ok _, w2) => put_object s3 bucket key df "text/csv" w2
               end
           end.
End Client.
End S3.

(* ================================================================= *)
(** * The vocabulary of the properties *)

(** The order of a list sorted by a key. *)
Definition key_le {A : Type} (key : A -> Z) (a b : A) : Prop := key a <= key b.

(** The values of the column labelled [c]. *)
Definition column_values (c : string) (df : DataFrame) : list float :=
  match index_of c (columns df) with
  | Some j => column_at j df
  | None => []
  end.

(** The label of the return column of ticker [T]. *)
Definition target_column (T : string) : string := (ret_prefix ++ T)%string.

(** The test of line 46: a return column other than the target's. *)
Definition is_feature_column (T : string) (c : string) : bool :=
  String.prefix ret_prefix c && negb (String.eqb c (target_column T)).

(** [index.is_monotonic_increasing]. *)
Fixpoint is_monotonic_increasing (l : list Z) : bool :=
  match l with
  | x :: (y :: _) as t => (x <=? y) && is_monotonic_increasing t
  | _ => true
  end.


(** The three slices of a frame that is already sorted by time. *)
Definition split_sorted (df : DataFrame) (train_end val_end : DateStr)
  : DataFrame * DataFrame * DataFrame :=
  (loc_slice None (Some (ds_end train_end)) df,
   loc_slice (Some (ds_start train_end + NS_PER_DAY)) (Some (ds_end val_end)) df,
   loc_slice (Some (ds_start val_end + NS_PER_DAY)) None df).


(** Every cell of the frame is a number: neither NaN nor infinite. *)
Definition all_finite (df : DataFrame) : Prop :=
  Forall (fun r => Forall (fun x => finite x = true) (cells r)) (rows df).

(** Within one 400-year era, counted in years that start in March: the
    first day of year [y] of the era, and the year and the month of the
    day [doe] of the era as [civil_year_month] computes them. *)
Definition year_start (y : Z) : Z := 365 * y + y / 4 - y / 100.

Definition era_yoe (doe : Z) : Z := (doe - doe / 1460 + doe / 36524 - doe / 146096) / 365.

Definition era_mp (doe : Z) : Z := (5 * (doe - year_start (era_yoe doe)) + 2) / 153.

Definition era_month (doe : Z) : Z := 12 * era_yoe doe + era_mp doe.

(** The year formula is right on the first and on the last day of every
    year of the era; this is checked year by year. *)
Definition year_check (y : Z) : bool :=
  (era_yoe (year_start y) =? y)
  && (era_yoe (if y =? 399 then 146096 else year_start (y + 1) - 1) =? y).

Fixpoint check_from (fuel : nat) (y : Z) : bool :=
  match fuel with
  | O => true
  | S k => year_check y && check_from k (y + 1)
  end.

(** The months [a], [a + 1], ..., [a + k - 1]. *)
Definition consec (a : Z) (k : nat) : list Z :=
  List.map (fun i => a + Z.of_nat i) (seq 0 k).

(** The rows dated in the months before [M]. *)
Definition rows_before (M : Z) (rs : list Row) : list Row :=
  List.filter (fun r => to_period_M (label r) <? M) rs.

(** What month [M] is shown of the months before it: the aggregates of
    month [M - 1] when there is any earlier row, NaN otherwise.  It is a
    function of the rows of the months before [M] alone. *)
Definition lagged_stats (agg_mean agg_median agg_std : list float -> float)
                        (n : nat) (before : list Row) (M : Z) : list float :=
  match before with
  | [] => repeat nan (3 * n)
  | _ :: _ => cells (agg_row agg_mean agg_median agg_std n before (M - 1))
  end.

(** A plain price table: float columns only, one cell per column. *)
Definition price_table (df : DataFrame) : Prop :=
  key_columns df = [] /\
  Forall (fun r => keys r = [] /\ length (cells r) = length (columns df)) (rows df).

(** The cells of the monthly columns of a row, for a table of [n]
    tickers: they follow the [n] price cells and there are three per
    ticker. *)
Definition monthly_part (n : nat) (r : Row) : list float :=
  firstn (3 * n) (skipn n (cells r)).

(** Cell by cell, what lines 66 and 67 do to a row. *)
Fixpoint clip_cells (g : float -> float) (cols : list string) (cs : list float) : list float :=
  match cols, cs with
  | c :: cols', x :: cs' => (if is_ret_col c then g x else x) :: clip_cells g cols' cs'
  | _, _ => cs
  end.

(** What the cleanup and the clipping make of the monthly cells that
    the join attached. *)
Definition monthly_post (clipf : bool) (lo hi : float) (cols : list string)
                        (attached : list float) : list float :=
  let v := List.map replace_inf attached in
  if clipf then clip_cells (clip lo hi) (flat_labels cols) v else v.

(** A day number that falls on Monday to Friday. *)
Definition is_business_day (d : Z) : bool := (d + 3) mod 7 <=? 4.

(** The number of business days among the [k] days after day [d]. *)
Definition business_days_after (d k : Z) : Z :=
  Z.of_nat (length (List.filter is_business_day (consec (d + 1) (Z.to_nat k)))).

(** The same count for a day whose weekday is [w]. *)
Definition weekdays_after (w k : Z) : Z :=
  Z.of_nat (length (List.filter (fun i => (w + i) mod 7 <=? 4) (consec 1 (Z.to_nat k)))).

(** The uploads of latest-forecast tables among the events of a run. *)
Definition forecast_uploads (ev : list Event) : list Event :=
  List.filter (fun e => match e with
                        | PutObject _ key _ _ => String.eqb (key_file key) FORECAST_FILE
                        | _ => false
                        end) ev.

(** The artifacts among the events of a run. *)
Definition artifacts (ev : list Event) : list Event := List.filter is_artifact ev.

(** The skip test of line 123. *)
Definition too_small (cfg : Config) (train_df val_df test_df : DataFrame) : bool :=
  (len train_df <? min_samples cfg) || (len val_df <? min_samples cfg)
  || (len test_df <? min_samples cfg).

(** Every row has one cell per column. *)
Definition rectangular (df : DataFrame) : Prop :=
  Forall (fun r => length (cells r) = length (columns df)) (rows df).

(** How often a label occurs in an index. *)
Definition count_label (d : Z) (l : list Z) : nat := length (List.filter (Z.eqb d) l).

(** The rows dated up to [t], and [df[df.index <= t]]: the frame cut at
    time [t]. *)
Definition rows_upto (t : Timestamp) (rs : list Row) : list Row :=
  List.filter (fun r => label r <=? t) rs.

Definition upto (t : Timestamp) (df : DataFrame) : DataFrame :=
  with_rows df (rows_upto t (rows df)).

(** The prices [pct_change] works on: forward-filled where pandas pads. *)
Definition padded (pad : bool) (rs : list Row) : list Row := if pad then ffill rs else rs.

(** The monthly cells the join attaches to a row: none with the monthly
    features off. *)
Definition monthly_cells (agg_mean agg_median agg_std : list float -> float)
                         (inc : bool) (df : DataFrame) (r : Row) : list float :=
  if inc
  then joined_cells (to_period_M (label r)) (monthly_lag1 agg_mean agg_median agg_std df)
  else [].

(** The cells a row has in the columns whose label starts with "ret_". *)
Definition ret_values (df : DataFrame) (r : Row) : list float :=
  ret_cells (columns df) (cells r).

(** The uploads of test-prediction tables among the events of a run. *)
Definition test_uploads (ev : list Event) : list Event :=
  List.filter (fun e => match e with
                        | PutObject _ key _ _ => String.eqb (key_file key) TEST_FILE
                        | _ => false
                        end) ev.

(** The skip warnings among the events of a run. *)
Definition skip_messages (ev : list Event) : list Event :=
  List.filter (fun e => match e with
                        | Print (MsgSkip _ _ _ _ _) => true
                        | _ => false
                        end) ev.

(** The pairs a run has dealt with, in the order of its events: a pair
    is named by the latest forecast uploaded for it or by the warning that
    it is skipped. *)
Definition handled_pairs (ev : list Event) : list (string * Z) :=
  flat_map (fun e => match e with
                     | PutObject _ key _ _ =>
                         if String.eqb (key_file key) FORECAST_FILE
                         then [(key_target key, key_horizon key)] else []
                     | Print (MsgSkip t h _ _ _) => [(t, h)]
                     | _ => []
                     end) ev.

(* ================================================================= *)
(** * Concrete inputs *)

(** A feature matrix of three days with the returns of two tickers. *)
Definition ex_features : DataFrame :=
  {| index_kind := DatetimeIndex;
     columns := ["ret_A"; "ret_B"]%string;
     key_columns := [];
     rows := [ mkRow (1 * NS_PER_DAY) [0.5; 0.25]%float [];
               mkRow (2 * NS_PER_DAY) [0.125; -0.5]%float [];
               mkRow (3 * NS_PER_DAY) [-0.25; 0.75]%float [] ] |}.

(** A feature matrix of a single day. *)
Definition ex_one_row : DataFrame :=
  {| index_kind := DatetimeIndex;
     columns := ["ret_A"; "ret_B"]%string;
     key_columns := [];
     rows := [ mkRow (1 * NS_PER_DAY) [0.5; 0.25]%float [] ] |}.

(** A price table of three days, given out of time order. *)
Definition ex_unsorted : DataFrame :=
  {| index_kind := DatetimeIndex;
     columns := ["A"]%string;
     key_columns := [];
     rows := [ mkRow (3 * NS_PER_DAY) [4%float] [];
               mkRow (1 * NS_PER_DAY) [1%float] [];
               mkRow (2 * NS_PER_DAY) [2%float] [] ] |}.

(** The same three days on an index that carries a time zone. *)
Definition ex_tz_aware : DataFrame :=
  {| index_kind := DatetimeIndexTZ;
     columns := ["A"]%string;
     key_columns := [];
     rows := [ mkRow (3 * NS_PER_DAY) [4%float] [];
               mkRow (1 * NS_PER_DAY) [1%float] [];
               mkRow (2 * NS_PER_DAY) [2%float] [] ] |}.

(** The day number of a calendar date (proleptic Gregorian). *)
Definition days_from_civil (y m d : Z) : Z :=
  let y' := if m <=? 2 then y - 1 else y in
  let era := y' / 400 in
  let yoe := y' - era * 400 in
  let doy := (153 * (if 2 <? m then m - 3 else m + 9) + 2) / 5 + d - 1 in
  let doe := yoe * 365 + yoe / 4 - yoe / 100 + doy in
  era * 146097 + doe - 719468.

(** Unsigned decimal numerals. *)
Definition digit (c : ascii) : option Z :=
  let n := Z.of_nat (nat_of_ascii c) in
  if (48 <=? n) && (n <=? 57) then Some (n - 48) else None.

Fixpoint digits (acc : Z) (s : string) : option Z :=
  match s with
  | EmptyString => Some acc
  | String c s' => match digit c with
                   | Some k => digits (10 * acc + k) s'
                   | None => None
                   end
  end.

Definition number (s : string) : option Z :=
  match s with
  | EmptyString => None
  | _ => digits 0 s
  end.

(** A concrete date parser for the examples: "YYYY-MM-DD" and nothing
    else. *)
Definition iso_date (s : string) : option Timestamp :=
  if negb ((String.length s =? 10)%nat
           && String.eqb (String.substring 4 1 s) "-" && String.eqb (String.substring 7 1 s) "-")
  then None
  else match number (String.substring 0 4 s), number (String.substring 5 2 s),
             number (String.substring 8 2 s) with
       | Some y, Some m, Some d =>
           if (1 <=? m) && (m <=? 12) && (1 <=? d) && (d <=? 31)
           then Some (days_from_civil y m d * NS_PER_DAY)
           else None
       | _, _, _ => None
       end.

(** A concrete number parser for the examples: unsigned decimal
    integers. *)
Definition integer_literal (s : string) : option float :=
  match number s with
  | Some z => Some (PrimFloat.of_uint63 (Uint63.of_Z z))
  | None => None
  end.

(** A price file with a repeated date, an unreadable date and a
    non-numeric cell. *)
Definition ex_csv : CsvTable :=
  {| csv_columns := ["Date"; "A"; "B"]%string;
     csv_rows := [ ["2024-01-03"; "102"; "7"];
                   ["2024-01-02"; "101"; "n/a"];
                   ["yesterday"; "100"; "5"];
                   ["2024-01-02"; "99"; "6"] ]%string |}.

(** *** Concrete aggregates for the examples: missing values are skipped,
    an empty bin gives NaN, the standard deviation is the sample one. *)
Definition fsum (l : list float) : float := fold_right (fun x acc => (x + acc)%float) 0%float l.

Definition fcount (l : list float) : float :=
  PrimFloat.of_uint63 (Uint63.of_Z (Z.of_nat (length l))).

Definition notna (l : list float) : list float := List.filter (fun x => negb (isna x)) l.

Definition nanmean (l : list float) : float :=
  let v := notna l in (fsum v / fcount v)%float.

Fixpoint finsert (x : float) (l : list float) : list float :=
  match l with
  | [] => [x]
  | y :: t => if (x <=? y)%float then x :: l else y :: finsert x t
  end.

Definition nanmedian (l : list float) : float :=
  let v := fold_right finsert [] (notna l) in
  let n := length v in
  if Nat.even n
  then ((nth (n / 2 - 1) v nan + nth (n / 2) v nan) / 2)%float
  else nth (n / 2) v nan.

Definition nanstd (l : list float) : float :=
  let v := notna l in
  let m := (fsum v / fcount v)%float in
  PrimFloat.sqrt (fsum (List.map (fun x => ((x - m) * (x - m))%float) v)
                  / (fcount v - 1))%float.

(** Prices of two tickers over two calendar months, out of order and
    with a price of zero (its return is infinite and the row is dropped). *)
Definition ex_prices : DataFrame :=
  {| index_kind := DatetimeIndex;
     columns := ["A"; "B"]%string;
     key_columns := [];
     rows := [ mkRow (days_from_civil 2024 2 5 * NS_PER_DAY) [110; 8]%float [];
               mkRow (days_from_civil 2024 1 2 * NS_PER_DAY) [100; 4]%float [];
               mkRow (days_from_civil 2024 1 3 * NS_PER_DAY) [104; 0]%float [];
               mkRow (days_from_civil 2024 2 1 * NS_PER_DAY) [96; 6]%float [];
               mkRow (days_from_civil 2024 2 2 * NS_PER_DAY) [120; 6]%float [] ] |}.

(** The prices of [ex_prices] with another February: January is the
    same, every February price differs. *)
Definition ex_prices_alt : DataFrame :=
  {| index_kind := DatetimeIndex;
     columns := ["A"; "B"]%string;
     key_columns := [];
     rows := [ mkRow (days_from_civil 2024 1 2 * NS_PER_DAY) [100; 4]%float [];
               mkRow (days_from_civil 2024 1 3 * NS_PER_DAY) [104; 0]%float [];
               mkRow (days_from_civil 2024 2 12 * NS_PER_DAY) [50; 10]%float [];
               mkRow (days_from_civil 2024 2 13 * NS_PER_DAY) [55; 11]%float [] ] |}.

Definition frame_or (d : DataFrame) (r : Result DataFrame) : DataFrame :=
  match r with
  | Ok x => x
  | Raise _ => d
  end.

Definition ex_matrix : DataFrame :=
  Eval vm_compute in
    frame_or ex_prices
      (build_features false nanmean nanmedian nanstd ex_prices true true (-0.25)%float 0.25%float).

Definition ex_matrix_alt : DataFrame :=
  Eval vm_compute in
    frame_or ex_prices
      (build_features false nanmean nanmedian nanstd ex_prices_alt true true (-0.25)%float
                      0.25%float).

(** *** A concrete run: a regressor that predicts the sum of the
    features, a tracker and a store that accept every call. *)
Definition ex_fit (X : DataFrame) (y : list float) : Result unit := Ok tt.

Definition ex_predict (m : unit) (X : DataFrame) : Result (list float) :=
  Ok (List.map (fun r => fsum (cells r)) (rows X)).

Definition ex_metric (y_true y_pred : list float) : Result float :=
  Ok (fsum (map2 (fun a b => PrimFloat.abs (a - b)%float) y_true y_pred)).

Definition ex_external_ok (e : Event) : bool := true.

Definition ex_run_id (target : string) (h : Z) : string := ("run-" ++ target)%string.

Definition ex_now (target : string) (h : Z) : string := "2024-01-09T00:00:00+00:00".

(** Five trading days, Tuesday 2024-01-02 to Monday 2024-01-08. *)
Definition ex_week : DataFrame :=
  {| index_kind := DatetimeIndex;
     columns := ["ret_A"; "ret_B"]%string;
     key_columns := [];
     rows := [ mkRow (days_from_civil 2024 1 2 * NS_PER_DAY) [0.5; 0.25]%float [];
               mkRow (days_from_civil 2024 1 3 * NS_PER_DAY) [0.125; -0.5]%float [];
               mkRow (days_from_civil 2024 1 4 * NS_PER_DAY) [-0.25; 0.75]%float [];
               mkRow (days_from_civil 2024 1 5 * NS_PER_DAY) [0.25; -0.125]%float [];
               mkRow (days_from_civil 2024 1 8 * NS_PER_DAY) [0.5; 0.5]%float [] ] |}.

Definition ex_config (min : Z) : Config :=
  {| dry_run := false;
     horizon_max := 1;
     include_monthly := false;
     mlflow_uri := "http://mlflow:5000";
     experiment := "sp500_return_regression";
     clip_low := (-0.25)%float;
     clip_high := 0.25%float;
     train_end := date_str (days_from_civil 2024 1 3);
     val_end := date_str (days_from_civil 2024 1 4);
     pred_bucket := "predictions";
     s3_endpoint := Some "http://minio:9000"%string;
     min_samples := min;
     target_env := "A" |}.

Definition ex_asof : Timestamp := days_from_civil 2024 1 8 * NS_PER_DAY.

Definition ex_iteration (min : Z) : Run unit :=
  iteration unit ex_fit ex_predict ex_metric ex_metric ex_external_ok ex_run_id ex_now
            (ex_config min) "http://minio:9000" ex_week (Some ex_asof) "A" 1.

Definition ex_events : list Event := Eval vm_compute in fst (ex_iteration 1).

(** A frame and a series over an index that repeats a date. *)
Definition ex_repeated_X : DataFrame :=
  {| index_kind := DatetimeIndex;
     columns := ["ret_B"]%string;
     key_columns := [];
     rows := [ mkRow (1 * NS_PER_DAY) [0.25%float] [];
               mkRow (1 * NS_PER_DAY) [0.5%float] [];
               mkRow (2 * NS_PER_DAY) [0.75%float] [] ] |}.

Definition ex_repeated_y : Series :=
  {| s_name := "y";
     s_items := [ (1 * NS_PER_DAY, 0.125%float); (1 * NS_PER_DAY, 0.375%float);
                  (2 * NS_PER_DAY, 0.625%float) ] |}.

(** A boundary string of month resolution, "YYYY-MM": it parses to the
    first midnight of the month and, as a slice bound, reaches to the end
    of the month. *)
Definition month_str (y m : Z) : DateStr :=
  {| ds_start := days_from_civil y m 1 * NS_PER_DAY;
     ds_end := days_from_civil (if m =? 12 then y + 1 else y) (if m =? 12 then 1 else m + 1) 1
               * NS_PER_DAY - 1 |}.

(** A boundary string of minute resolution, "YYYY-MM-DD HH:MM": it
    parses to that minute and, as a slice bound, reaches to its end. *)
Definition minute_str (d hh mm : Z) : DateStr :=
  {| ds_start := d * NS_PER_DAY + (hh * 60 + mm) * 60000000000;
     ds_end := d * NS_PER_DAY + (hh * 60 + mm) * 60000000000 + 60000000000 - 1 |}.

(** Six days of one ticker, over three months. *)
Definition ex_daily : DataFrame :=
  {| index_kind := DatetimeIndex;
     columns := ["A"]%string;
     key_columns := [];
     rows := [ mkRow (days_from_civil 2024 1 2 * NS_PER_DAY) [1%float] [];
               mkRow (days_from_civil 2024 1 15 * NS_PER_DAY) [2%float] [];
               mkRow (days_from_civil 2024 1 31 * NS_PER_DAY) [3%float] [];
               mkRow (days_from_civil 2024 2 1 * NS_PER_DAY) [4%float] [];
               mkRow (days_from_civil 2024 2 15 * NS_PER_DAY) [5%float] [];
               mkRow (days_from_civil 2024 3 1 * NS_PER_DAY) [6%float] [] ] |}.

Definition ex_mid_january : Row := mkRow (days_from_civil 2024 1 15 * NS_PER_DAY) [2%float] [].

Definition ex_end_january : Row := mkRow (days_from_civil 2024 1 31 * NS_PER_DAY) [3%float] [].



(** Six trading days of two tickers, as a file. *)
Definition ex_file : CsvTable :=
  {| csv_columns := ["Date"; "A"; "B"]%string;
     csv_rows := [ ["2024-01-02"; "100"; "50"];
                   ["2024-01-03"; "101"; "52"];
                   ["2024-01-04"; "103"; "51"];
                   ["2024-01-05"; "102"; "53"];
                   ["2024-01-08"; "104"; "55"];
                   ["2024-01-09"; "105"; "54"] ]%string |}.

(** The feature matrix of a price table with a single row: the row has
    no return and is dropped. *)
Definition ex_no_features : DataFrame :=
  {| index_kind := DatetimeIndex;
     columns := ["A"; "B"; "ret_A"; "ret_B"]%string;
     key_columns := [];
     rows := [] |}.

(** A price file with a single dated row. *)
Definition ex_single_row : CsvTable :=
  {| csv_columns := ["Date"; "A"; "B"]%string;
     csv_rows := [ ["2024-01-02"; "100"; "50"] ]%string |}.

(** A run over every ticker of the file and three horizons. *)
Definition ex_run_config : Config :=
  {| dry_run := false;
     horizon_max := 3;
     include_monthly := false;
     mlflow_uri := "http://mlflow:5000";
     experiment := "sp500_return_regression";
     clip_low := (-0.25)%float;
     clip_high := 0.25%float;
     train_end := date_str (days_from_civil 2024 1 3);
     val_end := date_str (days_from_civil 2024 1 4);
     pred_bucket := "predictions";
     s3_endpoint := Some "http://minio:9000"%string;
     min_samples := 1;
     target_env := "ALL" |}.

Definition ex_main : Run unit :=
  main unit ex_fit ex_predict ex_metric ex_metric ex_external_ok ex_run_id ex_now
       false nanmean nanmedian nanstd iso_date integer_literal ex_run_config (Some ex_file).

Definition ex_main_events : list Event := Eval vm_compute in fst ex_main.

(** *** An object store in memory: the buckets that exist and the object
    under every key. *)
Record Memory : Type := mkMemory {
  m_buckets : string -> bool;
  m_objects : string -> ObjectKey -> option Table
}.

Definition key_eqb (a b : ObjectKey) : bool :=
  String.eqb (key_target a) (key_target b) && (key_horizon a =? key_horizon b)
  && String.eqb (key_file a) (key_file b).

Definition mem_client (endpoint : string) (w : Memory) : Result unit * Memory := (Ok tt, w).

Definition mem_head_bucket (c : unit) (b : string) (w : Memory) : Result unit * Memory :=
  if m_buckets w b then (Ok tt, w) else (Raise ExternalError, w).

Definition mem_create_bucket (c : unit) (b : string) (w : Memory) : Result unit * Memory :=
  if m_buckets w b then (Raise ExternalError, w)
  else (Ok tt, {| m_buckets := fun b' => String.eqb b' b || m_buckets w b';
                  m_objects := m_objects w |}).

Definition mem_put_object (c : unit) (b : string) (k : ObjectKey) (body : Table)
                          (content_type : string) (w : Memory) : Result unit * Memory :=
  if m_buckets w b
  then (Ok tt, {| m_buckets := m_buckets w;
                  m_objects := fun b' k' => if String.eqb b' b && key_eqb k' k then Some body
                                            else m_objects w b' k' |})
  else (Raise ExternalError, w).

Definition empty_memory : Memory :=
  {| m_buckets := fun _ => false; m_objects := fun _ _ => None |}.

(* ================================================================= *)
(** * Properties *)

(** ** Lists, columns and slices *)

Lemma existsb_eqb_In (c : string) (cols : list string) :
  existsb (String.eqb c) cols = true <-> In c cols.
Proof.
  rewrite existsb_exists. split.
  - intros [x [Hin Heq]]. apply String.eqb_eq in Heq. now subst.
  - intros Hin. exists c. split; [assumption | apply String.eqb_refl].
Qed.

Lemma index_of_Some (c : string) (cols : list string) :
  In c cols -> exists j, index_of c cols = Some j.
Proof.
  induction cols as [|c' t IH]; simpl; [tauto|].
  intros Hin. destruct (String.eqb c c') eqn:E; [now exists 0%nat|].
  destruct Hin as [->|Hin]; [rewrite String.eqb_refl in E; discriminate|].
  destruct (IH Hin) as [j Hj]. rewrite Hj. now exists (S j).
Qed.

Lemma positions_Some (cs cols : list string) :
  (forall c, In c cs -> In c cols) -> exists js, positions cs cols = Ok js.
Proof.
  induction cs as [|c t IH]; simpl; intros Hsub; [now exists []|].
  destruct (index_of_Some c cols) as [j Hj]; [auto|]. rewrite Hj.
  destruct IH as [js Hjs]; [auto|]. rewrite Hjs. simpl. now exists (j :: js).
Qed.

Lemma labels_eqb_refl (l : list Z) : labels_eqb l l = true.
Proof. induction l as [|x l IH]; simpl; [reflexivity|]. now rewrite Z.eqb_refl. Qed.

Lemma slice_to_map {A B : Type} (f : A -> B) (stop : Z) (l : list A) :
  List.map f (slice_to stop l) = slice_to stop (List.map f l).
Proof.
  unfold slice_to. rewrite length_map. destruct (stop <? 0); now rewrite firstn_map.
Qed.

Lemma slice_to_neg_length {A : Type} (h : Z) (l : list A) :
  1 <= h -> Z.of_nat (length (slice_to (- h) l)) = Z.max 0 (Z.of_nat (length l) - h).
Proof.
  intros Hh. unfold slice_to. destruct (Z.ltb_spec (- h) 0) as [_|]; [|lia].
  rewrite length_firstn. lia.
Qed.

Lemma slice_to_length_eq {A B : Type} (stop : Z) (a : list A) (b : list B) :
  length a = length b -> length (slice_to stop a) = length (slice_to stop b).
Proof.
  intros H. unfold slice_to. rewrite H. destruct (stop <? 0); rewrite !length_firstn; lia.
Qed.

Lemma shift_values_length (periods : Z) (vs : list float) :
  length (shift_values periods vs) = length vs.
Proof.
  unfold shift_values. destruct (0 <=? periods);
    rewrite length_app, repeat_length; [rewrite length_firstn | rewrite length_skipn]; lia.
Qed.

Lemma map_fst_combine {A B : Type} (a : list A) (b : list B) :
  length a = length b -> List.map fst (combine a b) = a.
Proof.
  revert b. induction a as [|x a IH]; intros [|y b]; simpl; try discriminate; [reflexivity|].
  intros H. f_equal. apply IH. lia.
Qed.

Lemma map_snd_combine {A B : Type} (a : list A) (b : list B) :
  length a = length b -> List.map snd (combine a b) = b.
Proof.
  revert b. induction a as [|x a IH]; intros [|y b]; simpl; try discriminate; [reflexivity|].
  intros H. f_equal. apply IH. lia.
Qed.

(** A negative shift followed by the matching trim: what stays at
    position [t] is the value [h] places further down. *)
Lemma shift_trim_nth (h : Z) (vs : list float) (t : nat) :
  1 <= h -> (t < length (slice_to (- h) vs))%nat ->
  nth t (slice_to (- h) (shift_values (- h) vs)) nan = nth (t + Z.to_nat h) vs nan.
Proof.
  intros Hh Ht.
  assert (Hlen := slice_to_neg_length h vs Hh).
  unfold slice_to in *. rewrite shift_values_length.
  destruct (Z.ltb_spec (- h) 0) as [_|]; [|lia].
  unfold shift_values. destruct (Z.leb_spec 0 (- h)) as [|_]; [lia|].
  rewrite Z.opp_involutive.
  rewrite length_firstn in Ht.
  assert (Hk : Nat.min (Z.to_nat h) (length vs) = Z.to_nat h) by lia.
  rewrite Hk.
  rewrite nth_firstn.
  destruct (Nat.ltb_spec t (Z.to_nat (Z.max 0 (Z.of_nat (length vs) + - h)))); [|lia].
  rewrite app_nth1 by (rewrite length_skipn; lia).
  rewrite nth_skipn. f_equal. lia.
Qed.

(** ** make_xy *)

Lemma index_getitem_list (cs : list string) (df X : DataFrame) :
  getitem_list cs df = Ok X -> index X = index df /\ columns X = cs.
Proof.
  unfold getitem_list. destruct (positions cs (columns df)) as [js|e]; simpl; [|discriminate].
  intros [= <-]. unfold index. simpl. rewrite map_map. split; reflexivity.
Qed.

Lemma index_shifted (periods : Z) (c : string) (df : DataFrame) (s : Series) :
  getitem c df = Ok s -> s_index (s_shift periods s) = index df /\ s_values s = column_values c df.
Proof.
  unfold getitem, column_values. destruct (index_of c (columns df)) as [j|]; [|discriminate].
  intros [= <-]. unfold s_shift, s_index, s_values, index, column_at. simpl.
  rewrite !map_map. simpl. split; [|reflexivity].
  apply map_fst_combine. rewrite shift_values_length. now rewrite !length_map.
Qed.

Lemma index_iloc_to (stop : Z) (X : DataFrame) :
  index (iloc_to stop X) = slice_to stop (index X).
Proof. unfold index, iloc_to, with_rows. cbn [rows]. apply slice_to_map. Qed.

Lemma s_index_iloc_to (stop : Z) (y : Series) :
  s_index (s_iloc_to stop y) = slice_to stop (s_index y).
Proof. unfold s_index, s_iloc_to. cbn [s_items]. apply slice_to_map. Qed.

(** What [make_xy] returns when it returns: the function unfolded once
    and for all. *)
Lemma make_xy_inv (F : DataFrame) (T : string) (h : Z) (X : DataFrame) (y : Series)
                  (fc : list string) :
  make_xy F T h = Ok (X, y, fc) ->
  exists (y0 : Series) (X0 : DataFrame),
    In (target_column T) (columns F) /\
    getitem (target_column T) F = Ok y0 /\
    fc = List.filter (is_feature_column T) (columns F) /\
    getitem_list fc F = Ok X0 /\
    X = iloc_to (- h) X0 /\
    y = s_iloc_to (- h) (s_shift (- h) y0).
Proof.
  unfold make_xy. fold (target_column T).
  destruct (existsb (String.eqb (target_column T)) (columns F)) eqn:Hex; simpl; [|discriminate].
  apply existsb_eqb_In in Hex.
  destruct (getitem (target_column T) F) as [y0|e] eqn:Hy; simpl; [|discriminate].
  change (fun c => String.prefix ret_prefix c && negb (String.eqb c (target_column T)))
    with (is_feature_column T).
  destruct (getitem_list (List.filter (is_feature_column T) (columns F)) F) as [X0|e] eqn:HX;
    simpl; [|discriminate].
  destruct (index_equals _ _); simpl; [|discriminate].
  intros [= <- <- <-]. exists y0, X0. repeat split; assumption.
Qed.

(** [make_xy] returns as soon as the target's return column is there:
    neither lookup fails and the index assertion holds. *)
Lemma make_xy_total (F : DataFrame) (T : string) (h : Z) :
  In (target_column T) (columns F) -> exists X y fc, make_xy F T h = Ok (X, y, fc).
Proof.
  intros Hin. unfold make_xy. fold (target_column T).
  rewrite (proj2 (existsb_eqb_In _ _) Hin). simpl.
  destruct (index_of_Some _ _ Hin) as [j Hj].
  assert (Hy : exists y0, getitem (target_column T) F = Ok y0)
    by (unfold getitem; rewrite Hj; eauto).
  destruct Hy as [y0 Hy]. rewrite Hy. simpl.
  change (fun c => String.prefix ret_prefix c && negb (String.eqb c (target_column T)))
    with (is_feature_column T).
  set (fc := List.filter (is_feature_column T) (columns F)).
  destruct (positions_Some fc (columns F)) as [js Hjs].
  { intros c Hc. apply filter_In in Hc. tauto. }
  assert (HX : exists X0, getitem_list fc F = Ok X0)
    by (unfold getitem_list; rewrite Hjs; simpl; eauto).
  destruct HX as [X0 HX]. rewrite HX. simpl.
  assert (Heq : index_equals (iloc_to (- h) X0) (s_iloc_to (- h) (s_shift (- h) y0)) = true).
  { unfold index_equals. rewrite index_iloc_to, s_index_iloc_to.
    destruct (index_getitem_list _ _ _ HX) as [HiX _].
    destruct (index_shifted (- h) _ _ _ Hy) as [Hiy _].
    rewrite HiX, Hiy. apply labels_eqb_refl. }
  rewrite Heq. simpl. eauto.
Qed.

(** C1 (as amended): for a feature matrix that has the target's return
    column and a horizon [h >= 1], [make_xy] returns; [X] and [y] have
    [max 0 (rows - h)] rows each, that is [rows - h] as long as the horizon
    does not exceed the number of rows; their indexes are equal, label by
    label; and at every retained row [t], which is row [t] of the feature
    matrix, [y] holds the target's return found [h] rows later. *)
Theorem make_xy_label_alignment (F : DataFrame) (T : string) (h : Z) :
  In (target_column T) (columns F) -> 1 <= h ->
  exists X y fc,
    make_xy F T h = Ok (X, y, fc) /\
    len X = Z.max 0 (len F - h) /\
    s_len y = Z.max 0 (len F - h) /\
    index X = s_index y /\
    (forall t : nat, (t < length (rows X))%nat ->
       nth t (s_values y) nan = nth (t + Z.to_nat h) (column_values (target_column T) F) nan /\
       nth t (index X) 0 = nth t (index F) 0).
Proof.
  intros Hin Hh.
  destruct (make_xy_total F T h Hin) as (X & y & fc & Hxy).
  exists X, y, fc. split; [exact Hxy|].
  destruct (make_xy_inv _ _ _ _ _ _ Hxy) as (y0 & X0 & _ & Hy & _ & HX & -> & ->).
  destruct (index_getitem_list _ _ _ HX) as [HiX _].
  destruct (index_shifted (- h) _ _ _ Hy) as [Hiy Hvals].
  assert (HlenX : length (rows X0) = length (rows F))
    by (apply (f_equal (@length Z)) in HiX; unfold index in HiX; now rewrite !length_map in HiX).
  assert (Hleny : length (s_items (s_shift (- h) y0)) = length (rows F)).
  { apply (f_equal (@length Z)) in Hiy. unfold s_index, index in Hiy.
    now rewrite !length_map in Hiy. }
  assert (Hidx : index (iloc_to (- h) X0) = slice_to (- h) (index F))
    by (rewrite index_iloc_to; now rewrite HiX).
  assert (Hidy : s_index (s_iloc_to (- h) (s_shift (- h) y0)) = slice_to (- h) (index F))
    by (rewrite s_index_iloc_to; now rewrite Hiy).
  repeat split.
  - unfold len, iloc_to, with_rows. cbn [rows].
    rewrite slice_to_neg_length by assumption. now rewrite HlenX.
  - unfold s_len, s_iloc_to. cbn [s_items].
    rewrite slice_to_neg_length by assumption. now rewrite Hleny.
  - now rewrite Hidx, Hidy.
  - unfold s_values at 1. unfold s_iloc_to. cbn [s_items]. rewrite slice_to_map.
    assert (Hsv : List.map snd (s_items (s_shift (- h) y0)) = shift_values (- h) (s_values y0)).
    { unfold s_shift. simpl. apply map_snd_combine.
      rewrite shift_values_length. unfold s_index, s_values. now rewrite !length_map. }
    rewrite Hsv, <- Hvals. apply shift_trim_nth; [assumption|].
    unfold iloc_to, with_rows in H. cbn [rows] in H.
    assert (Hl0 : length (s_values y0) = length (rows X0)).
    { rewrite HlenX, <- Hleny. unfold s_shift. cbn [s_items]. rewrite length_combine.
      rewrite shift_values_length. unfold s_index, s_values. rewrite !length_map. lia. }
    now rewrite (slice_to_length_eq (- h) _ _ Hl0).
  - rewrite Hidx.
    unfold iloc_to, with_rows in H. cbn [rows] in H.
    assert (Hl0 : length (rows X0) = length (index F)) by (unfold index; now rewrite length_map).
    rewrite (slice_to_length_eq (- h) _ _ Hl0) in H.
    unfold slice_to in *.
    destruct (- h <? 0); rewrite length_firstn in H; rewrite nth_firstn;
      match goal with |- context [(?a <? ?b)%nat] => destruct (Nat.ltb_spec a b) end;
      try reflexivity; lia.
Qed.

Lemma make_xy_label_alignment_witness :
  In (target_column "A") (columns ex_features) /\ 1 <= 1 /\
  exists X y fc,
    make_xy ex_features "A" 1 = Ok (X, y, fc) /\
    len X = Z.max 0 (len ex_features - 1) /\
    s_len y = Z.max 0 (len ex_features - 1) /\
    index X = s_index y /\
    (forall t : nat, (t < length (rows X))%nat ->
       nth t (s_values y) nan
         = nth (t + Z.to_nat 1) (column_values (target_column "A") ex_features) nan /\
       nth t (index X) 0 = nth t (index ex_features) 0).
Proof.
  split; [simpl; auto|]. split; [lia|].
  apply (make_xy_label_alignment ex_features "A" 1); [simpl; auto | lia].
Defined.

(** C1 as stated fails when the horizon exceeds the number of rows: with
    one row and [h = 2] the slice [iloc[:-2]] is empty, so [X] has 0 rows,
    not [1 - 2]. *)
Lemma make_xy_row_count_counterexample :
  exists X y fc,
    make_xy ex_one_row "A" 2 = Ok (X, y, fc) /\
    len ex_one_row = 1 /\
    len X = 0 /\
    s_len y = 0 /\
    len X <> len ex_one_row - 2.
Proof.
  eexists _, _, _. split; [reflexivity|]. repeat split. discriminate.
Qed.

Lemma positions_nth_error (cs cols : list string) (js : list nat) (c : string) (k : nat) :
  positions cs cols = Ok js -> index_of c cs = Some k ->
  exists j, index_of c cols = Some j /\ nth_error js k = Some j.
Proof.
  revert js k. induction cs as [|c' t IH]; simpl; intros js k Hp Hk; [discriminate|].
  destruct (index_of c' cols) as [j'|] eqn:Hj'; [|discriminate].
  destruct (positions t cols) as [js'|] eqn:Hjs'; simpl in Hp; [|discriminate].
  injection Hp as <-.
  destruct (String.eqb c c') eqn:E.
  - apply String.eqb_eq in E. subst c'. injection Hk as <-. exists j'. now split.
  - destruct (index_of c t) as [k'|] eqn:Hk'; simpl in Hk; [|discriminate].
    injection Hk as <-. destruct (IH js' k' eq_refl eq_refl) as (j & Hj & Hn).
    exists j. now split.
Qed.

Lemma column_values_getitem_list (cs : list string) (df X : DataFrame) (c : string) :
  getitem_list cs df = Ok X -> In c cs -> column_values c X = column_values c df.
Proof.
  unfold getitem_list. destruct (positions cs (columns df)) as [js|] eqn:Hp; simpl; [|discriminate].
  intros [= <-] Hin. unfold column_values. simpl.
  destruct (index_of_Some _ _ Hin) as [k Hk]. rewrite Hk.
  destruct (positions_nth_error _ _ _ _ _ Hp Hk) as (j & Hj & Hn). rewrite Hj.
  unfold column_at. simpl. rewrite map_map. apply map_ext. intros r.
  unfold cell_at at 1. simpl.
  apply nth_error_nth. rewrite nth_error_map, Hn. reflexivity.
Qed.

Lemma column_values_iloc_to (stop : Z) (c : string) (df : DataFrame) :
  column_values c (iloc_to stop df) = slice_to stop (column_values c df).
Proof.
  unfold column_values, iloc_to, with_rows. cbn [columns].
  destruct (index_of c (columns df)); [|unfold slice_to; destruct (stop <? 0); now rewrite firstn_nil].
  unfold column_at. cbn [rows]. apply slice_to_map.
Qed.

(** C4: the columns of [X] are exactly the columns of the feature
    matrix whose label starts with "ret_", the target's own return column
    left out, in the order of the feature matrix and with its values (cut
    to the retained rows); the target's return column is never among
    them. *)
Theorem make_xy_feature_columns (F : DataFrame) (T : string) (h : Z)
                                (X : DataFrame) (y : Series) (fc : list string) :
  make_xy F T h = Ok (X, y, fc) ->
  columns X = fc /\
  fc = List.filter (is_feature_column T) (columns F) /\
  ~ In (target_column T) (columns X) /\
  (forall c, In c (columns X) <->
             In c (columns F) /\ String.prefix ret_prefix c = true /\ c <> target_column T) /\
  (forall c, In c (columns X) ->
             column_values c X = slice_to (- h) (column_values c F)).
Proof.
  intros Hxy.
  destruct (make_xy_inv _ _ _ _ _ _ Hxy) as (y0 & X0 & _ & _ & Hfc & HX & -> & _).
  destruct (index_getitem_list _ _ _ HX) as [_ Hcols].
  assert (Hc : columns (iloc_to (- h) X0) = fc) by exact Hcols.
  assert (Hmem : forall c, In c fc <->
            In c (columns F) /\ String.prefix ret_prefix c = true /\ c <> target_column T).
  { intros c. rewrite Hfc, filter_In. unfold is_feature_column.
    rewrite andb_true_iff, negb_true_iff. split.
    - intros (Hin & Hp & Hne). repeat split; try assumption.
      intros ->. now rewrite String.eqb_refl in Hne.
    - intros (Hin & Hp & Hne). repeat split; try assumption.
      now apply String.eqb_neq. }
  rewrite Hc. split; [reflexivity|]. split; [assumption|]. split; [|split].
  - intros Hin. apply Hmem in Hin. tauto.
  - exact Hmem.
  - intros c Hin. rewrite column_values_iloc_to.
    now rewrite (column_values_getitem_list _ _ _ _ HX Hin).
Qed.

Lemma make_xy_feature_columns_witness :
  make_xy ex_features "A" 1
    = Ok (mkDF DatetimeIndex ["ret_B"%string] []
               [ mkRow (1 * NS_PER_DAY) [0.25%float] [];
                 mkRow (2 * NS_PER_DAY) [(-0.5)%float] [] ],
          mkSeries "ret_A" [(1 * NS_PER_DAY, 0.125%float); (2 * NS_PER_DAY, (-0.25)%float)],
          ["ret_B"%string]) /\
  ~ In (target_column "A") ["ret_B"%string].
Proof.
  assert (H : make_xy ex_features "A" 1
    = Ok (mkDF DatetimeIndex ["ret_B"%string] []
               [ mkRow (1 * NS_PER_DAY) [0.25%float] [];
                 mkRow (2 * NS_PER_DAY) [(-0.5)%float] [] ],
          mkSeries "ret_A" [(1 * NS_PER_DAY, 0.125%float); (2 * NS_PER_DAY, (-0.25)%float)],
          ["ret_B"%string])) by reflexivity.
  split; [exact H|].
  exact (proj1 (proj2 (proj2 (make_xy_feature_columns _ _ _ _ _ _ H)))).
Defined.

(** The last element of a list trimmed by [h] at its end is the element
    [h] places before the last of the whole list. *)
Lemma slice_to_last (h : Z) (l init : list Z) (x : Z) :
  1 <= h -> slice_to (- h) l = init ++ [x] ->
  (Z.to_nat h < length l)%nat /\ x = nth (length l - 1 - Z.to_nat h) l 0.
Proof.
  intros Hh Hs.
  assert (Hlen : Z.of_nat (length (slice_to (- h) l)) = Z.max 0 (Z.of_nat (length l) - h))
    by (now apply slice_to_neg_length).
  rewrite Hs, length_app in Hlen. cbn [length] in Hlen.
  split; [lia|].
  assert (Hx : nth (length init) (slice_to (- h) l) 0 = x).
  { rewrite Hs, app_nth2 by lia. rewrite Nat.sub_diag. reflexivity. }
  rewrite <- Hx. unfold slice_to.
  destruct (Z.ltb_spec (- h) 0); [|lia].
  rewrite nth_firstn.
  destruct (Nat.ltb_spec (length init) (Z.to_nat (Z.max 0 (Z.of_nat (length l) + - h))));
    [f_equal; lia | lia].
Qed.

(** X3: for a horizon of at least one day the last row of [X] is not the
    last row of the feature matrix: it is the row [h] places before it. *)
Lemma make_xy_last_row (F : DataFrame) (T : string) (h : Z) (X : DataFrame) (y : Series)
                       (fc : list string) (init : list Row) (row : Row) :
  make_xy F T h = Ok (X, y, fc) -> 1 <= h -> rows X = init ++ [row] ->
  (Z.to_nat h < length (rows F))%nat /\
  label row = nth (length (rows F) - 1 - Z.to_nat h) (index F) 0.
Proof.
  intros Hxy Hh Hrows.
  destruct (make_xy_inv _ _ _ _ _ _ Hxy) as (y0 & X0 & _ & _ & _ & HX & HXeq & _).
  destruct (index_getitem_list _ _ _ HX) as [HiX _].
  assert (Hidx : index X = slice_to (- h) (index F))
    by (rewrite HXeq, index_iloc_to; now rewrite HiX).
  assert (Hlab : index X = List.map label init ++ [label row])
    by (unfold index; rewrite Hrows, map_app; reflexivity).
  rewrite Hidx in Hlab.
  destruct (slice_to_last h _ _ _ Hh Hlab) as [Hlt Hrow].
  unfold index in Hlt, Hrow at 1. rewrite length_map in Hlt, Hrow. now split.
Qed.

Lemma make_xy_last_row_witness :
  exists X y fc init row,
    make_xy ex_week "A" 1 = Ok (X, y, fc) /\ 1 <= 1 /\ rows X = init ++ [row] /\
    label row = days_from_civil 2024 1 5 * NS_PER_DAY /\
    nth (length (rows ex_week) - 1) (index ex_week) 0 = days_from_civil 2024 1 8 * NS_PER_DAY /\
    (Z.to_nat 1 < length (rows ex_week))%nat /\
    label row = nth (length (rows ex_week) - 1 - Z.to_nat 1) (index ex_week) 0.
Proof.
  eexists _, _, _, _, _.
  assert (H : make_xy ex_week "A" 1 = Ok (iloc_to (-1) (frame_or ex_week
                 (getitem_list ["ret_B"%string] ex_week)),
               s_iloc_to (-1) (s_shift (-1) (mkSeries "ret_A"
                  (List.map (fun r => (label r, cell_at 0 r)) (rows ex_week)))),
               ["ret_B"%string])) by reflexivity.
  split; [exact H|].
  assert (Hh : 1 <= 1) by lia.
  split; [exact Hh|].
  match type of H with _ = Ok (?X, _, _) =>
    assert (Hrows : rows X = removelast (rows X) ++ [List.last (rows X) (mkRow 0 [] [])])
      by reflexivity
  end.
  split; [exact Hrows|]. split; [reflexivity|]. split; [reflexivity|].
  exact (make_xy_last_row ex_week "A" 1 _ _ _ _ _ H Hh Hrows).
Defined.

(** ** sort_index and label slices *)

Section Sorting.
Context {A : Type} (key : A -> Z).

Lemma insert_by_perm (x : A) (l : list A) : Permutation (insert_by key x l) (x :: l).
Proof.
  induction l as [|y t IH]; simpl; [reflexivity|].
  destruct (key x <=? key y); [reflexivity|].
  rewrite IH. apply perm_swap.
Qed.

Lemma sort_by_perm (l : list A) : Permutation (sort_by key l) l.
Proof.
  induction l as [|x t IH]; simpl; [reflexivity|].
  rewrite insert_by_perm. now apply perm_skip.
Qed.

Lemma insert_by_sorted (x : A) (l : list A) :
  StronglySorted (key_le key) l -> StronglySorted (key_le key) (insert_by key x l).
Proof.
  induction 1 as [|y t Hs IH Hall]; simpl; [repeat constructor|].
  destruct (Z.leb_spec (key x) (key y)) as [Hle|Hgt].
  - constructor; [now constructor|]. constructor; [exact Hle|].
    eapply List.Forall_impl; [|exact Hall]. unfold key_le. intros a Ha. lia.
  - constructor; [exact IH|].
    eapply Permutation_Forall; [symmetry; apply insert_by_perm|].
    constructor; [unfold key_le; lia | exact Hall].
Qed.

Lemma sort_by_sorted (l : list A) : StronglySorted (key_le key) (sort_by key l).
Proof.
  induction l as [|x t IH]; simpl; [constructor | now apply insert_by_sorted].
Qed.

Lemma sort_by_fixed (l : list A) : StronglySorted (key_le key) l -> sort_by key l = l.
Proof.
  induction 1 as [|x t Hs IH Hall]; simpl; [reflexivity|].
  rewrite IH. destruct t as [|y t']; simpl; [reflexivity|].
  apply Forall_inv in Hall. unfold key_le in Hall.
  destruct (Z.leb_spec (key x) (key y)); [reflexivity | lia].
Qed.
End Sorting.

Lemma sort_index_idempotent (df : DataFrame) : sort_index (sort_index df) = sort_index df.
Proof.
  unfold sort_index, with_rows, sort_rows. cbn [rows index_kind columns key_columns].
  now rewrite (sort_by_fixed label _ (sort_by_sorted label (rows df))).
Qed.

Section LabelSlices.
Implicit Types (l : list Row) (a b x : Z).

Lemma filter_all {B : Type} (p : B -> bool) (t : list B) :
  (forall q, In q t -> p q = true) -> List.filter p t = t.
Proof.
  induction t as [|q t IH]; simpl; intros H; [reflexivity|].
  rewrite (H q) by now left. f_equal. apply IH. intros; apply H; now right.
Qed.

Lemma filter_none {B : Type} (p : B -> bool) (t : list B) :
  (forall q, In q t -> p q = false) -> List.filter p t = [].
Proof.
  induction t as [|q t IH]; simpl; intros H; [reflexivity|].
  rewrite (H q) by now left. apply IH. intros; apply H; now right.
Qed.

Lemma searchsorted_right_firstn x l :
  StronglySorted (key_le label) l ->
  firstn (searchsorted_right x l) l = List.filter (fun r => label r <=? x) l.
Proof.
  induction 1 as [|r t Hs IH Hall]; simpl; [reflexivity|].
  destruct (Z.leb_spec (label r) x) as [Hle|Hgt]; simpl; [now rewrite IH|].
  symmetry. apply filter_none. intros q Hq.
  rewrite List.Forall_forall in Hall. specialize (Hall q Hq). unfold key_le in Hall.
  apply Z.leb_gt. lia.
Qed.

(** The positions [searchsorted] finds cut out exactly the rows whose
    label lies between the two bounds. *)
Lemma loc_between a b l :
  StronglySorted (key_le label) l ->
  firstn (searchsorted_right b l - searchsorted_left a l) (skipn (searchsorted_left a l) l)
    = List.filter (fun r => (a <=? label r) && (label r <=? b)) l.
Proof.
  induction 1 as [|r t Hs IH Hall]; [reflexivity|].
  rewrite List.Forall_forall in Hall. unfold key_le in Hall.
  cbn [searchsorted_left searchsorted_right List.filter].
  destruct (Z.ltb_spec (label r) a) as [Hlt|Hge].
  - destruct (Z.leb_spec a (label r)); [lia|]. cbn [andb skipn].
    destruct (Z.leb_spec (label r) b) as [Hle|Hgt].
    + exact IH.
    + cbn [Nat.sub firstn]. symmetry. apply filter_none. intros q Hq.
      specialize (Hall q Hq). apply andb_false_iff. right. apply Z.leb_gt. lia.
  - rewrite Nat.sub_0_r. cbn [skipn].
    change (if label r <=? b then S (searchsorted_right b t) else 0%nat)
      with (searchsorted_right b (r :: t)).
    rewrite searchsorted_right_firstn by (constructor; [assumption | now apply List.Forall_forall]).
    change ((if (a <=? label r) && (label r <=? b) then r :: List.filter _ t else List.filter _ t))
      with (List.filter (fun r0 => (a <=? label r0) && (label r0 <=? b)) (r :: t)).
    apply filter_ext_in. intros q [<-|Hq].
    + destruct (Z.leb_spec a (label r)); [reflexivity | lia].
    + specialize (Hall q Hq). destruct (Z.leb_spec a (label q)); [reflexivity | lia].
Qed.

Lemma searchsorted_left_skipn a l :
  StronglySorted (key_le label) l ->
  skipn (searchsorted_left a l) l = List.filter (fun r => a <=? label r) l.
Proof.
  induction 1 as [|r t Hs IH Hall]; simpl; [reflexivity|].
  rewrite List.Forall_forall in Hall. unfold key_le in Hall.
  destruct (Z.ltb_spec (label r) a) as [Hlt|Hge].
  - destruct (Z.leb_spec a (label r)); [lia | exact IH].
  - destruct (Z.leb_spec a (label r)); [|lia]. simpl. f_equal.
    symmetry. apply filter_all. intros q Hq. specialize (Hall q Hq). apply Z.leb_le. lia.
Qed.

Lemma searchsorted_left_succ x l : searchsorted_left (x + 1) l = searchsorted_right x l.
Proof.
  induction l as [|r t IH]; simpl; [reflexivity|].
  destruct (Z.ltb_spec (label r) (x + 1)), (Z.leb_spec (label r) x); try lia; now rewrite ?IH.
Qed.

Lemma searchsorted_right_mono a b l :
  a <= b -> (searchsorted_right a l <= searchsorted_right b l)%nat.
Proof.
  intros Hab. induction l as [|r t IH]; simpl; [lia|].
  destruct (Z.leb_spec (label r) a), (Z.leb_spec (label r) b); lia.
Qed.

Lemma searchsorted_right_le_length x l : (searchsorted_right x l <= length l)%nat.
Proof. induction l as [|r t IH]; simpl; [lia|]. destruct (label r <=? x); simpl; lia. Qed.

(** Three consecutive positional slices give the list back. *)
Lemma three_slices {B : Type} (i j : nat) (t : list B) :
  (i <= j)%nat -> (j <= length t)%nat ->
  firstn i t ++ firstn (j - i) (skipn i t) ++ firstn (length t - j) (skipn j t) = t.
Proof.
  intros Hij Hj.
  rewrite (firstn_all2 (n := length t - j)) by (rewrite length_skipn; lia).
  replace (skipn j t) with (skipn (j - i) (skipn i t))
    by (rewrite skipn_skipn; f_equal; lia).
  now rewrite firstn_skipn, firstn_skipn.
Qed.
End LabelSlices.

(** ** time_split *)

Lemma NS_PER_DAY_pos : 0 < NS_PER_DAY.
Proof. reflexivity. Qed.

Lemma date_of_le (t : Timestamp) (d : Z) :
  date_of t <= d <-> t <= d * NS_PER_DAY + NS_PER_DAY - 1.
Proof.
  unfold date_of. pose proof NS_PER_DAY_pos as Hn. split; intros H.
  - destruct (Z.le_gt_cases t (d * NS_PER_DAY + NS_PER_DAY - 1)) as [|Hgt]; [assumption|].
    assert (d + 1 <= t / NS_PER_DAY) by (apply Z.div_le_lower_bound; lia). lia.
  - assert (t / NS_PER_DAY < d + 1) by (apply Z.div_lt_upper_bound; lia). lia.
Qed.

Lemma date_of_leb (t : Timestamp) (d : Z) :
  (date_of t <=? d) = (t <=? d * NS_PER_DAY + NS_PER_DAY - 1).
Proof.
  apply Bool.eq_iff_eq_true. rewrite !Z.leb_le. apply date_of_le.
Qed.

Lemma date_of_ltb (t : Timestamp) (d : Z) :
  (d <? date_of t) = (d * NS_PER_DAY + NS_PER_DAY <=? t).
Proof.
  rewrite Z.ltb_antisym, date_of_leb, Z.leb_antisym.
  destruct (Z.ltb_spec (d * NS_PER_DAY + NS_PER_DAY - 1) t),
           (Z.leb_spec (d * NS_PER_DAY + NS_PER_DAY) t); simpl; try reflexivity; lia.
Qed.

Lemma time_split_unfold (df : DataFrame) (train_end val_end : DateStr) :
  time_split df train_end val_end
    = if is_DatetimeIndex (index_kind df) && negb (is_tz_aware (index_kind df))
      then Ok (split_sorted (sort_index df) train_end val_end)
      else Raise TypeError.
Proof.
  unfold time_split, ensure_datetime_index, loc_slice_from, split_sorted.
  change (index_kind (sort_index df)) with (index_kind df).
  now destruct (index_kind df).
Qed.

(** C2 as stated fails: a time index that carries a time zone passes the
    type check, and the slices that start at a [pd.Timestamp] without a
    time zone are refused with a [TypeError]. *)
Lemma time_split_tz_aware_counterexample :
  is_DatetimeIndex (index_kind ex_tz_aware) = true /\
  1 < 2 /\
  time_split ex_tz_aware (date_str 1) (date_str 2) = Raise TypeError.
Proof. repeat split. Qed.

(** C2 (as amended): on a dataset whose index is a time index without a
    time zone and two boundary dates [train_end < val_end], [time_split]
    returns three slices which, one after the other, are the rows of the
    dataset in time order, each row exactly once; train holds exactly the
    rows dated at most [train_end], val those dated after [train_end] and
    at most [val_end], test those dated after [val_end]. *)
Theorem time_split_partition (df : DataFrame) (te ve : Z) :
  is_DatetimeIndex (index_kind df) = true -> is_tz_aware (index_kind df) = false -> te < ve ->
  exists train val test,
    time_split df (date_str te) (date_str ve) = Ok (train, val, test) /\
    rows train ++ rows val ++ rows test = rows (sort_index df) /\
    Permutation (rows train ++ rows val ++ rows test) (rows df) /\
    Permutation (index train ++ index val ++ index test) (index df) /\
    rows train = List.filter (fun r => date_of (label r) <=? te) (rows (sort_index df)) /\
    rows val = List.filter (fun r => (te <? date_of (label r)) && (date_of (label r) <=? ve))
                           (rows (sort_index df)) /\
    rows test = List.filter (fun r => ve <? date_of (label r)) (rows (sort_index df)).
Proof.
  intros Hk Hz Hlt. rewrite time_split_unfold, Hk, Hz. cbn [andb negb]. unfold split_sorted.
  eexists _, _, _. split; [reflexivity|].
  unfold loc_slice, with_rows, date_str. cbn [rows ds_start ds_end].
  set (l := rows (sort_index df)).
  assert (Hs : StronglySorted (key_le label) l) by apply sort_by_sorted.
  assert (Hp : Permutation l (rows df)) by apply sort_by_perm.
  set (a := te * NS_PER_DAY + NS_PER_DAY). set (b := ve * NS_PER_DAY + NS_PER_DAY).
  replace (te * NS_PER_DAY + NS_PER_DAY - 1) with (a - 1) by (unfold a; lia).
  replace (ve * NS_PER_DAY + NS_PER_DAY - 1) with (b - 1) by (unfold b; lia).
  assert (Hab : a - 1 <= b - 1) by (unfold a, b; pose proof NS_PER_DAY_pos; nia).
  assert (Ha : searchsorted_left a l = searchsorted_right (a - 1) l)
    by (rewrite <- searchsorted_left_succ; f_equal; lia).
  assert (Hb : searchsorted_left b l = searchsorted_right (b - 1) l)
    by (rewrite <- searchsorted_left_succ; f_equal; lia).
  rewrite Nat.sub_0_r. change (skipn 0 l) with l.
  assert (Hall : firstn (searchsorted_right (a - 1) l) l
                 ++ firstn (searchsorted_right (b - 1) l - searchsorted_left a l)
                      (skipn (searchsorted_left a l) l)
                 ++ firstn (length l - searchsorted_left b l) (skipn (searchsorted_left b l) l)
                 = l).
  { rewrite Ha, Hb. apply three_slices;
      [now apply searchsorted_right_mono | apply searchsorted_right_le_length]. }
  split; [exact Hall|]. split; [now rewrite Hall|]. split.
  { unfold index. cbn [rows]. rewrite <- !map_app, Hall. now apply Permutation_map. }
  split; [|split].
  - rewrite searchsorted_right_firstn by assumption.
    apply filter_ext. intros r. rewrite date_of_leb. unfold a. repeat (f_equal; try lia).
  - rewrite loc_between by assumption.
    apply filter_ext. intros r. rewrite date_of_ltb, date_of_leb. unfold a, b.
    repeat (f_equal; try lia).
  - rewrite firstn_all2 by (rewrite length_skipn; lia).
    rewrite searchsorted_left_skipn by assumption.
    apply filter_ext. intros r. now rewrite date_of_ltb.
Qed.

Lemma time_split_partition_witness :
  is_DatetimeIndex (index_kind ex_unsorted) = true /\
  is_tz_aware (index_kind ex_unsorted) = false /\ 1 < 2 /\
  exists train val test,
    time_split ex_unsorted (date_str 1) (date_str 2) = Ok (train, val, test) /\
    rows train ++ rows val ++ rows test = rows (sort_index ex_unsorted) /\
    Permutation (rows train ++ rows val ++ rows test) (rows ex_unsorted) /\
    Permutation (index train ++ index val ++ index test) (index ex_unsorted) /\
    rows train = List.filter (fun r => date_of (label r) <=? 1) (rows (sort_index ex_unsorted)) /\
    rows val = List.filter (fun r => (1 <? date_of (label r)) && (date_of (label r) <=? 2))
                           (rows (sort_index ex_unsorted)) /\
    rows test = List.filter (fun r => 2 <? date_of (label r)) (rows (sort_index ex_unsorted)).
Proof.
  split; [reflexivity|]. split; [reflexivity|]. split; [lia|].
  apply (time_split_partition ex_unsorted 1 2); [reflexivity | reflexivity | lia].
Defined.

(** C8 as stated fails: a time index that is not in time order is no
    error; the frame is sorted and split. *)
Lemma time_split_unordered_counterexample :
  is_DatetimeIndex (index_kind ex_unsorted) = true /\
  is_monotonic_increasing (index ex_unsorted) = false /\
  time_split ex_unsorted (date_str 1) (date_str 2)
    = Ok (with_rows ex_unsorted [mkRow (1 * NS_PER_DAY) [1%float] []],
          with_rows ex_unsorted [mkRow (2 * NS_PER_DAY) [2%float] []],
          with_rows ex_unsorted [mkRow (3 * NS_PER_DAY) [4%float] []]).
Proof. repeat split. Qed.

(** C8 (as amended): [time_split] fails, with a [TypeError], exactly
    when the index is not a [DatetimeIndex] or is one that carries a time
    zone; on a time index without a time zone it returns a split whether
    or not the index is in time order, the same split as for the frame
    sorted beforehand. *)
Theorem time_split_type_error (df : DataFrame) (train_end val_end : DateStr) :
  ((is_DatetimeIndex (index_kind df) = false \/ is_tz_aware (index_kind df) = true) /\
   time_split df train_end val_end = Raise TypeError)
  \/
  (is_DatetimeIndex (index_kind df) = true /\ is_tz_aware (index_kind df) = false /\
   exists train val test,
     time_split df train_end val_end = Ok (train, val, test) /\
     time_split (sort_index df) train_end val_end = Ok (train, val, test)).
Proof.
  rewrite !time_split_unfold, sort_index_idempotent.
  change (index_kind (sort_index df)) with (index_kind df).
  destruct (is_DatetimeIndex (index_kind df)), (is_tz_aware (index_kind df)); cbn [andb negb];
    [left; split; [now right | reflexivity] | right | left; split; [now left | reflexivity]
    | left; split; [now left | reflexivity]].
  split; [reflexivity|]. split; [reflexivity|].
  unfold split_sorted. eexists _, _, _. split; reflexivity.
Qed.

(** ** load_prices_csv *)

Section LoaderProperties.
Variable to_datetime : string -> option Timestamp.
Variable parse_number : string -> option float.


Lemma drop_nat_In (j : nat) (rs : list (list string)) (d : Timestamp) (cs : list string) :
  In (d, cs) (drop_nat (List.map (split_date to_datetime j) rs)) ->
  exists raw, In raw rs /\ to_datetime (nth j raw EmptyString) = Some d /\ cs = remove_nth j raw.
Proof.
  induction rs as [|raw rs IH]; simpl; [tauto|].
  destruct (to_datetime (nth j raw EmptyString)) eqn:E; simpl.
  - intros [[= <- <-]|Hin]; [exists raw; auto|].
    destruct (IH Hin) as (raw' & ? & ? & ?). exists raw'. auto.
  - intros Hin. destruct (IH Hin) as (raw' & ? & ? & ?). exists raw'. auto.
Qed.

Lemma sorted_is_monotonic (l : list Z) :
  StronglySorted Z.le l -> is_monotonic_increasing l = true.
Proof.
  induction 1 as [|x t Hs IH Hall]; [reflexivity|].
  destruct t as [|y t']; [reflexivity|].
  change (is_monotonic_increasing (x :: y :: t'))
    with ((x <=? y) && is_monotonic_increasing (y :: t')).
  rewrite IH. apply Forall_inv in Hall. now rewrite (proj2 (Z.leb_le x y) Hall).
Qed.

Lemma sorted_map_key {B : Type} (key : B -> Z) (l : list B) :
  StronglySorted (key_le key) l -> StronglySorted Z.le (List.map key l).
Proof.
  induction 1 as [|x t Hs IH Hall]; simpl; constructor; [assumption|].
  rewrite List.Forall_map. exact Hall.
Qed.

End LoaderProperties.



(** ** Missing and infinite values *)

Lemma finite_spec (x : float) : finite x = true <-> isna x = false /\ isinf x = false.
Proof.
  unfold finite. rewrite andb_true_iff, !negb_true_iff. tauto.
Qed.

Lemma replace_inf_not_inf (x : float) : isinf (replace_inf x) = false.
Proof. unfold replace_inf. destruct (isinf x) eqn:E; [reflexivity | exact E]. Qed.

Lemma replace_inf_finite (x : float) : finite x = true -> replace_inf x = x.
Proof. intros H. apply finite_spec in H as [_ H]. unfold replace_inf. now rewrite H. Qed.

Lemma existsb_false_Forall {B : Type} (p : B -> bool) (l : list B) :
  existsb p l = false <-> Forall (fun x => p x = false) l.
Proof.
  induction l as [|x l IH]; simpl.
  - split; [constructor | reflexivity].
  - rewrite orb_false_iff, IH. split.
    + intros [? ?]. now constructor.
    + intros H. inversion H; subst. now split.
Qed.

(** The cleanup of line 63 leaves numbers only. *)
Lemma cleanup_all_finite (df : DataFrame) : all_finite (dropna (replace_inf_with_nan df)).
Proof.
  unfold all_finite, dropna, replace_inf_with_nan, with_rows. cbn [rows].
  apply List.Forall_forall. intros r Hr. apply filter_In in Hr as [Hr Hna].
  apply in_map_iff in Hr as (r0 & <- & _).
  unfold row_has_na in Hna. apply negb_true_iff, existsb_false_Forall in Hna.
  cbn [cells with_cells] in *. rewrite List.Forall_map in *.
  eapply List.Forall_impl; [|exact Hna]. intros x Hx. cbn beta in Hx.
  apply finite_spec. split; [assumption | apply replace_inf_not_inf].
Qed.

(** On numbers the cleanup does nothing: no second pass is needed. *)
Lemma cleanup_fixed (df : DataFrame) :
  all_finite df -> dropna (replace_inf_with_nan df) = df.
Proof.
  destruct df as [k cols kcols rs]. unfold all_finite, dropna, replace_inf_with_nan, with_rows.
  cbn [rows index_kind columns key_columns]. intros H. f_equal.
  induction H as [|r rs Hr Hrs IH]; [reflexivity|].
  cbn [List.map List.filter].
  assert (Hc : List.map replace_inf (cells r) = cells r).
  { clear -Hr. induction Hr as [|x cs Hx Hcs IHc]; simpl; [reflexivity|].
    now rewrite replace_inf_finite, IHc. }
  assert (Hw : with_cells r (List.map replace_inf (cells r)) = r)
    by (rewrite Hc; now destruct r).
  rewrite Hw.
  assert (Hna : row_has_na r = false).
  { unfold row_has_na. apply existsb_false_Forall.
    eapply List.Forall_impl; [|exact Hr]. intros x Hx. now apply finite_spec in Hx. }
  rewrite Hna. cbn [negb]. now rewrite IH.
Qed.

Lemma count_na_finite (df : DataFrame) : all_finite df -> count_na df = 0.
Proof.
  unfold all_finite, count_na. induction 1 as [|r rs Hr Hrs IH]; simpl; [reflexivity|].
  rewrite IH. rewrite (filter_none isna (cells r)); [reflexivity|].
  intros x Hx. rewrite List.Forall_forall in Hr. specialize (Hr x Hx).
  now apply finite_spec in Hr.
Qed.

Lemma assert_no_nan_finite (df : DataFrame) : all_finite df -> assert_no_nan df = Ok tt.
Proof. intros H. unfold assert_no_nan. now rewrite count_na_finite. Qed.

(** *** Clipping *)







Lemma ret_cells_Forall (P : float -> Prop) (cols : list string) (cs : list float) :
  Forall P cs -> Forall P (ret_cells cols cs).
Proof.
  intros Hcs. unfold ret_cells. revert cols.
  induction Hcs as [|x cs Hx Hcs IH]; intros [|c cols]; simpl; try constructor.
  destruct (is_ret_col c); simpl; [constructor|]; auto.
Qed.

Lemma map2_map_r {B C D : Type} (f : B -> C -> D) (g : B -> C) (l : list B) :
  map2 f l (List.map g l) = List.map (fun x => f x (g x)) l.
Proof. induction l as [|x l IH]; simpl; [reflexivity | now rewrite IH]. Qed.

(** Lines 66 and 67, row by row. *)
Lemma clip_step_rows (lo hi : float) (df : DataFrame) :
  rows (set_ret_cells (clip_frame lo hi (ret_columns_of df)) df)
    = List.map (fun r => with_cells r
                  (scatter_ret (columns df) (cells r)
                     (List.map (clip lo hi) (ret_cells (columns df) (cells r)))))
               (rows df).
Proof.
  unfold set_ret_cells, clip_frame, ret_columns_of, with_rows. cbn [rows columns].
  rewrite map_map. cbn [cells with_cells label keys]. now rewrite map2_map_r.
Qed.


Section FeatureProperties.
Variable pct_fill_pad : bool.
Variables agg_mean agg_median agg_std : list float -> float.

Lemma build_features_clip (df : DataFrame) (inc clipf : bool) (lo hi : float) (out : DataFrame) :
  build_features pct_fill_pad agg_mean agg_median agg_std df inc clipf lo hi = Ok out ->
  is_DatetimeIndex (index_kind df) = true /\
  exists joined,
    (if inc then join_monthly agg_mean agg_median agg_std (sort_index df)
     else Ok (sort_index df)) = Ok joined /\
    let pre := dropna (replace_inf_with_nan
                 (concat_columns joined
                    (add_prefix ret_prefix (pct_change pct_fill_pad (sort_index df))))) in
    (if clipf then loc_set_ret_columns (clip_frame lo hi (ret_columns_of pre)) pre else Ok pre)
      = Ok out.
Proof.
  unfold build_features. destruct (is_DatetimeIndex (index_kind df)); simpl; [|discriminate].
  destruct (if inc then _ else _) as [joined|e]; simpl; [|discriminate].
  intros H. split; [reflexivity|]. now exists joined.
Qed.

Lemma loc_set_ret_columns_inv (values df out : DataFrame) :
  loc_set_ret_columns values df = Ok out ->
  has_duplicates (List.filter is_ret_col (columns df)) = false /\ out = set_ret_cells values df.
Proof.
  unfold loc_set_ret_columns. destruct (has_duplicates _); [discriminate|].
  intros [= <-]. now split.
Qed.

Lemma build_features_inv (df : DataFrame) (inc clipf : bool) (lo hi : float) (out : DataFrame) :
  build_features pct_fill_pad agg_mean agg_median agg_std df inc clipf lo hi = Ok out ->
  is_DatetimeIndex (index_kind df) = true /\
  exists joined,
    (if inc then join_monthly agg_mean agg_median agg_std (sort_index df)
     else Ok (sort_index df)) = Ok joined /\
    let pre := dropna (replace_inf_with_nan
                 (concat_columns joined
                    (add_prefix ret_prefix (pct_change pct_fill_pad (sort_index df))))) in
    out = if clipf then set_ret_cells (clip_frame lo hi (ret_columns_of pre)) pre else pre.
Proof.
  intros Hb. destruct (build_features_clip _ _ _ _ _ _ Hb) as (Hk & joined & HJ & Hout).
  split; [exact Hk|]. exists joined. split; [exact HJ|]. cbv zeta in Hout |- *.
  destruct clipf; [now apply loc_set_ret_columns_inv in Hout | now injection Hout].
Qed.

End FeatureProperties.



(** ** The calendar: months follow time *)

Lemma check_from_spec (fuel : nat) (a y : Z) :
  check_from fuel a = true -> a <= y < a + Z.of_nat fuel -> year_check y = true.
Proof.
  revert a. induction fuel as [|k IH]; intros a Hc Hy; [lia|].
  cbn [check_from] in Hc. apply andb_true_iff in Hc as [Ha Hk].
  destruct (Z.eq_dec y a) as [->|Hne]; [assumption|].
  apply (IH (a + 1)); [assumption | lia].
Qed.

Lemma years_checked : check_from 400 0 = true.
Proof. vm_compute. reflexivity. Qed.

Lemma year_first_day (y : Z) : 0 <= y <= 399 -> era_yoe (year_start y) = y.
Proof.
  intros H. assert (Hc : year_check y = true)
    by (apply (check_from_spec 400 0); [exact years_checked | lia]).
  unfold year_check in Hc. apply andb_true_iff in Hc as [Hc _]. now apply Z.eqb_eq.
Qed.

Lemma year_last_day (y : Z) : 0 <= y < 399 -> era_yoe (year_start (y + 1) - 1) = y.
Proof.
  intros H. assert (Hc : year_check y = true)
    by (apply (check_from_spec 400 0); [exact years_checked | lia]).
  unfold year_check in Hc. apply andb_true_iff in Hc as [_ Hc].
  destruct (Z.eqb_spec y 399); [lia|]. now apply Z.eqb_eq.
Qed.

Lemma era_yoe_mono (a b : Z) : 0 <= a -> a <= b -> b < 146097 -> era_yoe a <= era_yoe b.
Proof.
  intros Ha Hab Hb. unfold era_yoe. apply Z.div_le_mono; [lia|].
  pose proof (Z.div_mod a 1460). pose proof (Z.mod_pos_bound a 1460).
  pose proof (Z.div_mod b 1460). pose proof (Z.mod_pos_bound b 1460).
  pose proof (Z.div_mod a 36524). pose proof (Z.mod_pos_bound a 36524).
  pose proof (Z.div_mod b 36524). pose proof (Z.mod_pos_bound b 36524).
  pose proof (Z.div_mod a 146096). pose proof (Z.mod_pos_bound a 146096).
  pose proof (Z.div_mod b 146096). pose proof (Z.mod_pos_bound b 146096).
  lia.
Qed.

Lemma year_start_next (y : Z) : 0 <= y -> year_start y + 365 <= year_start (y + 1) <= year_start y + 366.
Proof.
  intros H. unfold year_start.
  pose proof (Z.div_mod y 4). pose proof (Z.mod_pos_bound y 4).
  pose proof (Z.div_mod y 100). pose proof (Z.mod_pos_bound y 100).
  pose proof (Z.div_mod (y + 1) 4). pose proof (Z.mod_pos_bound (y + 1) 4).
  pose proof (Z.div_mod (y + 1) 100). pose proof (Z.mod_pos_bound (y + 1) 100).
  lia.
Qed.

Lemma year_start_bounds (y : Z) : 0 <= y <= 399 -> 0 <= year_start y <= 145731.
Proof.
  intros H. unfold year_start.
  pose proof (Z.div_mod y 4). pose proof (Z.mod_pos_bound y 4).
  pose proof (Z.div_mod y 100). pose proof (Z.mod_pos_bound y 100).
  lia.
Qed.

(** Every day of the era lies in the year the formula gives it. *)
Lemma era_yoe_range (doe : Z) :
  0 <= doe < 146097 ->
  0 <= era_yoe doe <= 399 /\
  year_start (era_yoe doe) <= doe /\ doe - year_start (era_yoe doe) <= 365.
Proof.
  intros H.
  assert (H0 : era_yoe 0 = 0) by reflexivity.
  assert (H1 : era_yoe 146096 = 399) by reflexivity.
  assert (Hlo : 0 <= era_yoe doe) by (rewrite <- H0; apply era_yoe_mono; lia).
  assert (Hhi : era_yoe doe <= 399) by (rewrite <- H1; apply era_yoe_mono; lia).
  split; [lia|]. remember (era_yoe doe) as y eqn:Ey.
  assert (Hs : year_start y <= doe).
  { destruct (Z.le_gt_cases (year_start y) doe) as [|Hgt]; [assumption|].
    assert (0 < y).
    { destruct (Z.eq_dec y 0) as [Hy|]; [|lia]. rewrite Hy in Hgt.
      change (year_start 0) with 0 in Hgt. lia. }
    pose proof (year_start_bounds y ltac:(lia)).
    assert (Hle : era_yoe doe <= era_yoe (year_start y - 1))
      by (apply era_yoe_mono; lia).
    pose proof (year_last_day (y - 1) ltac:(lia)) as Hl.
    replace (y - 1 + 1) with y in Hl by lia. lia. }
  split; [assumption|].
  destruct (Z.eq_dec y 399) as [Hy|Hy].
  - rewrite Hy. change (year_start 399) with 145731. lia.
  - pose proof (year_start_next y ltac:(lia)).
    pose proof (year_start_bounds (y + 1) ltac:(lia)).
    destruct (Z.le_gt_cases (year_start (y + 1)) doe) as [Hge|Hlt]; [|lia].
    assert (Hle : era_yoe (year_start (y + 1)) <= era_yoe doe)
      by (apply era_yoe_mono; lia).
    rewrite year_first_day in Hle by lia. lia.
Qed.

Lemma era_bounds (doe : Z) :
  0 <= doe < 146097 -> 0 <= era_mp doe <= 11 /\ 0 <= era_yoe doe <= 399.
Proof.
  intros H. destruct (era_yoe_range doe H) as (Hy & Hs & Hd). split; [|assumption].
  unfold era_mp. split.
  - apply Z.div_pos; lia.
  - assert ((5 * (doe - year_start (era_yoe doe)) + 2) / 153 < 12)
      by (apply Z.div_lt_upper_bound; lia). lia.
Qed.

Lemma era_month_mono (a b : Z) :
  0 <= a -> a <= b -> b < 146097 -> era_month a <= era_month b.
Proof.
  intros Ha Hab Hb. unfold era_month.
  pose proof (era_yoe_mono a b Ha Hab Hb) as Hy.
  destruct (era_bounds a) as [Hma _]; [lia|]. destruct (era_bounds b) as [Hmb _]; [lia|].
  destruct (Z.eq_dec (era_yoe a) (era_yoe b)) as [Heq|Hne]; [|lia].
  assert (era_mp a <= era_mp b); [|lia].
  unfold era_mp. rewrite Heq. apply Z.div_le_mono; lia.
Qed.

(** The month ordinal, era by era. *)
Lemma to_period_M_era (t : Timestamp) :
  to_period_M t
    = 4800 * ((date_of t + 719468) / 146097)
      + era_month ((date_of t + 719468) mod 146097) - 23638.
Proof.
  unfold to_period_M, civil_year_month. cbv zeta.
  set (z := date_of t + 719468).
  assert (Hdoe : z - z / 146097 * 146097 = z mod 146097)
    by (rewrite Z.mod_eq by lia; lia).
  rewrite Hdoe. set (doe := z mod 146097).
  assert (Hr : 0 <= doe < 146097) by (apply Z.mod_pos_bound; lia).
  destruct (era_bounds doe Hr) as [Hmp Hyoe].
  unfold era_month. unfold era_mp in *. unfold year_start in *. fold (era_yoe doe) in *.
  set (mp := (5 * (doe - (365 * era_yoe doe + era_yoe doe / 4 - era_yoe doe / 100)) + 2) / 153)
    in *.
  destruct (Z.ltb_spec mp 10).
  - destruct (Z.leb_spec (mp + 3) 2); lia.
  - destruct (Z.leb_spec (mp - 9) 2); lia.
Qed.

Lemma date_of_mono (s t : Timestamp) : s <= t -> date_of s <= date_of t.
Proof. intros H. apply Z.div_le_mono; [reflexivity | exact H]. Qed.

(** A later timestamp never lies in an earlier month. *)
Lemma to_period_M_mono (s t : Timestamp) : s <= t -> to_period_M s <= to_period_M t.
Proof.
  intros Hst. apply date_of_mono in Hst. rewrite !to_period_M_era.
  set (a := date_of s + 719468). set (b := date_of t + 719468).
  assert (Hab : a <= b) by (unfold a, b; lia).
  assert (Ha : 0 <= a mod 146097 < 146097) by (apply Z.mod_pos_bound; lia).
  assert (Hb : 0 <= b mod 146097 < 146097) by (apply Z.mod_pos_bound; lia).
  assert (Hq : a / 146097 <= b / 146097) by (apply Z.div_le_mono; lia).
  destruct (Z.eq_dec (a / 146097) (b / 146097)) as [Heq|Hne].
  - assert (a mod 146097 <= b mod 146097) by (rewrite !Z.mod_eq by lia; lia).
    pose proof (era_month_mono (a mod 146097) (b mod 146097)). lia.
  - destruct (era_bounds _ Ha) as [? ?]. destruct (era_bounds _ Hb) as [? ?].
    unfold era_month. lia.
Qed.

(** ** Sorting and filtering *)

Section SortFilter.
Context {A : Type} (key : A -> Z) (p : A -> bool).

Lemma insert_by_head (x : A) (l : list A) :
  Forall (key_le key x) l -> insert_by key x l = x :: l.
Proof.
  destruct 1 as [|y t Hy _]; simpl; [reflexivity|].
  unfold key_le in Hy. now rewrite (proj2 (Z.leb_le _ _) Hy).
Qed.

Lemma insert_by_filter (x : A) (l : list A) :
  StronglySorted (key_le key) l ->
  List.filter p (insert_by key x l)
    = if p x then insert_by key x (List.filter p l) else List.filter p l.
Proof.
  induction 1 as [|y t Hs IH Hall]; simpl.
  - now destruct (p x).
  - destruct (Z.leb_spec (key x) (key y)) as [Hle|Hgt]; simpl.
    + destruct (p x); [|reflexivity].
      symmetry. apply insert_by_head.
      assert (Hyt : Forall (key_le key x) (y :: t)).
      { constructor; [exact Hle|]. eapply List.Forall_impl; [|exact Hall].
        unfold key_le. intros a Ha. lia. }
      rewrite List.Forall_forall in *. intros z Hz.
      apply Hyt. change (In z (List.filter p (y :: t))) in Hz.
      apply filter_In in Hz. tauto.
    + rewrite IH. destruct (p y), (p x); simpl; try reflexivity.
      destruct (Z.leb_spec (key x) (key y)); [lia | reflexivity].
Qed.

(** Filtering commutes with the stable sort. *)
Lemma sort_by_filter (l : list A) :
  List.filter p (sort_by key l) = sort_by key (List.filter p l).
Proof.
  induction l as [|x l IH]; simpl; [reflexivity|].
  rewrite insert_by_filter by apply sort_by_sorted.
  rewrite IH. now destruct (p x).
Qed.
End SortFilter.

Lemma sorted_last_max (r0 : Row) (rs : list Row) :
  StronglySorted (key_le label) rs ->
  forall r, In r rs -> label r <= label (List.last rs r0).
Proof.
  induction 1 as [|x t Hs IH Hall]; intros r Hin; [destruct Hin|].
  destruct t as [|y t'].
  - destruct Hin as [->|[]]. simpl. lia.
  - change (List.last (x :: y :: t') r0) with (List.last (y :: t') r0).
    destruct Hin as [->|Hin]; [|now apply IH].
    rewrite List.Forall_forall in Hall. unfold key_le in Hall.
    etransitivity; [apply (Hall y); now left | apply IH; now left].
Qed.

(** ** The lagged monthly table *)

Lemma consec_S (a : Z) (k : nat) : consec a (S k) = a :: consec (a + 1) k.
Proof.
  unfold consec. cbn [seq List.map]. f_equal; [lia|].
  rewrite <- seq_shift, map_map. apply map_ext. intros i. lia.
Qed.

Lemma lookup_shift_from (f : Z -> Row) (M : Z) :
  (forall m, label (f m) = m) ->
  forall (k : nat) (a : Z) (prev : list float),
    lookup_label M (shift_from prev (List.map f (consec a k)))
      = if (a <=? M) && (M <? a + Z.of_nat k)
        then Some (with_cells (f M) (if M =? a then prev else cells (f (M - 1))))
        else None.
Proof.
  intros Hf. unfold lookup_label.
  induction k as [|k IH]; intros a prev.
  - simpl. destruct (Z.leb_spec a M), (Z.ltb_spec M (a + Z.of_nat 0)); simpl; try reflexivity; lia.
  - rewrite consec_S. cbn [List.map shift_from List.find with_cells label]. rewrite Hf.
    destruct (Z.eqb_spec a M) as [->|Hne].
    + rewrite Z.eqb_refl.
      destruct (Z.leb_spec M M), (Z.ltb_spec M (M + Z.of_nat (S k))); simpl; try reflexivity; lia.
    + rewrite IH.
      destruct (Z.leb_spec (a + 1) M), (Z.ltb_spec M (a + 1 + Z.of_nat k)),
               (Z.leb_spec a M), (Z.ltb_spec M (a + Z.of_nat (S k)));
        simpl; try reflexivity; try lia.
      destruct (Z.eqb_spec M a); [lia|].
      destruct (Z.eqb_spec M (a + 1)) as [->|]; [|reflexivity].
      now replace (a + 1 - 1) with a by lia.
Qed.

Lemma map_const_repeat {B C : Type} (c : C) (l : list B) :
  List.map (fun _ => c) l = repeat c (length l).
Proof. induction l as [|x l IH]; simpl; [reflexivity | now rewrite IH]. Qed.

Lemma flat_labels_length (cols : list string) :
  length (flat_labels cols) = (3 * length cols)%nat.
Proof.
  unfold flat_labels. induction cols as [|c cols IH]; [reflexivity|].
  cbn [flat_map]. rewrite length_app, IH. cbn [STATS List.map length]. lia.
Qed.

Section Lagged.
Variables agg_mean agg_median agg_std : list float -> float.

Lemma agg_row_length (n : nat) (rs : list Row) (m : Z) :
  length (cells (agg_row agg_mean agg_median agg_std n rs m)) = (3 * n)%nat.
Proof.
  unfold agg_row. cbn [cells].
  assert (H : forall s, length (flat_map
              (fun j => agg3 agg_mean agg_median agg_std
                          (List.map (cell_at j) (month_bin m rs))) (seq s n)) = (3 * n)%nat).
  { induction n as [|n IH]; intros s; [reflexivity|].
    cbn [seq flat_map]. rewrite length_app, IH. cbn [agg3 length]. lia. }
  apply H.
Qed.

Lemma month_bin_before (M : Z) (rs : list Row) :
  month_bin (M - 1) (rows_before M rs) = month_bin (M - 1) rs.
Proof.
  unfold month_bin, rows_before. induction rs as [|r rs IH]; [reflexivity|].
  cbn [List.filter].
  destruct (Z.ltb_spec (to_period_M (label r)) M) as [Hlt|Hge].
  - cbn [List.filter]. now rewrite IH.
  - rewrite IH. destruct (Z.eqb_spec (to_period_M (label r)) (M - 1)); [lia | reflexivity].
Qed.

Lemma lagged_stats_length (n : nat) (before : list Row) (M : Z) :
  length (lagged_stats agg_mean agg_median agg_std n before M) = (3 * n)%nat.
Proof.
  unfold lagged_stats. destruct before; [apply repeat_length | apply agg_row_length].
Qed.

(** The cells the join attaches to a row of month [M] of a table sorted
    by time. *)
Lemma joined_cells_lagged (df : DataFrame) (r : Row) :
  StronglySorted (key_le label) (rows df) -> In r (rows df) ->
  joined_cells (to_period_M (label r)) (monthly_lag1 agg_mean agg_median agg_std df)
    = lagged_stats agg_mean agg_median agg_std (length (columns df)) (rows_before (to_period_M (label r)) (rows df))
                   (to_period_M (label r)).
Proof.
  intros Hs Hin. set (M := to_period_M (label r)). set (n := length (columns df)).
  unfold joined_cells, monthly_lag1, shift1, index_to_period, set_columns, resample_ME_agg,
    with_rows. cbn [rows columns].
  destruct (rows df) as [|r0 t] eqn:Hrows; [destruct Hin|].
  rewrite <- Hrows in *. fold n.
  set (f := agg_row agg_mean agg_median agg_std n (rows df)).
  set (first := to_period_M (label r0)).
  set (last := to_period_M (label (List.last (rows df) r0))).
  assert (Hfirst : forall q, In q (rows df) -> first <= to_period_M (label q)).
  { intros q Hq. apply to_period_M_mono. rewrite Hrows in Hq, Hs.
    destruct Hq as [<-|Hq]; [lia|]. inversion Hs as [|? ? _ Hall]; subst.
    rewrite List.Forall_forall in Hall. now apply Hall. }
  assert (Hlast : forall q, In q (rows df) -> to_period_M (label q) <= last).
  { intros q Hq. apply to_period_M_mono. now apply sorted_last_max. }
  assert (HM : first <= M <= last) by (split; [now apply Hfirst | now apply Hlast]).
  unfold month_range. fold (consec first (Z.to_nat (last - first + 1))).
  destruct (Z.to_nat (last - first + 1)) as [|k] eqn:Hk; [lia|].
  rewrite consec_S. cbn [List.map].
  change (nan_like (f first) :: shift_from (cells (f first)) (List.map f (consec (first + 1) k)))
    with (shift_from (List.map (fun _ => nan) (cells (f first)))
            (f first :: List.map f (consec (first + 1) k))).
  change (f first :: List.map f (consec (first + 1) k))
    with (List.map f (first :: consec (first + 1) k)).
  rewrite <- consec_S, lookup_shift_from by reflexivity.
  destruct (Z.leb_spec first M), (Z.ltb_spec M (first + Z.of_nat (S k))); try lia.
  cbn [andb with_cells cells].
  unfold lagged_stats.
  destruct (Z.eqb_spec M first) as [HMf|HMf].
  - assert (Hb : rows_before M (rows df) = []).
    { apply filter_none. intros q Hq. apply Z.ltb_ge. specialize (Hfirst q Hq). lia. }
    rewrite Hb, map_const_repeat. f_equal. apply agg_row_length.
  - assert (Hr0 : In r0 (rows_before M (rows df))).
    { apply filter_In. split; [rewrite Hrows; now left|]. apply Z.ltb_lt. fold first. lia. }
    destruct (rows_before M (rows df)) as [|b bs] eqn:Hb; [destruct Hr0|].
    rewrite <- Hb. unfold f, agg_row. cbn [cells]. now rewrite month_bin_before.
Qed.
End Lagged.

(** ** The monthly cells of a row of the feature matrix *)

Lemma scatter_ret_clip_cells (g : float -> float) (cols : list string) (cs : list float) :
  scatter_ret cols cs (List.map g (ret_cells cols cs)) = clip_cells g cols cs.
Proof.
  revert cs. induction cols as [|c cols IH]; intros [|x cs]; try reflexivity.
  unfold ret_cells. cbn [combine List.filter fst scatter_ret clip_cells].
  destruct (is_ret_col c); cbn [List.map snd]; f_equal; apply IH.
Qed.

Lemma clip_cells_app (g : float -> float) (c1 c2 : list string) (x1 x2 : list float) :
  length c1 = length x1 ->
  clip_cells g (c1 ++ c2) (x1 ++ x2) = clip_cells g c1 x1 ++ clip_cells g c2 x2.
Proof.
  revert x1. induction c1 as [|c c1 IH]; intros [|x x1]; simpl; try discriminate.
  - reflexivity.
  - intros [= H]. f_equal. now apply IH.
Qed.

Lemma clip_cells_length (g : float -> float) (cols : list string) (cs : list float) :
  length (clip_cells g cols cs) = length cs.
Proof.
  revert cs. induction cols as [|c cols IH]; intros [|x cs]; simpl; try reflexivity.
  now rewrite IH.
Qed.

Lemma firstn_skipn_middle {B : Type} (n m : nat) (a b c : list B) :
  length a = n -> length b = m -> firstn m (skipn n (a ++ b ++ c)) = b.
Proof.
  intros <- <-. rewrite drop_app_length. apply take_app_length.
Qed.

Lemma map2_In {B C D : Type} (f : B -> C -> D) (l1 : list B) (l2 : list C) (x : D) :
  In x (map2 f l1 l2) -> exists a b, In a l1 /\ In b l2 /\ x = f a b.
Proof.
  revert l2. induction l1 as [|a l1 IH]; intros [|b l2]; simpl; try tauto.
  intros [<-|Hin]; [exists a, b; auto|].
  destruct (IH _ Hin) as (a' & b' & ? & ? & ?). exists a', b'. auto.
Qed.

Lemma price_table_sorted (df : DataFrame) : price_table df -> price_table (sort_index df).
Proof.
  intros [Hk Hr]. split; [exact Hk|].
  unfold sort_index, with_rows. cbn [rows columns].
  eapply Permutation_Forall; [symmetry; apply sort_by_perm | exact Hr].
Qed.

Section MonthlyRows.
Variable pct_fill_pad : bool.
Variables agg_mean agg_median agg_std : list float -> float.

Lemma join_monthly_rows (df J : DataFrame) :
  price_table df ->
  join_monthly agg_mean agg_median agg_std df = Ok J ->
  columns J = columns df ++ flat_labels (columns df) /\
  rows J = List.map (fun r =>
             {| label := label r;
                cells := cells r ++ joined_cells (to_period_M (label r))
                                      (monthly_lag1 agg_mean agg_median agg_std df);
                keys := [] |}) (rows df).
Proof.
  intros [Hk Hr]. unfold join_monthly, join_on, set_period_column.
  cbn [key_columns columns rows]. rewrite Hk. cbn [app index_of String.eqb Ascii.eqb Bool.eqb].
  destruct (overlaps _ _); [discriminate|]. cbn [rbind].
  unfold drop_column. cbn [key_columns index_of String.eqb Ascii.eqb Bool.eqb columns rows].
  intros [= <-]. cbn [columns rows]. split; [reflexivity|].
  rewrite !map_map. apply map_ext_in. intros r Hin.
  rewrite List.Forall_forall in Hr. destruct (Hr r Hin) as [Hkeys _].
  unfold with_cells, key_at. cbn [label cells keys]. rewrite Hkeys. reflexivity.
Qed.

(** A row of the feature matrix built with the monthly columns comes
    from a row of the sorted price table, and its monthly cells are the
    cells the join attached to that row, cleaned and clipped. *)
Lemma build_features_monthly_part (P : DataFrame) (clipf : bool) (lo hi : float)
                                  (out : DataFrame) (r : Row) :
  price_table P ->
  build_features pct_fill_pad agg_mean agg_median agg_std P true clipf lo hi = Ok out ->
  In r (rows out) ->
  exists r0,
    In r0 (rows (sort_index P)) /\ label r0 = label r /\
    monthly_part (length (columns P)) r
      = monthly_post clipf lo hi (columns P)
          (joined_cells (to_period_M (label r0))
             (monthly_lag1 agg_mean agg_median agg_std (sort_index P))).
Proof.
  intros HP Hb Hin.
  destruct (build_features_inv _ _ _ _ _ _ _ _ _ _ Hb) as (_ & J & HJ & Hout).
  cbv zeta in Hout.
  destruct (join_monthly_rows _ _ (price_table_sorted _ HP) HJ) as [HcJ HrJ].
  set (S := sort_index P) in *.
  set (ml := monthly_lag1 agg_mean agg_median agg_std S) in *.
  set (R := add_prefix ret_prefix (pct_change pct_fill_pad S)) in *.
  set (pre := dropna (replace_inf_with_nan (concat_columns J R))) in *.
  assert (Hpre : forall q, In q (rows pre) ->
            exists r0 rb, In r0 (rows S) /\ label r0 = label q /\
              cells q = List.map replace_inf (cells r0)
                        ++ List.map replace_inf (joined_cells (to_period_M (label r0)) ml)
                        ++ List.map replace_inf rb).
  { intros q Hq. unfold pre, dropna, replace_inf_with_nan, with_rows in Hq. cbn [rows] in Hq.
    apply filter_In in Hq as [Hq _]. apply in_map_iff in Hq as (q' & <- & Hq').
    unfold concat_columns in Hq'. cbn [rows] in Hq'.
    apply map2_In in Hq' as (ra & rb & Hra & _ & ->).
    rewrite HrJ in Hra. apply in_map_iff in Hra as (r0 & <- & Hr0).
    exists r0, (cells rb). split; [assumption|]. split; [reflexivity|].
    cbn [with_cells cells label]. now rewrite !map_app, <- app_assoc. }
  assert (Hlen : forall r0, In r0 (rows S) ->
            length (cells r0) = length (columns P) /\
            length (joined_cells (to_period_M (label r0)) ml) = (3 * length (columns P))%nat).
  { intros r0 Hr0. destruct (price_table_sorted _ HP) as [_ HF].
    rewrite List.Forall_forall in HF. destruct (HF r0 Hr0) as [_ Hl]. split; [exact Hl|].
    unfold ml. rewrite joined_cells_lagged by (try apply sort_by_sorted; assumption).
    apply lagged_stats_length. }
  unfold monthly_part, monthly_post. cbv zeta.
  destruct clipf.
  - rewrite Hout, clip_step_rows in Hin. apply in_map_iff in Hin as (q & <- & Hq).
    destruct (Hpre q Hq) as (r0 & rb & Hr0 & Hl & Hc). destruct (Hlen r0 Hr0) as [Hn H3].
    exists r0. split; [assumption|]. split; [assumption|].
    cbn [with_cells cells]. rewrite scatter_ret_clip_cells, Hc.
    assert (Hcols : columns pre
              = columns P ++ flat_labels (columns P)
                ++ List.map (String.append ret_prefix) (columns P)).
    { unfold pre, dropna, replace_inf_with_nan, concat_columns, with_rows. cbn [columns].
      rewrite HcJ. now rewrite <- app_assoc. }
    rewrite Hcols, clip_cells_app by (rewrite length_map; lia).
    rewrite clip_cells_app by (rewrite length_map, flat_labels_length; lia).
    apply firstn_skipn_middle.
    + rewrite clip_cells_length, length_map. exact Hn.
    + rewrite clip_cells_length, length_map. exact H3.
  - rewrite Hout in Hin. destruct (Hpre r Hin) as (r0 & rb & Hr0 & Hl & Hc).
    destruct (Hlen r0 Hr0) as [Hn H3].
    exists r0. split; [assumption|]. split; [assumption|]. rewrite Hc.
    apply firstn_skipn_middle; rewrite length_map; assumption.
Qed.
End MonthlyRows.

(** ** No lookahead in the monthly features *)

Section NoLookahead.
Variable pct_fill_pad : bool.
Variables agg_mean agg_median agg_std : list float -> float.

(** C3: with [include_monthly] on, the monthly cells of a row dated in
    month [M] are the cleaned and clipped aggregates of month [M - 1],
    computed from the rows of the price table dated in months before [M]
    and from nothing else: two price tables with the same columns that
    agree on all rows of the months before [M] give every row of month [M]
    the same monthly cells, whatever they hold in month [M] and later. *)
Theorem no_lookahead_monthly (P1 P2 : DataFrame) (M : Z) (clipf : bool) (lo hi : float)
                             (out1 out2 : DataFrame) (r1 r2 : Row) :
  price_table P1 -> price_table P2 -> columns P1 = columns P2 ->
  rows_before M (rows P1) = rows_before M (rows P2) ->
  build_features pct_fill_pad agg_mean agg_median agg_std P1 true clipf lo hi = Ok out1 ->
  build_features pct_fill_pad agg_mean agg_median agg_std P2 true clipf lo hi = Ok out2 ->
  In r1 (rows out1) -> In r2 (rows out2) ->
  to_period_M (label r1) = M -> to_period_M (label r2) = M ->
  monthly_part (length (columns P1)) r1
    = monthly_post clipf lo hi (columns P1)
        (lagged_stats agg_mean agg_median agg_std (length (columns P1))
           (sort_rows (rows_before M (rows P1))) M) /\
  monthly_part (length (columns P1)) r1 = monthly_part (length (columns P2)) r2.
Proof.
  intros HP1 HP2 Hcols Hbefore Hb1 Hb2 Hin1 Hin2 HM1 HM2.
  assert (Hrow : forall P out r,
            price_table P ->
            build_features pct_fill_pad agg_mean agg_median agg_std P true clipf lo hi = Ok out ->
            In r (rows out) -> to_period_M (label r) = M ->
            monthly_part (length (columns P)) r
              = monthly_post clipf lo hi (columns P)
                  (lagged_stats agg_mean agg_median agg_std (length (columns P))
                     (sort_rows (rows_before M (rows P))) M)).
  { intros P out r HP Hb Hin HM.
    destruct (build_features_monthly_part _ _ _ _ _ _ _ _ _ _ HP Hb Hin)
      as (r0 & Hr0 & Hl & Hpart).
    rewrite Hpart. f_equal. rewrite Hl, HM in *.
    rewrite <- HM, <- Hl at 1.
    rewrite joined_cells_lagged by (try apply sort_by_sorted; assumption).
    rewrite Hl, HM. cbn [columns sort_index with_rows rows]. f_equal.
    unfold rows_before, sort_rows. apply sort_by_filter. }
  split; [now apply (Hrow P1 out1)|].
  rewrite (Hrow P1 out1 r1), (Hrow P2 out2 r2) by assumption.
  now rewrite Hcols, Hbefore.
Qed.
End NoLookahead.

Lemma no_lookahead_monthly_witness :
  price_table ex_prices /\ price_table ex_prices_alt /\
  columns ex_prices = columns ex_prices_alt /\
  rows_before 649 (rows ex_prices) = rows_before 649 (rows ex_prices_alt) /\
  build_features false nanmean nanmedian nanstd ex_prices true true (-0.25)%float 0.25%float
    = Ok ex_matrix /\
  build_features false nanmean nanmedian nanstd ex_prices_alt true true (-0.25)%float 0.25%float
    = Ok ex_matrix_alt /\
  (exists r1 r2,
     In r1 (rows ex_matrix) /\ In r2 (rows ex_matrix_alt) /\
     to_period_M (label r1) = 649 /\ to_period_M (label r2) = 649 /\
     label r1 <> label r2 /\
     monthly_part 2 r1 = monthly_part 2 r2).
Proof.
  assert (H1 : price_table ex_prices) by (split; [reflexivity | repeat constructor]).
  assert (H2 : price_table ex_prices_alt) by (split; [reflexivity | repeat constructor]).
  assert (Hb : rows_before 649 (rows ex_prices) = rows_before 649 (rows ex_prices_alt))
    by reflexivity.
  assert (B1 : build_features false nanmean nanmedian nanstd ex_prices true true
                 (-0.25)%float 0.25%float = Ok ex_matrix) by reflexivity.
  assert (B2 : build_features false nanmean nanmedian nanstd ex_prices_alt true true
                 (-0.25)%float 0.25%float = Ok ex_matrix_alt) by reflexivity.
  repeat (split; [assumption || reflexivity|]).
  exists (List.hd (mkRow 0 [] []) (rows ex_matrix)),
         (List.hd (mkRow 0 [] []) (rows ex_matrix_alt)).
  assert (I1 : In (List.hd (mkRow 0 [] []) (rows ex_matrix)) (rows ex_matrix))
    by (left; reflexivity).
  assert (I2 : In (List.hd (mkRow 0 [] []) (rows ex_matrix_alt)) (rows ex_matrix_alt))
    by (left; reflexivity).
  repeat (split; [assumption || reflexivity || discriminate|]).
  exact (proj2 (no_lookahead_monthly false nanmean nanmedian nanstd ex_prices ex_prices_alt 649
                  true (-0.25)%float 0.25%float ex_matrix ex_matrix_alt _ _
                  H1 H2 eq_refl Hb B1 B2 I1 I2 eq_refl eq_refl)).
Defined.

(** ** Business days *)

Lemma weekday_range (t : Timestamp) : 0 <= weekday t <= 6.
Proof. unfold weekday. pose proof (Z.mod_pos_bound (date_of t + 3) 7). lia. Qed.

Lemma date_of_add_days (t : Timestamp) (k : Z) :
  date_of (t + k * NS_PER_DAY) = date_of t + k.
Proof. unfold date_of. apply Z.div_add. discriminate. Qed.

(** The forecast day of a horizon [n >= 1] is a later day and falls on
    a weekday, Monday to Friday. *)
Lemma BDay_add_weekday (t : Timestamp) (n : Z) :
  1 <= n -> date_of t < date_of (BDay_add t n) /\ 0 <= weekday (BDay_add t n) <= 4.
Proof.
  intros Hn. pose proof (weekday_range t) as Hw.
  unfold BDay_add. cbv zeta. unfold weekday in *. rewrite !date_of_add_days.
  set (w := (date_of t + 3) mod 7) in *.
  pose proof (Z.div_mod (date_of t + 3) 7 ltac:(lia)) as Hd. fold w in Hd.
  pose proof (Z.div_mod n 5 ltac:(lia)) as Hq.
  pose proof (Z.mod_pos_bound n 5 ltac:(lia)) as Hr.
  set (q := n / 5) in *. set (m := n mod 5) in *.
  assert (Hq0 : 0 <= q) by lia.
  unfold adjust_ndays.
  destruct (Z.leb_spec n 0); [lia|]. cbn [andb].
  replace (n - 5 * q) with m by lia.
  destruct (Z.eqb_spec m 0) as [Hm0|Hm0]; destruct (Z.ltb_spec 4 w) as [Hw4|Hw4]; cbn [andb].
  - (* a multiple of five days, from a weekend: back to Friday *)
    assert (1 <= q) by lia.
    replace (date_of t + (7 * q + (4 - w)) + 3)
      with (4 + (date_of t + 3) / 7 * 7 + q * 7) by lia.
    rewrite !Z.mod_add by lia. change (4 mod 7) with 4. lia.
  - assert (1 <= q) by lia.
    destruct (Z.leb_spec (w + m) 4); [|lia].
    replace (date_of t + (7 * q + m) + 3) with (w + ((date_of t + 3) / 7 + q) * 7) by lia.
    rewrite Z.mod_add by lia. rewrite Z.mod_small by lia. lia.
  - replace (date_of t + (7 * q + (7 - w + (m - 1))) + 3)
      with (m - 1 + ((date_of t + 3) / 7 + q + 1) * 7) by lia.
    rewrite Z.mod_add by lia. rewrite Z.mod_small by lia. lia.
  - destruct (Z.leb_spec (w + m) 4).
    + replace (date_of t + (7 * q + m) + 3) with (w + m + ((date_of t + 3) / 7 + q) * 7) by lia.
      rewrite Z.mod_add by lia. rewrite Z.mod_small by lia. lia.
    + replace (date_of t + (7 * q + (m + 2)) + 3)
        with (w + m - 5 + ((date_of t + 3) / 7 + q + 1) * 7) by lia.
      rewrite Z.mod_add by lia. rewrite Z.mod_small by lia. lia.
Qed.

Lemma consec_app (a : Z) (n1 n2 : nat) :
  consec a (n1 + n2) = consec a n1 ++ consec (a + Z.of_nat n1) n2.
Proof.
  revert a. induction n1 as [|n1 IH]; intros a.
  - cbn [Nat.add]. unfold consec at 2. cbn [seq List.map app]. f_equal. lia.
  - cbn [Nat.add]. rewrite !consec_S, IH. cbn [app]. do 3 f_equal. lia.
Qed.

Lemma filter_map_length {B C : Type} (p : C -> bool) (f : B -> C) (l : list B) :
  length (List.filter p (List.map f l)) = length (List.filter (fun x => p (f x)) l).
Proof.
  induction l as [|x l IH]; simpl; [reflexivity|]. destruct (p (f x)); simpl; now rewrite IH.
Qed.

Lemma business_days_weekdays (d k : Z) :
  business_days_after d k = weekdays_after ((d + 3) mod 7) k.
Proof.
  unfold business_days_after, weekdays_after. f_equal.
  assert (Hc : forall n, consec (d + 1) n = List.map (fun i => d + i) (consec 1 n)).
  { intros n. unfold consec. rewrite map_map. apply map_ext. intros i. lia. }
  rewrite Hc, filter_map_length. f_equal. apply filter_ext. intros i.
  unfold is_business_day. f_equal.
  replace (d + i + 3) with (d + 3 + i) by lia. now rewrite Z.add_mod_idemp_l by lia.
Qed.

Lemma business_days_split (d k1 k2 : Z) :
  0 <= k1 -> 0 <= k2 ->
  business_days_after d (k1 + k2) = business_days_after d k1 + business_days_after (d + k1) k2.
Proof.
  intros H1 H2. unfold business_days_after.
  rewrite Z2Nat.inj_add, consec_app, List.filter_app, length_app by assumption.
  rewrite Z2Nat.id by assumption. rewrite Nat2Z.inj_add.
  now replace (d + 1 + k1) with (d + k1 + 1) by lia.
Qed.

Lemma weekday_cases (w : Z) :
  0 <= w <= 6 -> w = 0 \/ w = 1 \/ w = 2 \/ w = 3 \/ w = 4 \/ w = 5 \/ w = 6.
Proof. lia. Qed.

Lemma business_days_week (d : Z) : business_days_after d 7 = 5.
Proof.
  rewrite business_days_weekdays.
  pose proof (Z.mod_pos_bound (d + 3) 7 ltac:(lia)) as Hw.
  destruct (weekday_cases ((d + 3) mod 7) ltac:(lia))
    as [-> | [-> | [-> | [-> | [-> | [-> | ->]]]]]]; reflexivity.
Qed.

Lemma business_days_weeks (d j : Z) : 0 <= j -> business_days_after d (7 * j) = 5 * j.
Proof.
  intros Hj. revert d. pattern j. apply natlike_ind; [ | | exact Hj].
  - intros d. reflexivity.
  - intros k Hk IH d. replace (7 * Z.succ k) with (7 + 7 * k) by lia.
    rewrite business_days_split, business_days_week, IH by lia. lia.
Qed.

(** [BDay_add] advances by exactly [n] business days: the forecast day
    is a business day and [n] business days lie after the day of [t], up
    to and including it. *)
Lemma BDay_add_counts (t : Timestamp) (n : Z) :
  1 <= n ->
  business_days_after (date_of t) (date_of (BDay_add t n) - date_of t) = n.
Proof.
  intros Hn. pose proof (weekday_range t) as Hw.
  unfold BDay_add. cbv zeta. unfold weekday in *. rewrite date_of_add_days.
  set (D := date_of t) in *. set (w := (D + 3) mod 7) in *.
  pose proof (Z.div_mod n 5 ltac:(lia)) as Hq.
  pose proof (Z.mod_pos_bound n 5 ltac:(lia)) as Hr.
  set (q := n / 5) in *. set (m := n mod 5) in *.
  assert (Hq0 : 0 <= q) by lia.
  unfold adjust_ndays.
  destruct (Z.leb_spec n 0); [lia|]. cbn [andb].
  replace (n - 5 * q) with m by lia.
  assert (Hshift : forall k, 0 <= k -> (D + 7 * k + 3) mod 7 = w).
  { intros k Hk. unfold w. replace (D + 7 * k + 3) with (D + 3 + k * 7) by lia.
    apply Z.mod_add. lia. }
  assert (Hmain : forall j r, 0 <= j -> 0 <= r ->
            business_days_after D (7 * j + r) = 5 * j + weekdays_after w r).
  { intros j r Hj Hr0. rewrite business_days_split, business_days_weeks by lia.
    now rewrite business_days_weekdays, Hshift. }
  assert (Hm : m = 0 \/ m = 1 \/ m = 2 \/ m = 3 \/ m = 4) by lia.
  destruct (Z.eqb_spec m 0) as [Hm0|Hm0]; destruct (Z.ltb_spec 4 w) as [Hw4|Hw4]; cbn [andb].
  - replace (D + (7 * q + (4 - w)) - D) with (7 * (q - 1) + (11 - w)) by lia.
    rewrite Hmain by lia. rewrite Hq, Hm0.
    assert (Hc : w = 5 \/ w = 6) by lia.
    destruct Hc as [Hc|Hc]; rewrite Hc; change (weekdays_after _ _) with 5; lia.
  - destruct (Z.leb_spec (w + m) 4); [|lia].
    replace (D + (7 * q + m) - D) with (7 * q + m) by lia.
    rewrite Hmain by lia. rewrite Hq, Hm0. change (weekdays_after w 0) with 0. lia.
  - replace (D + (7 * q + (7 - w + (m - 1))) - D) with (7 * q + (7 - w + (m - 1))) by lia.
    rewrite Hmain by lia. rewrite Hq. f_equal.
    assert (Hc : w = 5 \/ w = 6) by lia.
    destruct Hc as [Hc|Hc]; rewrite Hc;
      destruct Hm as [Hv | [Hv | [Hv | [Hv | Hv]]]]; rewrite Hv; try reflexivity; lia.
  - destruct (Z.leb_spec (w + m) 4) as [Hle|Hgt].
    + replace (D + (7 * q + m) - D) with (7 * q + m) by lia.
      rewrite Hmain by lia. rewrite Hq. f_equal.
      destruct (weekday_cases _ Hw) as [Hc | [Hc | [Hc | [Hc | [Hc | [Hc | Hc]]]]]];
        destruct Hm as [Hv | [Hv | [Hv | [Hv | Hv]]]]; try lia; rewrite Hc, Hv; reflexivity.
    + replace (D + (7 * q + (m + 2)) - D) with (7 * q + (m + 2)) by lia.
      rewrite Hmain by lia. rewrite Hq. f_equal.
      destruct (weekday_cases _ Hw) as [Hc | [Hc | [Hc | [Hc | [Hc | [Hc | Hc]]]]]];
        destruct Hm as [Hv | [Hv | [Hv | [Hv | Hv]]]]; try lia; rewrite Hc, Hv; reflexivity.
Qed.

(** ** The training loop *)

Lemma bind_Ok_inv {A B : Type} (c : Run A) (k : A -> Run B) (ev : list Event) (b : B) :
  bind c k = (ev, Ok b) ->
  exists ev1 a ev2, c = (ev1, Ok a) /\ k a = (ev2, Ok b) /\ ev = ev1 ++ ev2.
Proof.
  unfold bind. destruct c as [ev1 [a|e]]; [|discriminate].
  destruct (k a) as [ev2 r] eqn:Hk. intros [= <- ->]. exists ev1, a, ev2. auto.
Qed.

Lemma bind_Raise {A B : Type} (c : Run A) (k : A -> Run B) (ev : list Event) (e : PyError) :
  c = (ev, Raise e) -> bind c k = (ev, Raise e).
Proof. intros ->. reflexivity. Qed.

Lemma lift_Ok_inv {A : Type} (r : Result A) (ev : list Event) (a : A) :
  lift r = (ev, Ok a) -> r = Ok a /\ ev = [].
Proof. unfold lift. intros [= <- ->]. auto. Qed.

Lemma bind_lift_Ok {A B : Type} (a : A) (k : A -> Run B) : bind (lift (Ok a)) k = k a.
Proof. unfold bind, lift. now destruct (k a). Qed.

Section LoopProperties.
Variable Model : Type.
Variable fit : DataFrame -> list float -> Result Model.
Variable predict : Model -> DataFrame -> Result (list float).
Variable mean_absolute_error : list float -> list float -> Result float.
Variable mean_squared_error : list float -> list float -> Result float.
Variable external_ok : Event -> bool.
Variable run_id_of : string -> Z -> string.
Variable utc_now : string -> Z -> string.

Abbreviation iteration' :=
  (iteration Model fit predict mean_absolute_error mean_squared_error external_ok
             run_id_of utc_now).

Lemma external_Ok_inv (e : Event) (ev : list Event) (u : unit) :
  external external_ok e = (ev, Ok u) -> external_ok e = true /\ ev = [e].
Proof.
  unfold external. destruct (external_ok e); [|discriminate]. intros [= <-]. auto.
Qed.

(** The body of the loop up to the skip test. *)
Lemma iteration_unfold (cfg : Config) (endpoint : string) (F : DataFrame)
                       (asof : option Timestamp)
                       (T : string) (h : Z) (X : DataFrame) (y : Series) (fc : list string)
                       (data train_df val_df test_df : DataFrame) :
  make_xy F T h = Ok (X, y, fc) ->
  supervised_dataset X y = Ok data ->
  time_split data (train_end cfg) (val_end cfg) = Ok (train_df, val_df, test_df) ->
  too_small cfg train_df val_df test_df = true ->
  iteration' cfg endpoint F asof T h
    = ([Print (MsgSkip T h (len train_df) (len val_df) (len test_df))], Ok tt).
Proof.
  intros Hxy Hd Hs Hsmall. unfold iteration. rewrite Hxy. cbn [lift bind app].
  rewrite Hd. cbn [lift bind app]. rewrite Hs. cbn [lift bind app].
  unfold too_small in Hsmall. rewrite Hsmall. reflexivity.
Qed.

(** C6: when the train, the validation or the test split of a pair has
    fewer than [min_samples] rows, the body of the loop does nothing but
    print the warning: it returns without raising and records no
    artifact, and the loop goes on with the next pair.  No other failure
    is recovered: whenever the body raises, the loop stops there with that
    exception and runs no later pair. *)
Theorem skip_policy (cfg : Config) (endpoint : string) (F : DataFrame)
                    (asof : option Timestamp)
                    (T : string) (h : Z) (rest : list (string * Z))
                    (X : DataFrame) (y : Series) (fc : list string)
                    (data train_df val_df test_df : DataFrame) :
  make_xy F T h = Ok (X, y, fc) ->
  supervised_dataset X y = Ok data ->
  time_split data (train_end cfg) (val_end cfg) = Ok (train_df, val_df, test_df) ->
  len train_df < min_samples cfg \/ len val_df < min_samples cfg
    \/ len test_df < min_samples cfg ->
  iteration' cfg endpoint F asof T h
    = ([Print (MsgSkip T h (len train_df) (len val_df) (len test_df))], Ok tt) /\
  artifacts (fst (iteration' cfg endpoint F asof T h)) = [] /\
  loop (iteration' cfg endpoint F asof) ((T, h) :: rest)
    = (Print (MsgSkip T h (len train_df) (len val_df) (len test_df))
         :: fst (loop (iteration' cfg endpoint F asof) rest),
       snd (loop (iteration' cfg endpoint F asof) rest)) /\
  (forall (body : string -> Z -> Run unit) ev e,
     body T h = (ev, Raise e) -> loop body ((T, h) :: rest) = (ev, Raise e)).
Proof.
  intros Hxy Hd Hs Hsmall.
  assert (Hb : too_small cfg train_df val_df test_df = true).
  { unfold too_small. rewrite !orb_true_iff, !Z.ltb_lt. tauto. }
  pose proof (iteration_unfold cfg endpoint F asof T h _ _ _ _ _ _ _ Hxy Hd Hs Hb) as Hit.
  split; [exact Hit|]. split; [now rewrite Hit|]. split.
  - cbn [loop]. rewrite Hit. cbn [bind app].
    now destruct (loop _ rest).
  - intros body ev e Hbody. cbn [loop]. now apply bind_Raise.
Qed.

(** One step of the body, read backwards: a bind that returned. *)
Ltac run_step H :=
  let ev1 := fresh "ev" in let a := fresh "a" in let ev2 := fresh "ev" in
  let Hc := fresh "Hc" in let Hk := fresh "Hk" in
  apply bind_Ok_inv in H as (ev1 & a & ev2 & Hc & Hk & ->);
  cbv beta zeta in Hk;
  first
    [ apply lift_Ok_inv in Hc as [Hc ->]
    | apply external_Ok_inv in Hc as [Hc ->]
    | unfold upload_df_as_csv_to_s3 in Hc; apply external_Ok_inv in Hc as [Hc ->]
    | unfold print in Hc; injection Hc as <- <- ];
  rename Hk into H.

Lemma iloc_last_inv (X x_last : DataFrame) :
  iloc_last X = Ok x_last ->
  exists init row, rows X = init ++ [row] /\ x_last = with_rows X [row].
Proof.
  unfold iloc_last. destruct (rev (rows X)) as [|r l] eqn:Hrev; [discriminate|].
  intros [= <-]. exists (rev l), r. split; [|reflexivity].
  rewrite <- (rev_involutive (rows X)), Hrev. reflexivity.
Qed.
End LoopProperties.

Lemma skip_policy_witness :
  exists X y fc data train_df val_df test_df,
    make_xy ex_week "A" 1 = Ok (X, y, fc) /\
    supervised_dataset X y = Ok data /\
    time_split data (train_end (ex_config 200)) (val_end (ex_config 200))
      = Ok (train_df, val_df, test_df) /\
    (len train_df < min_samples (ex_config 200) \/ len val_df < min_samples (ex_config 200)
       \/ len test_df < min_samples (ex_config 200)) /\
    ex_iteration 200 = ([Print (MsgSkip "A" 1 2 1 1)], Ok tt) /\
    artifacts (fst (ex_iteration 200)) = [].
Proof.
  eexists _, _, _, _, _, _, _.
  assert (H1 : make_xy ex_week "A" 1 = Ok (iloc_to (-1) (frame_or ex_week
                 (getitem_list ["ret_B"%string] ex_week)),
               s_iloc_to (-1) (s_shift (-1) (mkSeries "ret_A"
                  (List.map (fun r => (label r, cell_at 0 r)) (rows ex_week)))),
               ["ret_B"%string])) by reflexivity.
  split; [exact H1|].
  assert (H2 : supervised_dataset
                 (iloc_to (-1) (frame_or ex_week (getitem_list ["ret_B"%string] ex_week)))
                 (s_iloc_to (-1) (s_shift (-1) (mkSeries "ret_A"
                    (List.map (fun r => (label r, cell_at 0 r)) (rows ex_week)))))
               = Ok (frame_or ex_week (supervised_dataset
                 (iloc_to (-1) (frame_or ex_week (getitem_list ["ret_B"%string] ex_week)))
                 (s_iloc_to (-1) (s_shift (-1) (mkSeries "ret_A"
                    (List.map (fun r => (label r, cell_at 0 r)) (rows ex_week)))))))) by reflexivity.
  split; [exact H2|].
  match type of H2 with _ = Ok ?d =>
    assert (H3 : time_split d (train_end (ex_config 200)) (val_end (ex_config 200))
                 = Ok (split_sorted (sort_index d) (train_end (ex_config 200))
                                    (val_end (ex_config 200)))) by reflexivity
  end.
  split; [exact H3|].
  match type of H3 with _ = Ok (split_sorted ?d ?a ?b) =>
    assert (H4 : len (fst (fst (split_sorted d a b))) < min_samples (ex_config 200)
                 \/ len (snd (fst (split_sorted d a b))) < min_samples (ex_config 200)
                 \/ len (snd (split_sorted d a b)) < min_samples (ex_config 200))
      by (left; reflexivity)
  end.
  split; [exact H4|].
  pose proof (skip_policy unit ex_fit ex_predict ex_metric ex_metric ex_external_ok
                ex_run_id ex_now (ex_config 200) "http://minio:9000" ex_week (Some ex_asof)
                "A" 1 []
                _ _ _ _ _ _ _ H1 H2 H3 H4) as (Ha & Hb & _).
  split; [exact Ha | exact Hb].
Defined.

(** ** build_features and the objects it writes to *)

Section StoreSteps.
Implicit Types (s t : Store) (d : DataFrame) (k : nat).

Lemma lookup_tail s t k : (s ++ t) !! (length s + k)%nat = t !! k.
Proof. rewrite lookup_app_r by lia. f_equal. lia. Qed.

Lemma deref_old s t l d :
  s !! l = Some d -> deref l (s ++ t) = (Ok d, s ++ t).
Proof. intros H. unfold deref. now rewrite (lookup_app_l_Some _ _ _ _ H). Qed.

Lemma deref_tail s t k d :
  t !! k = Some d -> deref (length s + k)%nat (s ++ t) = (Ok d, s ++ t).
Proof. intros H. unfold deref. now rewrite lookup_tail, H. Qed.

Lemma new_tail s t d :
  new d (s ++ t) = (Ok (length s + length t)%nat, s ++ (t ++ [d])).
Proof. unfold new. now rewrite length_app, app_assoc. Qed.

Lemma mutate_tail (f : DataFrame -> DataFrame) s t k d :
  t !! k = Some d ->
  mutate (length s + k)%nat f (s ++ t) = (Ok tt, s ++ <[k := f d]> t).
Proof.
  intros H. unfold mutate. rewrite lookup_tail, H.
  rewrite insert_app_r_alt by lia. do 3 f_equal. lia.
Qed.

Lemma method_old (f : DataFrame -> DataFrame) s t l d :
  s !! l = Some d ->
  method f l (s ++ t) = (Ok (length s + length t)%nat, s ++ (t ++ [f d])).
Proof. intros H. unfold method, st_bind. rewrite (deref_old _ _ _ _ H). apply new_tail. Qed.

Lemma method_tail (f : DataFrame -> DataFrame) s t k d :
  t !! k = Some d ->
  method f (length s + k)%nat (s ++ t) = (Ok (length s + length t)%nat, s ++ (t ++ [f d])).
Proof. intros H. unfold method, st_bind. rewrite (deref_tail _ _ _ _ H). apply new_tail. Qed.

Lemma method_r_tail (f : DataFrame -> Result DataFrame) s t k d :
  t !! k = Some d ->
  method_r f (length s + k)%nat (s ++ t)
    = match f d with
      | Ok d' => (Ok (length s + length t)%nat, s ++ (t ++ [d']))
      | Raise e => (Raise e, s ++ t)
      end.
Proof.
  intros H. unfold method_r, st_bind. rewrite (deref_tail _ _ _ _ H).
  destruct (f d); [apply new_tail | reflexivity].
Qed.

Lemma method2_tail (f : DataFrame -> DataFrame -> DataFrame) s t k1 k2 d1 d2 :
  t !! k1 = Some d1 -> t !! k2 = Some d2 ->
  method2 f (length s + k1)%nat (length s + k2)%nat (s ++ t)
    = (Ok (length s + length t)%nat, s ++ (t ++ [f d1 d2])).
Proof.
  intros H1 H2. unfold method2, st_bind.
  rewrite (deref_tail _ _ _ _ H1), (deref_tail _ _ _ _ H2). apply new_tail.
Qed.

Lemma method2_r_tail (f : DataFrame -> DataFrame -> Result DataFrame) s t k1 k2 d1 d2 :
  t !! k1 = Some d1 -> t !! k2 = Some d2 ->
  method2_r f (length s + k1)%nat (length s + k2)%nat (s ++ t)
    = match f d1 d2 with
      | Ok d' => (Ok (length s + length t)%nat, s ++ (t ++ [d']))
      | Raise e => (Raise e, s ++ t)
      end.
Proof.
  intros H1 H2. unfold method2_r, st_bind.
  rewrite (deref_tail _ _ _ _ H1), (deref_tail _ _ _ _ H2).
  destruct (f d1 d2); [apply new_tail | reflexivity].
Qed.

Lemma mutate_r_tail (f : DataFrame -> Result DataFrame) s t k d :
  t !! k = Some d ->
  mutate_r (length s + k)%nat f (s ++ t)
    = match f d with
      | Ok d' => (Ok tt, s ++ <[k := d']> t)
      | Raise e => (Raise e, s ++ t)
      end.
Proof.
  intros H. unfold mutate_r. rewrite lookup_tail, H.
  destruct (f d); [|reflexivity].
  rewrite insert_app_r_alt by lia. do 3 f_equal. lia.
Qed.

Lemma old_objects_kept s t l d : s !! l = Some d -> (s ++ t) !! l = Some d.
Proof. apply lookup_app_l_Some. Qed.
End StoreSteps.

Section StoreProperties.
Variable pct_fill_pad : bool.
Variables agg_mean agg_median agg_std : list float -> float.

(** One step of a run over the store [s ++ t], where [t] holds the
    objects made so far. *)
Ltac st_step :=
  first
    [ erewrite method_tail by reflexivity
    | erewrite method_r_tail by reflexivity
    | erewrite method2_tail by reflexivity
    | erewrite method2_r_tail by reflexivity
    | erewrite mutate_tail by reflexivity
    | erewrite mutate_r_tail by reflexivity
    | erewrite deref_tail by reflexivity ];
  cbn [app length Nat.add list_insert insert].

Ltac st_run :=
  repeat first
    [ st_step
    | progress (unfold st_bind at 1)
    | progress (unfold st_ret, st_raise)
    | match goal with
      | |- context [match join_on ?k ?a ?b with Ok _ => _ | Raise _ => _ end] =>
          destruct (join_on k a b) eqn:?
      | |- context [match drop_column ?k ?a with Ok _ => _ | Raise _ => _ end] =>
          destruct (drop_column k a) eqn:?
      | |- context [match loc_set_ret_columns ?v ?a with Ok _ => _ | Raise _ => _ end] =>
          destruct (loc_set_ret_columns v a) eqn:?
      end ].

(** The run of [build_features_st], in continuation form: the store it
    leaves is the one it found followed by the objects it made, and its
    result agrees with [build_features]. *)
Lemma build_features_st_run (s : Store) (df_prices : Ref) (prices : DataFrame)
                            (inc clipf : bool) (lo hi : float)
                            (P : Result Ref * Store -> Prop) :
  s !! df_prices = Some prices ->
  (forall t r,
     match r, build_features pct_fill_pad agg_mean agg_median agg_std
                prices inc clipf lo hi with
     | Ok out_ref, Ok out => (length s <= out_ref)%nat /\ (s ++ t) !! out_ref = Some out
     | Raise e, Raise e' => e = e'
     | _, _ => False
     end -> P (r, s ++ t)) ->
  P (build_features_st pct_fill_pad agg_mean agg_median agg_std df_prices inc clipf lo hi s).
Proof.
  intros Hl HP.
  unfold build_features_st, build_features, join_monthly, monthly_lag1, copy in *.
  rewrite <- (app_nil_r s) at 1. revert HP.
  unfold st_bind at 1. rewrite (deref_old _ _ _ _ Hl).
  destruct (is_DatetimeIndex (index_kind prices)) eqn:Hk; cbn [negb].
  2: { intros HP. apply (HP [] (Raise TypeError)). reflexivity. }
  unfold st_bind at 1. rewrite (method_old _ _ _ _ _ Hl). cbn [app length Nat.add].
  destruct inc, clipf; st_run; intros HP; apply HP; cbn [rbind];
    try match goal with H : drop_column _ _ = _ |- _ => rewrite H; cbn [rbind] end;
    try match goal with H : loc_set_ret_columns _ _ = _ |- _ => rewrite H end;
    first [ reflexivity | split; [lia | rewrite lookup_tail; reflexivity] ].
Qed.

(** C10: [build_features] never writes to its input.  Run on any store
    in which the reference [df_prices] points to a price table, it leaves
    every object that was there before as it was (index, columns and
    cells), the input among them; what it updates in place are objects it
    made itself.  The frame it returns is a new object whose value is the
    one [build_features] computes, and it raises exactly when
    [build_features] does. *)
Theorem build_features_keeps_input (s : Store) (df_prices : Ref) (prices : DataFrame)
                                   (inc clipf : bool) (lo hi : float) :
  s !! df_prices = Some prices ->
  (forall l d, s !! l = Some d ->
     snd (build_features_st pct_fill_pad agg_mean agg_median agg_std
            df_prices inc clipf lo hi s) !! l = Some d) /\
  snd (build_features_st pct_fill_pad agg_mean agg_median agg_std
         df_prices inc clipf lo hi s) !! df_prices = Some prices /\
  match fst (build_features_st pct_fill_pad agg_mean agg_median agg_std
               df_prices inc clipf lo hi s),
        build_features pct_fill_pad agg_mean agg_median agg_std prices inc clipf lo hi with
  | Ok out_ref, Ok out =>
      (length s <= out_ref)%nat /\
      snd (build_features_st pct_fill_pad agg_mean agg_median agg_std
             df_prices inc clipf lo hi s) !! out_ref = Some out
  | Raise e, Raise e' => e = e'
  | _, _ => False
  end.
Proof.
  intros Hl. apply (build_features_st_run s df_prices prices inc clipf lo hi); [exact Hl|].
  intros t r Hm. cbn [fst snd].
  split; [intros l d; apply old_objects_kept|].
  split; [now apply old_objects_kept | exact Hm].
Qed.
End StoreProperties.

Lemma build_features_keeps_input_witness :
  [ex_prices] !! 0%nat = Some ex_prices /\
  snd (build_features_st false nanmean nanmedian nanstd 0%nat true true
         (-0.25)%float 0.25%float [ex_prices]) !! 0%nat = Some ex_prices /\
  fst (build_features_st false nanmean nanmedian nanstd 0%nat true true
         (-0.25)%float 0.25%float [ex_prices]) = Ok 13%nat.
Proof.
  split; [reflexivity|]. split; [|vm_compute; reflexivity].
  exact (proj1 (proj2 (build_features_keeps_input false nanmean nanmedian nanstd
                         [ex_prices] 0%nat ex_prices true true (-0.25)%float 0.25%float
                         eq_refl))).
Defined.


(* ================================================================= *)
(** * Edge cases, invariants and compositions *)

(** ** make_xy: failure and horizons that are not positive *)

(** X1: [make_xy] fails exactly when the feature matrix has no return
    column for the target, and then with a [ValueError]; whatever the
    horizon, it fails in no other way. *)
Theorem make_xy_raises (F : DataFrame) (T : string) (h : Z) :
  (In (target_column T) (columns F) /\ exists X y fc, make_xy F T h = Ok (X, y, fc))
  \/ (~ In (target_column T) (columns F) /\ make_xy F T h = Raise ValueError).
Proof.
  destruct (existsb (String.eqb (target_column T)) (columns F)) eqn:Hex.
  - left. apply existsb_eqb_In in Hex. split; [assumption | now apply make_xy_total].
  - right. split.
    + intros Hin. apply existsb_eqb_In in Hin. congruence.
    + unfold make_xy. fold (target_column T). now rewrite Hex.
Qed.

Lemma s_values_shift (periods : Z) (s : Series) :
  s_values (s_shift periods s) = shift_values periods (s_values s).
Proof.
  unfold s_shift, s_values at 1. cbn [s_items]. apply map_snd_combine.
  rewrite shift_values_length. unfold s_index, s_values. now rewrite !length_map.
Qed.

Lemma s_values_iloc_to (stop : Z) (s : Series) :
  s_values (s_iloc_to stop s) = slice_to stop (s_values s).
Proof. unfold s_values, s_iloc_to. cbn [s_items]. apply slice_to_map. Qed.

Lemma Forall_firstn_repeat {A : Type} (P : A -> Prop) (x : A) (k m : nat) (l : list A) :
  P x -> (m <= k)%nat -> Forall P (firstn m (repeat x k ++ l)).
Proof.
  intros Hx Hm. rewrite firstn_app, repeat_length.
  replace (m - k)%nat with 0%nat by lia. rewrite firstn_O, app_nil_r.
  apply Forall_take. apply List.Forall_forall. intros y Hy. apply repeat_spec in Hy. now subst.
Qed.

(** X2: a horizon that is not positive is not refused.  [make_xy] then
    keeps the first [-h] rows of the feature matrix (none for a horizon of
    zero, all of them when there are fewer): [X] and [y] carry the first
    [-h] dates, every feature column holds its first [-h] values, and
    every target value returned is missing. *)
Theorem make_xy_nonpositive_horizon (F : DataFrame) (T : string) (h : Z)
                                    (X : DataFrame) (y : Series) (fc : list string) :
  h <= 0 -> make_xy F T h = Ok (X, y, fc) ->
  len X = Z.min (len F) (- h) /\
  s_len y = Z.min (len F) (- h) /\
  index X = firstn (Z.to_nat (- h)) (index F) /\
  s_index y = firstn (Z.to_nat (- h)) (index F) /\
  (forall c, In c fc ->
     column_values c X = firstn (Z.to_nat (- h)) (column_values c F)) /\
  Forall (fun v => isna v = true) (s_values y).
Proof.
  intros Hh Hxy.
  destruct (make_xy_inv _ _ _ _ _ _ Hxy) as (y0 & X0 & _ & Hy & _ & HX & -> & ->).
  destruct (index_getitem_list _ _ _ HX) as [HiX _].
  destruct (index_shifted (- h) _ _ _ Hy) as [Hiy Hvals].
  assert (HlenX : length (rows X0) = length (rows F))
    by (apply (f_equal (@length Z)) in HiX; unfold index in HiX; now rewrite !length_map in HiX).
  assert (Hleny : length (s_items (s_shift (- h) y0)) = length (rows F)).
  { apply (f_equal (@length Z)) in Hiy. unfold s_index, index in Hiy.
    now rewrite !length_map in Hiy. }
  assert (Hs : forall A (l : list A), slice_to (- h) l = firstn (Z.to_nat (- h)) l).
  { intros A l. unfold slice_to. destruct (Z.ltb_spec (- h) 0); [lia | reflexivity]. }
  split; [|split; [|split; [|split; [|split]]]].
  - unfold len, iloc_to, with_rows. cbn [rows]. rewrite Hs, length_firstn, HlenX. unfold len. lia.
  - unfold s_len, s_iloc_to. cbn [s_items]. rewrite Hs, length_firstn, Hleny. unfold len. lia.
  - now rewrite index_iloc_to, Hs, HiX.
  - now rewrite s_index_iloc_to, Hs, Hiy.
  - intros c Hc. rewrite column_values_iloc_to, Hs.
    now rewrite (column_values_getitem_list _ _ _ _ HX Hc).
  - rewrite s_values_iloc_to, s_values_shift, Hs. unfold shift_values.
    destruct (Z.leb_spec 0 (- h)); [|lia].
    destruct (Nat.le_gt_cases (Z.to_nat (- h)) (length (s_values y0))) as [Hle|Hgt].
    + apply Forall_firstn_repeat; [reflexivity | lia].
    + rewrite Nat.min_r by lia. rewrite Nat.sub_diag, firstn_O, app_nil_r.
      apply Forall_take. apply List.Forall_forall. intros v Hv.
      apply repeat_spec in Hv. now subst.
Qed.

Lemma make_xy_nonpositive_horizon_witness :
  exists X y fc,
    -2 <= 0 /\ make_xy ex_features "A" (-2) = Ok (X, y, fc) /\
    len X = 2 /\ s_len y = 2 /\
    index X = firstn 2 (index ex_features) /\
    s_index y = firstn 2 (index ex_features) /\
    (forall c, In c fc -> column_values c X = firstn 2 (column_values c ex_features)) /\
    Forall (fun v => isna v = true) (s_values y).
Proof.
  eexists _, _, _. split; [lia|].
  assert (H : make_xy ex_features "A" (-2)
              = Ok (iloc_to 2 (frame_or ex_features (getitem_list ["ret_B"%string] ex_features)),
                    s_iloc_to 2 (s_shift 2 (mkSeries "ret_A"
                       (List.map (fun r => (label r, cell_at 0 r)) (rows ex_features)))),
                    ["ret_B"%string])) by reflexivity.
  split; [exact H|].
  exact (make_xy_nonpositive_horizon ex_features "A" (-2) _ _ _ ltac:(lia) H).
Defined.

(** ** The supervised dataset: the inner join of line 117 *)

(** Distinct labels of a concrete index. *)
Ltac distinct_labels :=
  repeat (apply List.NoDup_cons; [vm_compute; intuition discriminate|]); apply List.NoDup_nil.

Lemma count_label_app (d : Z) (a b : list Z) :
  count_label d (a ++ b) = (count_label d a + count_label d b)%nat.
Proof. unfold count_label. now rewrite List.filter_app, length_app. Qed.

Lemma join_series_inv (X : DataFrame) (y : Series) (J : DataFrame) :
  join_series X y = Ok J ->
  ~ In (s_name y) (columns X) /\
  index_kind J = index_kind X /\
  columns J = columns X ++ [s_name y] /\
  key_columns J = key_columns X /\
  rows J = flat_map (fun r =>
             List.map (fun it => with_cells r (cells r ++ [snd it]))
                      (List.filter (fun it => fst it =? label r) (s_items y)))
             (rows X).
Proof.
  unfold join_series. destruct (existsb _ _) eqn:Hex; [discriminate|].
  intros [= <-]. split; [|now repeat split].
  intros Hin. apply existsb_eqb_In in Hin. congruence.
Qed.

Lemma join_count (d : Z) (items : list (Z * float)) (rs : list Row) :
  count_label d
    (List.map label
       (flat_map (fun r =>
          List.map (fun it => with_cells r (cells r ++ [snd it]))
                   (List.filter (fun it => fst it =? label r) items)) rs))
  = (count_label d (List.map label rs) * count_label d (List.map fst items))%nat.
Proof.
  induction rs as [|r rs IH]; [reflexivity|].
  cbn [flat_map List.map]. rewrite map_app, count_label_app, IH.
  change (label r :: List.map label rs) with ([label r] ++ List.map label rs).
  rewrite count_label_app, Nat.mul_add_distr_r. f_equal.
  rewrite map_map. cbn [with_cells label].
  unfold count_label. cbn [List.filter].
  destruct (Z.eqb_spec d (label r)) as [->|Hne].
  - cbn [length]. rewrite Nat.mul_1_l.
    rewrite filter_all by (intros q Hq; apply in_map_iff in Hq as (it & <- & _); apply Z.eqb_refl).
    rewrite length_map.
    clear. induction items as [|it items IH]; [reflexivity|]. cbn [List.filter List.map].
    rewrite (Z.eqb_sym (label r) (fst it)).
    destruct (fst it =? label r); cbn [length]; now rewrite IH.
  - cbn [length]. rewrite Nat.mul_0_l.
    rewrite filter_none; [reflexivity|].
    intros q Hq. apply in_map_iff in Hq as (it & <- & _). now apply Z.eqb_neq.
Qed.

(** X5: the inner join of line 117 matches labels, not positions.  When
    [y] has the index of [X], as [make_xy] returns them, a date that occurs
    [k] times in the index occurs [k * k] times in the joined frame. *)
Theorem join_series_repeated_labels (X : DataFrame) (y : Series) (J : DataFrame) (d : Z) :
  join_series X y = Ok J -> index X = s_index y ->
  count_label d (index J) = (count_label d (index X) * count_label d (index X))%nat.
Proof.
  intros HJ Hidx. destruct (join_series_inv _ _ _ HJ) as (_ & _ & _ & _ & Hrows).
  unfold index at 1. rewrite Hrows, join_count. fold (index X). fold (s_index y).
  now rewrite Hidx.
Qed.

Lemma join_series_repeated_labels_witness :
  exists J,
    join_series ex_repeated_X ex_repeated_y = Ok J /\
    index ex_repeated_X = s_index ex_repeated_y /\
    count_label (1 * NS_PER_DAY) (index ex_repeated_X) = 2%nat /\
    count_label (1 * NS_PER_DAY) (index J) = 4%nat /\
    len ex_repeated_X = 3 /\ len J = 5.
Proof.
  eexists.
  assert (H : join_series ex_repeated_X ex_repeated_y
              = Ok (frame_or ex_repeated_X (join_series ex_repeated_X ex_repeated_y)))
    by reflexivity.
  split; [exact H|]. split; [reflexivity|]. split; [reflexivity|]. split; [|split; reflexivity].
  rewrite (join_series_repeated_labels _ _ _ (1 * NS_PER_DAY) H eq_refl). reflexivity.
Defined.

Lemma index_of_lt (c : string) (cols : list string) (j : nat) :
  index_of c cols = Some j -> (j < length cols)%nat.
Proof.
  revert j. induction cols as [|c' t IH]; simpl; intros j; [discriminate|].
  destruct (String.eqb c c'); [intros [= <-]; lia|].
  destruct (index_of c t) as [j'|]; simpl; [|discriminate].
  intros [= <-]. specialize (IH j' eq_refl). lia.
Qed.

Lemma positions_lt (cs cols : list string) (js : list nat) :
  positions cs cols = Ok js -> Forall (fun j => (j < length cols)%nat) js.
Proof.
  revert js. induction cs as [|c t IH]; simpl; intros js.
  - intros [= <-]. constructor.
  - destruct (index_of c cols) as [j|] eqn:Hj; [|discriminate].
    destruct (positions t cols) as [js'|]; simpl; [|discriminate].
    intros [= <-]. constructor; [now apply index_of_lt in Hj | now apply IH].
Qed.

Lemma cell_at_finite (F : DataFrame) (r : Row) (j : nat) :
  rectangular F -> all_finite F -> In r (rows F) -> (j < length (columns F))%nat ->
  finite (cell_at j r) = true.
Proof.
  intros Hrect Hfin Hin Hj. unfold rectangular, all_finite in *.
  rewrite List.Forall_forall in Hrect, Hfin.
  specialize (Hrect r Hin). specialize (Hfin r Hin). rewrite List.Forall_forall in Hfin.
  apply Hfin. unfold cell_at. apply nth_In. lia.
Qed.

(** A negative shift followed by the matching trim keeps the values from
    place [h] on. *)
Lemma shift_trim_values (h : Z) (vs : list float) :
  1 <= h -> slice_to (- h) (shift_values (- h) vs) = skipn (Z.to_nat h) vs.
Proof.
  intros Hh. unfold slice_to. rewrite shift_values_length.
  destruct (Z.ltb_spec (- h) 0); [|lia].
  unfold shift_values. destruct (Z.leb_spec 0 (- h)); [lia|].
  rewrite Z.opp_involutive.
  destruct (Nat.le_gt_cases (Z.to_nat h) (length vs)) as [Hle|Hgt].
  - rewrite Nat.min_l by lia.
    replace (Z.to_nat (Z.max 0 (Z.of_nat (length vs) + - h)))
      with (length (skipn (Z.to_nat h) vs)) by (rewrite length_skipn; lia).
    apply take_app_length.
  - rewrite Nat.min_r by lia.
    replace (Z.to_nat (Z.max 0 (Z.of_nat (length vs) + - h))) with 0%nat by lia.
    rewrite firstn_O. symmetry. apply skipn_all2. lia.
Qed.

Lemma In_firstn_list {A : Type} (n : nat) (l : list A) (x : A) : In x (firstn n l) -> In x l.
Proof. intros H. rewrite <- (firstn_skipn n l). apply in_or_app. now left. Qed.

Lemma In_skipn_list {A : Type} (n : nat) (l : list A) (x : A) : In x (skipn n l) -> In x l.
Proof. intros H. rewrite <- (firstn_skipn n l). apply in_or_app. now right. Qed.

Lemma NoDup_firstn_list {A : Type} (n : nat) (l : list A) :
  List.NoDup l -> List.NoDup (firstn n l).
Proof. intros H. rewrite <- (firstn_skipn n l) in H. now apply NoDup_app_remove_r in H. Qed.

Lemma filter_fst_none (d : Z) (items : list (Z * float)) :
  ~ In d (List.map fst items) -> List.filter (fun it => fst it =? d) items = [].
Proof.
  intros Hn. apply filter_none. intros it Hit. apply Z.eqb_neq. intros Heq.
  apply Hn. apply in_map_iff. now exists it.
Qed.

(** Over a unique index the inner join pairs every row with the one
    item that carries its label. *)
Lemma join_rows_unique (rs : list Row) :
  forall (items pre : list (Z * float)),
    List.map label rs = List.map fst items ->
    List.NoDup (List.map label rs) ->
    (forall it, In it pre -> ~ In (fst it) (List.map label rs)) ->
    flat_map (fun r =>
      List.map (fun it => with_cells r (cells r ++ [snd it]))
               (List.filter (fun it => fst it =? label r) (pre ++ items))) rs
    = map2 (fun r v => with_cells r (cells r ++ [v])) rs (List.map snd items).
Proof.
  induction rs as [|r rs IH]; intros [|it items] pre Hlab Hnd Hpre; try discriminate;
    [reflexivity|].
  cbn [List.map] in Hlab. injection Hlab as Hr Hlab.
  cbn [List.map] in Hnd. apply List.NoDup_cons_iff in Hnd as [Hnotin Hnd].
  cbn [flat_map List.map map2].
  rewrite List.filter_app. cbn [List.filter]. rewrite <- Hr, Z.eqb_refl.
  rewrite (filter_none _ pre).
  2:{ intros q Hq. apply Z.eqb_neq. intros Heq. apply (Hpre q Hq). left. now rewrite Heq. }
  rewrite (filter_fst_none (label r) items) by now rewrite <- Hlab.
  cbn [app List.map]. f_equal.
  replace (pre ++ it :: items) with ((pre ++ [it]) ++ items) by now rewrite <- app_assoc.
  apply IH; [assumption | assumption |].
  intros q Hq. apply in_app_iff in Hq as [Hq|[<-|[]]].
  - intros Hin. apply (Hpre q Hq). now right.
  - now rewrite <- Hr.
Qed.

Lemma feature_column_not_y (T c : string) : is_feature_column T c = true -> c <> "y"%string.
Proof.
  unfold is_feature_column. intros H ->. discriminate.
Qed.

Lemma map2_length {A B C : Type} (f : A -> B -> C) (a : list A) (b : list B) :
  length (map2 f a b) = Nat.min (length a) (length b).
Proof.
  revert b. induction a as [|x a IH]; intros [|y b]; simpl; try reflexivity. now rewrite IH.
Qed.

Lemma map2_Forall {A B C : Type} (P : C -> Prop) (f : A -> B -> C) (a : list A) (b : list B) :
  (forall x y, In x a -> In y b -> P (f x y)) -> Forall P (map2 f a b).
Proof.
  revert b. induction a as [|x a IH]; intros [|y b] H; simpl; try constructor.
  - apply H; now left.
  - apply IH. intros x' y' Hx Hy. apply H; now right.
Qed.

Lemma map_label_map2 (rs : list Row) (vs : list float) :
  length rs = length vs ->
  List.map label (map2 (fun r v => with_cells r (cells r ++ [v])) rs vs) = List.map label rs.
Proof.
  revert vs. induction rs as [|r rs IH]; intros [|v vs]; simpl; try discriminate; [reflexivity|].
  intros [= H]. f_equal. now apply IH.
Qed.

Lemma items_combine (l : list (Z * float)) : combine (List.map fst l) (List.map snd l) = l.
Proof. induction l as [|[a b] l IH]; simpl; [reflexivity | now rewrite IH]. Qed.

(** X4: over a feature matrix of numbers with unique dates and a horizon
    of at least one day, the dataset of lines 115 to 119 has the feature
    columns followed by "y" and one row per row of [X], in the same order:
    the features of a date and, as "y", the return of the target [h] rows
    later.  It has [len F - h] rows, none if the horizon is longer than the
    matrix. *)
Theorem supervised_dataset_unique_index (F : DataFrame) (T : string) (h : Z)
                                        (X : DataFrame) (y : Series) (fc : list string) :
  rectangular F -> all_finite F -> List.NoDup (index F) -> 1 <= h ->
  make_xy F T h = Ok (X, y, fc) ->
  exists data,
    supervised_dataset X y = Ok data /\
    columns data = fc ++ ["y"%string] /\
    rows data = map2 (fun r v => with_cells r (cells r ++ [v])) (rows X) (s_values y) /\
    s_values y = skipn (Z.to_nat h) (column_values (target_column T) F) /\
    index data = index X /\
    len data = Z.max 0 (len F - h).
Proof.
  intros Hrect Hfin Hnd Hh Hxy.
  destruct (make_xy_inv _ _ _ _ _ _ Hxy) as (y0 & X0 & Hin & Hy & Hfc & HX & HXeq & Hyeq).
  destruct (index_getitem_list _ _ _ HX) as [HiX HcX].
  destruct (index_shifted (- h) _ _ _ Hy) as [Hiy Hvals].
  assert (Hidx : index X = slice_to (- h) (index F))
    by (rewrite HXeq, index_iloc_to; now rewrite HiX).
  assert (Hidy : s_index y = slice_to (- h) (index F))
    by (rewrite Hyeq, s_index_iloc_to; now rewrite Hiy).
  assert (Hvy : s_values y = skipn (Z.to_nat h) (column_values (target_column T) F)).
  { rewrite Hyeq, s_values_iloc_to, s_values_shift, Hvals. now apply shift_trim_values. }
  assert (HcolsX : columns X = fc) by (rewrite HXeq; exact HcX).
  assert (HndX : List.NoDup (index X)).
  { rewrite Hidx. unfold slice_to. destruct (- h <? 0); now apply NoDup_firstn_list. }
  (* the join *)
  assert (Hny : existsb (String.eqb "y") (columns X) = false).
  { destruct (existsb (String.eqb "y") (columns X)) eqn:E; [|reflexivity].
    apply existsb_eqb_In in E. rewrite HcolsX, Hfc in E. apply filter_In in E as [_ E].
    now apply feature_column_not_y in E. }
  set (J := {| index_kind := index_kind X; columns := columns X ++ ["y"%string];
               key_columns := key_columns X;
               rows := map2 (fun r v => with_cells r (cells r ++ [v])) (rows X) (s_values y) |}).
  assert (HJ : join_series X (s_rename "y" y) = Ok J).
  { unfold join_series. cbn [s_rename s_name s_items]. rewrite Hny. unfold J. do 2 f_equal.
    apply (join_rows_unique (rows X) (s_items y) []); [ | exact HndX | intros it []].
    fold (index X). fold (s_index y). now rewrite Hidx, Hidy. }
  (* numbers only *)
  assert (Hlen : length (rows X) = length (s_values y)).
  { apply (f_equal (@length Z)) in Hidx, Hidy. rewrite <- Hidy in Hidx.
    unfold index, s_index, s_values in *. rewrite !length_map in *. exact Hidx. }
  assert (HfinJ : all_finite J).
  { unfold all_finite, J. cbn [rows]. apply map2_Forall. intros r v Hr Hv.
    cbn [with_cells cells]. apply Forall_app. split.
    - rewrite HXeq in Hr. unfold iloc_to, with_rows, slice_to in Hr. cbn [rows] in Hr.
      assert (Hr0 : In r (rows X0)) by (destruct (- h <? 0); eapply In_firstn_list; exact Hr).
      revert HX Hr0. unfold getitem_list.
      destruct (positions fc (columns F)) as [js|] eqn:Hjs; simpl; [|discriminate].
      intros [= <-]. cbn [rows]. intros Hr0. apply in_map_iff in Hr0 as (r0 & <- & Hr0).
      cbn [cells]. rewrite List.Forall_map. apply positions_lt in Hjs.
      eapply List.Forall_impl; [|exact Hjs]. intros j Hj. now apply cell_at_finite with (F := F).
    - constructor; [|constructor]. rewrite Hvy in Hv. apply In_skipn_list in Hv.
      unfold column_values in Hv. destruct (index_of _ _) as [j|] eqn:Hj; [|destruct Hv].
      unfold column_at in Hv. apply in_map_iff in Hv as (r0 & <- & Hr0).
      apply index_of_lt in Hj. now apply cell_at_finite with (F := F). }
  exists J. split; [|split; [|split; [|split; [|split]]]].
  - unfold supervised_dataset. rewrite HJ. cbn [rbind].
    rewrite (cleanup_fixed _ HfinJ), (assert_no_nan_finite _ HfinJ). reflexivity.
  - unfold J. cbn [columns]. now rewrite HcolsX.
  - reflexivity.
  - exact Hvy.
  - unfold index at 1, J. cbn [rows]. now apply map_label_map2.
  - unfold len, J. cbn [rows]. rewrite map2_length, <- Hlen, Nat.min_id.
    apply (f_equal (@length Z)) in Hidx. unfold index in Hidx at 1. rewrite length_map in Hidx.
    rewrite Hidx. rewrite slice_to_neg_length by assumption. unfold index. now rewrite length_map.
Qed.

Lemma supervised_dataset_unique_index_witness :
  rectangular ex_features /\ all_finite ex_features /\ List.NoDup (index ex_features) /\ 1 <= 1 /\
  exists X y fc data,
    make_xy ex_features "A" 1 = Ok (X, y, fc) /\
    supervised_dataset X y = Ok data /\
    columns data = ["ret_B"; "y"]%string /\
    rows data = [ mkRow (1 * NS_PER_DAY) [0.25; 0.125]%float [];
                  mkRow (2 * NS_PER_DAY) [-0.5; -0.25]%float [] ] /\
    rows data = map2 (fun r v => with_cells r (cells r ++ [v])) (rows X) (s_values y) /\
    s_values y = skipn (Z.to_nat 1) (column_values (target_column "A") ex_features) /\
    index data = index X /\
    len data = Z.max 0 (len ex_features - 1).
Proof.
  assert (Hr : rectangular ex_features) by (repeat constructor).
  assert (Hf : all_finite ex_features) by (repeat constructor).
  assert (Hn : List.NoDup (index ex_features)) by distinct_labels.
  assert (Hh : 1 <= 1) by lia.
  split; [exact Hr|]. split; [exact Hf|]. split; [exact Hn|]. split; [exact Hh|].
  assert (H : make_xy ex_features "A" 1 = Ok (iloc_to (-1) (frame_or ex_features
                 (getitem_list ["ret_B"%string] ex_features)),
               s_iloc_to (-1) (s_shift (-1) (mkSeries "ret_A"
                  (List.map (fun r => (label r, cell_at 0 r)) (rows ex_features)))),
               ["ret_B"%string])) by reflexivity.
  destruct (supervised_dataset_unique_index ex_features "A" 1 _ _ _ Hr Hf Hn Hh H)
    as (data & Hd & Hc & Hrows & Hy & Hi & Hl).
  eexists _, _, _, data. split; [exact H|]. split; [exact Hd|]. split; [exact Hc|].
  split; [rewrite Hrows; reflexivity|]. split; [exact Hrows|]. split; [exact Hy|].
  split; [exact Hi | exact Hl].
Defined.

(** ** time_split: boundary strings of any resolution *)

(** The three slices of a time-indexed frame by the bounds of the two
    boundary strings, whatever their resolution. *)
Lemma time_split_rows (df : DataFrame) (te ve : DateStr) (train val test : DataFrame) :
  time_split df te ve = Ok (train, val, test) ->
  rows train = List.filter (fun r => label r <=? ds_end te) (rows (sort_index df)) /\
  rows val = List.filter (fun r => (ds_start te + NS_PER_DAY <=? label r)
                                   && (label r <=? ds_end ve)) (rows (sort_index df)) /\
  rows test = List.filter (fun r => ds_start ve + NS_PER_DAY <=? label r) (rows (sort_index df)).
Proof.
  rewrite time_split_unfold.
  destruct (is_DatetimeIndex (index_kind df) && negb (is_tz_aware (index_kind df)));
    [|discriminate].
  unfold split_sorted. intros [= <- <- <-].
  unfold loc_slice, with_rows. cbn [rows].
  set (l := sort_rows (rows df)).
  assert (Hs : StronglySorted (key_le label) l) by apply sort_by_sorted.
  rewrite Nat.sub_0_r. change (skipn 0 l) with l.
  split; [|split].
  - now apply searchsorted_right_firstn.
  - now apply loc_between.
  - rewrite firstn_all2 by (rewrite length_skipn; lia). now apply searchsorted_left_skipn.
Qed.

Lemma In_sort_rows (r : Row) (l : list Row) : In r (sort_rows l) <-> In r l.
Proof.
  split; apply Permutation_in; [apply sort_by_perm | symmetry; apply sort_by_perm].
Qed.

Lemma StronglySorted_filter {A : Type} (R : A -> A -> Prop) (p : A -> bool) (l : list A) :
  StronglySorted R l -> StronglySorted R (List.filter p l).
Proof.
  induction 1 as [|x t Hs IH Hall]; simpl; [constructor|].
  destruct (p x); [|exact IH]. constructor; [exact IH|].
  rewrite List.Forall_forall in *. intros y Hy. apply filter_In in Hy. apply Hall. tauto.
Qed.

(** X6: the three slices of a time index without a time zone, for
    boundary strings of any resolution and in any order.  Of the rows in
    time order, train holds those up to the end of the period [train_end]
    names, val those from one day after the start of that period up to the
    end of the period [val_end] names, test those from one day after the
    start of the period [val_end] names; each slice is in time order. *)
Theorem time_split_bounds (df : DataFrame) (te ve : DateStr) :
  is_DatetimeIndex (index_kind df) = true -> is_tz_aware (index_kind df) = false ->
  exists train val test,
    time_split df te ve = Ok (train, val, test) /\
    rows train = List.filter (fun r => label r <=? ds_end te) (rows (sort_index df)) /\
    rows val = List.filter (fun r => (ds_start te + NS_PER_DAY <=? label r)
                                     && (label r <=? ds_end ve)) (rows (sort_index df)) /\
    rows test = List.filter (fun r => ds_start ve + NS_PER_DAY <=? label r)
                            (rows (sort_index df)) /\
    StronglySorted (key_le label) (rows train) /\
    StronglySorted (key_le label) (rows val) /\
    StronglySorted (key_le label) (rows test).
Proof.
  intros Hk Hz.
  assert (H : exists train val test, time_split df te ve = Ok (train, val, test)).
  { rewrite time_split_unfold, Hk, Hz. unfold split_sorted. eexists _, _, _. reflexivity. }
  destruct H as (train & val & test & H). exists train, val, test. split; [exact H|].
  destruct (time_split_rows _ _ _ _ _ _ H) as (-> & -> & ->).
  assert (Hs : StronglySorted (key_le label) (rows (sort_index df))) by apply sort_by_sorted.
  split; [reflexivity|]. split; [reflexivity|]. split; [reflexivity|].
  repeat split; now apply StronglySorted_filter.
Qed.

Lemma time_split_bounds_witness :
  is_DatetimeIndex (index_kind ex_daily) = true /\
  is_tz_aware (index_kind ex_daily) = false /\
  exists train val test,
    time_split ex_daily (month_str 2024 1) (minute_str (days_from_civil 2024 2 15) 12 0)
      = Ok (train, val, test) /\
    index train = [days_from_civil 2024 1 2 * NS_PER_DAY; days_from_civil 2024 1 15 * NS_PER_DAY;
                   days_from_civil 2024 1 31 * NS_PER_DAY] /\
    index val = [days_from_civil 2024 1 2 * NS_PER_DAY; days_from_civil 2024 1 15 * NS_PER_DAY;
                 days_from_civil 2024 1 31 * NS_PER_DAY; days_from_civil 2024 2 1 * NS_PER_DAY;
                 days_from_civil 2024 2 15 * NS_PER_DAY] /\
    index test = [days_from_civil 2024 3 1 * NS_PER_DAY].
Proof.
  split; [reflexivity|]. split; [reflexivity|].
  destruct (time_split_bounds ex_daily (month_str 2024 1)
              (minute_str (days_from_civil 2024 2 15) 12 0) eq_refl eq_refl)
    as (train & val & test & H & Ht & Hv & Hs & _).
  exists train, val, test. split; [exact H|].
  unfold index. rewrite Ht, Hv, Hs. repeat split.
Defined.

(** X7: a boundary string coarser than a day ("2021-12", "2021").  As
    the end of the train slice it reaches to the end of its period, while
    the validation slice starts one day after the start of the period: the
    rows in between are in both slices. *)
Theorem time_split_coarse_boundary (df : DataFrame) (te ve : DateStr)
                                   (train val test : DataFrame) (r : Row) :
  time_split df te ve = Ok (train, val, test) ->
  In r (rows df) ->
  ds_start te + NS_PER_DAY <= label r <= ds_end te ->
  label r <= ds_end ve ->
  In r (rows train) /\ In r (rows val).
Proof.
  intros H Hin Hw Hv. destruct (time_split_rows _ _ _ _ _ _ H) as (-> & -> & _).
  apply In_sort_rows in Hin.
  split; apply filter_In; (split; [assumption|]);
    rewrite ?andb_true_iff, ?Z.leb_le; lia.
Qed.

Lemma time_split_coarse_boundary_witness :
  exists train val test,
    time_split ex_daily (month_str 2024 1) (month_str 2024 2) = Ok (train, val, test) /\
    In ex_mid_january (rows ex_daily) /\
    ds_start (month_str 2024 1) + NS_PER_DAY <= label ex_mid_january
      <= ds_end (month_str 2024 1) /\
    label ex_mid_january <= ds_end (month_str 2024 2) /\
    In ex_mid_january (rows train) /\ In ex_mid_january (rows val).
Proof.
  eexists _, _, _.
  assert (H : time_split ex_daily (month_str 2024 1) (month_str 2024 2)
              = Ok (split_sorted (sort_index ex_daily) (month_str 2024 1) (month_str 2024 2)))
    by reflexivity.
  assert (Hin : In ex_mid_january (rows ex_daily)) by (right; left; reflexivity).
  assert (Hw : ds_start (month_str 2024 1) + NS_PER_DAY <= label ex_mid_january
               <= ds_end (month_str 2024 1)) by (vm_compute; split; discriminate).
  assert (Hv : label ex_mid_january <= ds_end (month_str 2024 2)) by (vm_compute; discriminate).
  split; [exact H|]. split; [exact Hin|]. split; [exact Hw|]. split; [exact Hv|].
  exact (time_split_coarse_boundary ex_daily _ _ _ _ _ ex_mid_january H Hin Hw Hv).
Defined.

(** X8: a boundary string finer than a day ("2021-12-31 12:00").  The
    train slice ends with the period of the string and the validation slice
    starts a full day after its start: the rows dated in between are in no
    slice. *)
Theorem time_split_fine_boundary (df : DataFrame) (te ve : DateStr)
                                 (train val test : DataFrame) (r : Row) :
  time_split df te ve = Ok (train, val, test) ->
  ds_start te <= ds_start ve ->
  ds_end te < label r < ds_start te + NS_PER_DAY ->
  ~ In r (rows train) /\ ~ In r (rows val) /\ ~ In r (rows test).
Proof.
  intros H Hord Hw. destruct (time_split_rows _ _ _ _ _ _ H) as (-> & -> & ->).
  repeat split; intros Hin; apply filter_In in Hin as [_ Hb];
    rewrite ?andb_true_iff, ?Z.leb_le in Hb; lia.
Qed.

Lemma time_split_fine_boundary_witness :
  exists train val test,
    time_split ex_daily (minute_str (days_from_civil 2024 1 14) 12 0) (month_str 2024 2)
      = Ok (train, val, test) /\
    In ex_mid_january (rows ex_daily) /\
    ds_start (minute_str (days_from_civil 2024 1 14) 12 0) <= ds_start (month_str 2024 2) /\
    ds_end (minute_str (days_from_civil 2024 1 14) 12 0) < label ex_mid_january
      < ds_start (minute_str (days_from_civil 2024 1 14) 12 0) + NS_PER_DAY /\
    ~ In ex_mid_january (rows train) /\ ~ In ex_mid_january (rows val) /\
    ~ In ex_mid_january (rows test).
Proof.
  eexists _, _, _.
  assert (H : time_split ex_daily (minute_str (days_from_civil 2024 1 14) 12 0)
                (month_str 2024 2)
              = Ok (split_sorted (sort_index ex_daily)
                      (minute_str (days_from_civil 2024 1 14) 12 0) (month_str 2024 2)))
    by reflexivity.
  assert (Hin : In ex_mid_january (rows ex_daily)) by (right; left; reflexivity).
  assert (Ho : ds_start (minute_str (days_from_civil 2024 1 14) 12 0)
               <= ds_start (month_str 2024 2)) by (vm_compute; discriminate).
  assert (Hw : ds_end (minute_str (days_from_civil 2024 1 14) 12 0) < label ex_mid_january
               < ds_start (minute_str (days_from_civil 2024 1 14) 12 0) + NS_PER_DAY)
    by (vm_compute; split; reflexivity).
  split; [exact H|]. split; [exact Hin|]. split; [exact Ho|]. split; [exact Hw|].
  exact (time_split_fine_boundary ex_daily _ _ _ _ _ ex_mid_january H Ho Hw).
Defined.

(** X9: boundary dates in the wrong order are not refused.  With
    [val_end <= train_end] the validation slice is empty and the rows dated
    after [val_end] and up to [train_end] are both in the train and in the
    test slice. *)
Theorem time_split_reversed_boundaries (df : DataFrame) (te ve : Z)
                                       (train val test : DataFrame) :
  time_split df (date_str te) (date_str ve) = Ok (train, val, test) ->
  ve <= te ->
  rows val = [] /\
  (forall r, In r (rows df) -> ve < date_of (label r) <= te ->
             In r (rows train) /\ In r (rows test)).
Proof.
  intros H Hord. destruct (time_split_rows _ _ _ _ _ _ H) as (-> & -> & ->).
  unfold date_str. cbn [ds_start ds_end]. pose proof NS_PER_DAY_pos as Hn. split.
  - apply filter_none. intros q _. apply andb_false_iff.
    destruct (Z.leb_spec (te * NS_PER_DAY + NS_PER_DAY) (label q)); [right | now left].
    apply Z.leb_gt. nia.
  - intros r Hin [Hlo Hhi]. apply In_sort_rows in Hin.
    apply date_of_le in Hhi.
    assert (Hlo' : (ve <? date_of (label r)) = true) by now apply Z.ltb_lt.
    rewrite date_of_ltb in Hlo'. apply Z.leb_le in Hlo'.
    split; apply filter_In; (split; [assumption|]); apply Z.leb_le; lia.
Qed.

Lemma time_split_reversed_boundaries_witness :
  exists train val test,
    time_split ex_daily (date_str (days_from_civil 2024 2 1))
               (date_str (days_from_civil 2024 1 15)) = Ok (train, val, test) /\
    days_from_civil 2024 1 15 <= days_from_civil 2024 2 1 /\
    rows val = [] /\
    In ex_end_january (rows ex_daily) /\
    In ex_end_january (rows train) /\ In ex_end_january (rows test).
Proof.
  eexists _, _, _.
  assert (H : time_split ex_daily (date_str (days_from_civil 2024 2 1))
                (date_str (days_from_civil 2024 1 15))
              = Ok (split_sorted (sort_index ex_daily) (date_str (days_from_civil 2024 2 1))
                      (date_str (days_from_civil 2024 1 15)))) by reflexivity.
  assert (Ho : days_from_civil 2024 1 15 <= days_from_civil 2024 2 1)
    by (vm_compute; discriminate).
  assert (Hin : In ex_end_january (rows ex_daily)) by (right; right; left; reflexivity).
  destruct (time_split_reversed_boundaries ex_daily _ _ _ _ _ H Ho) as [Hv Hboth].
  split; [exact H|]. split; [exact Ho|]. split; [exact Hv|]. split; [exact Hin|].
  apply (Hboth ex_end_january Hin). vm_compute. split; [reflexivity | discriminate].
Defined.

(** *** The order in which the rows come *)

Section SortUnique.
Context {A : Type} (key : A -> Z).

Lemma insert_by_comm (x y : A) (l : list A) :
  key x <> key y ->
  insert_by key x (insert_by key y l) = insert_by key y (insert_by key x l).
Proof.
  intros Hne. induction l as [|z t IH]; cbn [insert_by].
  - destruct (Z.leb_spec (key x) (key y)), (Z.leb_spec (key y) (key x)); try reflexivity; lia.
  - destruct (Z.leb_spec (key x) (key z)), (Z.leb_spec (key y) (key z)); cbn [insert_by];
      repeat match goal with
             | |- context [?a <=? ?b] => destruct (Z.leb_spec a b)
             end; try reflexivity; try lia.
    now rewrite IH.
Qed.

(** Over distinct keys the sorted order does not depend on the order
    the elements come in. *)
Lemma sort_by_perm_eq (l1 l2 : list A) :
  Permutation l1 l2 -> List.NoDup (List.map key l1) -> sort_by key l1 = sort_by key l2.
Proof.
  induction 1 as [|x l l' Hp IH|x y l|l l' l'' Hp1 IH1 Hp2 IH2]; intros Hnd.
  - reflexivity.
  - cbn [sort_by fold_right]. fold (sort_by key l). fold (sort_by key l').
    cbn [List.map] in Hnd. apply List.NoDup_cons_iff in Hnd as [_ Hnd]. now rewrite IH.
  - cbn [sort_by fold_right]. fold (sort_by key l).
    cbn [List.map] in Hnd. apply List.NoDup_cons_iff in Hnd as [Hn _].
    apply insert_by_comm. intros Heq. apply Hn. left. now symmetry.
  - rewrite IH1 by assumption. apply IH2.
    eapply Permutation_NoDup; [|exact Hnd]. now apply Permutation_map.
Qed.
End SortUnique.

(** X10: over unique dates the split does not depend on the order in
    which the rows of the dataset come. *)
Theorem time_split_row_order (df : DataFrame) (rs : list Row) (te ve : DateStr) :
  Permutation rs (rows df) -> List.NoDup (index df) ->
  time_split (with_rows df rs) te ve = time_split df te ve.
Proof.
  intros Hp Hnd. rewrite !time_split_unfold. cbn [with_rows index_kind].
  destruct (is_DatetimeIndex (index_kind df) && negb (is_tz_aware (index_kind df)));
    [|reflexivity].
  assert (Hs : sort_index (with_rows df rs) = sort_index df).
  { unfold sort_index, with_rows, sort_rows. cbn [rows index_kind columns key_columns]. f_equal.
    symmetry. apply sort_by_perm_eq; [now symmetry | exact Hnd]. }
  now rewrite Hs.
Qed.

Lemma time_split_row_order_witness :
  Permutation (rev (rows ex_unsorted)) (rows ex_unsorted) /\
  List.NoDup (index ex_unsorted) /\
  time_split (with_rows ex_unsorted (rev (rows ex_unsorted))) (date_str 1) (date_str 2)
    = time_split ex_unsorted (date_str 1) (date_str 2).
Proof.
  assert (Hp : Permutation (rev (rows ex_unsorted)) (rows ex_unsorted))
    by (symmetry; apply Permutation_rev).
  assert (Hn : List.NoDup (index ex_unsorted)) by distinct_labels.
  split; [exact Hp|]. split; [exact Hn|].
  exact (time_split_row_order ex_unsorted _ (date_str 1) (date_str 2) Hp Hn).
Defined.

(** ** build_features on the rows up to a date *)

Lemma map2_firstn {A B C : Type} (f : A -> B -> C) (k : nat) (a : list A) (b : list B) :
  map2 f (firstn k a) (firstn k b) = firstn k (map2 f a b).
Proof.
  revert a b. induction k as [|k IH]; intros [|x a] [|y b]; simpl; try reflexivity.
  now rewrite IH.
Qed.

Lemma ffill_from_firstn (k : nat) (prev : list float) (rs : list Row) :
  ffill_from prev (firstn k rs) = firstn k (ffill_from prev rs).
Proof.
  revert prev rs. induction k as [|k IH]; intros prev [|r rs]; simpl; try reflexivity.
  now rewrite IH.
Qed.

Lemma ffill_firstn (k : nat) (rs : list Row) : ffill (firstn k rs) = firstn k (ffill rs).
Proof.
  destruct k as [|k], rs as [|r rs]; simpl; try reflexivity. now rewrite ffill_from_firstn.
Qed.

Lemma pct_from_firstn (k : nat) (prev : list float) (rs : list Row) :
  pct_from prev (firstn k rs) = firstn k (pct_from prev rs).
Proof.
  revert prev rs. induction k as [|k IH]; intros prev [|r rs]; simpl; try reflexivity.
  now rewrite IH.
Qed.

Section Truncation.
Variable pct_fill_pad : bool.
Variables agg_mean agg_median agg_std : list float -> float.

Lemma pct_change_firstn (k : nat) (df : DataFrame) :
  pct_change pct_fill_pad (with_rows df (firstn k (rows df)))
    = with_rows (pct_change pct_fill_pad df) (firstn k (rows (pct_change pct_fill_pad df))).
Proof.
  unfold pct_change, with_rows. cbn [rows index_kind columns key_columns]. f_equal.
  assert (H : forall l, match firstn k l with
                        | [] => []
                        | r :: t => nan_like r :: pct_from (cells r) t
                        end
                        = firstn k match l with
                                   | [] => []
                                   | r :: t => nan_like r :: pct_from (cells r) t
                                   end).
  { intros [|r l]; destruct k as [|k]; simpl; try reflexivity. now rewrite pct_from_firstn. }
  destruct pct_fill_pad; [rewrite ffill_firstn|]; apply H.
Qed.
End Truncation.

Lemma ffill_from_labels (prev : list float) (rs : list Row) :
  List.map label (ffill_from prev rs) = List.map label rs.
Proof. revert prev. induction rs as [|r rs IH]; intros prev; simpl; [reflexivity | now rewrite IH]. Qed.

Lemma ffill_labels (rs : list Row) : List.map label (ffill rs) = List.map label rs.
Proof. destruct rs as [|r rs]; simpl; [reflexivity | now rewrite ffill_from_labels]. Qed.

Lemma pct_from_labels (prev : list float) (rs : list Row) :
  List.map label (pct_from prev rs) = List.map label rs.
Proof. revert prev. induction rs as [|r rs IH]; intros prev; simpl; [reflexivity | now rewrite IH]. Qed.

Lemma pct_change_labels (pad : bool) (df : DataFrame) :
  index (pct_change pad df) = index df.
Proof.
  unfold index, pct_change, with_rows. cbn [rows].
  assert (H : forall l, List.map label match l with
                                       | [] => []
                                       | r :: t => nan_like r :: pct_from (cells r) t
                                       end = List.map label l).
  { intros [|r l]; simpl; [reflexivity | now rewrite pct_from_labels]. }
  rewrite H. destruct pad; [apply ffill_labels | reflexivity].
Qed.

Lemma concat_columns_labels (a b : DataFrame) :
  index a = index b -> index (concat_columns a b) = index a.
Proof.
  unfold index, concat_columns. cbn [rows]. generalize (rows a) (rows b).
  induction l as [|x l IH]; intros [|y l'] H; simpl in *; try discriminate; [reflexivity|].
  injection H as _ H. f_equal. now apply IH.
Qed.

(** On a list in time order the rows dated up to [t] are a prefix, and
    its length can be read off any list with the same labels. *)
Lemma filter_upto_firstn (t : Timestamp) (l : list Row) :
  StronglySorted (key_le label) l ->
  forall l' : list Row, List.map label l' = List.map label l ->
  rows_upto t l' = firstn (searchsorted_right t l) l'.
Proof.
  unfold rows_upto.
  induction 1 as [|r rest Hs IH Hall]; intros [|r' rest'] Hl; try discriminate; [reflexivity|].
  cbn [List.map] in Hl. injection Hl as Hr Hl.
  cbn [List.filter searchsorted_right]. rewrite Hr.
  destruct (Z.leb_spec (label r) t) as [Hle|Hgt].
  - cbn [firstn]. f_equal. now apply IH.
  - cbn [firstn]. apply filter_none. intros q Hq. apply Z.leb_gt.
    assert (Hq' : In (label q) (List.map label rest)) by (rewrite <- Hl; now apply in_map).
    apply in_map_iff in Hq' as (q0 & Hq0 & Hin).
    rewrite List.Forall_forall in Hall. specialize (Hall q0 Hin). unfold key_le in Hall. lia.
Qed.

Lemma filter_filter_absorb {A : Type} (f g : A -> bool) (l : list A) :
  (forall x, In x l -> f x = true -> g x = true) ->
  List.filter f (List.filter g l) = List.filter f l.
Proof.
  induction l as [|x l IH]; intros H; simpl; [reflexivity|].
  destruct (g x) eqn:Hg; simpl.
  - destruct (f x); [f_equal|]; apply IH; intros; apply H; auto; now right.
  - destruct (f x) eqn:Hf; [rewrite (H x) in Hg by (auto; now left); discriminate|].
    apply IH. intros; apply H; auto; now right.
Qed.

Lemma filter_comm {A : Type} (f g : A -> bool) (l : list A) :
  List.filter f (List.filter g l) = List.filter g (List.filter f l).
Proof.
  induction l as [|x l IH]; simpl; [reflexivity|].
  destruct (f x) eqn:Hf, (g x) eqn:Hg; simpl; rewrite ?Hf, ?Hg, IH; reflexivity.
Qed.

Lemma filter_map_comm {A B : Type} (f : B -> bool) (g : A -> B) (h : A -> bool) (l : list A) :
  (forall x, f (g x) = h x) -> List.filter f (List.map g l) = List.map g (List.filter h l).
Proof.
  intros H. induction l as [|x l IH]; simpl; [reflexivity|].
  rewrite H. destruct (h x); simpl; now rewrite IH.
Qed.

Section JoinMonthly.
Variables agg_mean agg_median agg_std : list float -> float.

(** [join_monthly] on a plain price table, computed. *)
Lemma join_monthly_eq (df : DataFrame) :
  price_table df ->
  join_monthly agg_mean agg_median agg_std df
    = if overlaps (columns df) (flat_labels (columns df)) then Raise ValueError
      else Ok {| index_kind := index_kind df;
                 columns := columns df ++ flat_labels (columns df);
                 key_columns := [];
                 rows := List.map (fun r =>
                   {| label := label r;
                      cells := cells r ++ joined_cells (to_period_M (label r))
                                            (monthly_lag1 agg_mean agg_median agg_std df);
                      keys := [] |}) (rows df) |}.
Proof.
  intros [Hk Hr]. unfold join_monthly, join_on, set_period_column.
  cbn [key_columns columns rows]. rewrite Hk. cbn [app index_of String.eqb Ascii.eqb Bool.eqb].
  change (columns (monthly_lag1 agg_mean agg_median agg_std df)) with (flat_labels (columns df)).
  destruct (overlaps _ _); [reflexivity|]. cbn [rbind].
  unfold drop_column. cbn [key_columns index_of String.eqb Ascii.eqb Bool.eqb columns rows].
  do 2 f_equal. rewrite !map_map. apply map_ext_in. intros r Hin.
  rewrite List.Forall_forall in Hr. destruct (Hr r Hin) as [Hkeys _].
  unfold with_cells, key_at. cbn [label cells keys]. rewrite Hkeys. reflexivity.
Qed.
End JoinMonthly.

Lemma price_table_with_rows (df : DataFrame) (rs : list Row) :
  price_table df -> (forall r, In r rs -> In r (rows df)) -> price_table (with_rows df rs).
Proof.
  intros [Hk Hr] Hsub. split; [exact Hk|]. cbn [with_rows rows columns].
  rewrite List.Forall_forall in *. intros r Hin. apply Hr. now apply Hsub.
Qed.

(** The cleanup and the clipping work row by row, so they commute with
    cutting the frame at a time. *)
Lemma cleanup_upto (t : Timestamp) (Z : DataFrame) :
  dropna (replace_inf_with_nan (upto t Z)) = upto t (dropna (replace_inf_with_nan Z)).
Proof.
  unfold dropna, replace_inf_with_nan, upto, rows_upto, with_rows.
  cbn [rows index_kind columns key_columns]. f_equal.
  rewrite filter_comm. f_equal. symmetry. now apply filter_map_comm.
Qed.

Lemma clip_step_frame (lo hi : float) (df : DataFrame) :
  set_ret_cells (clip_frame lo hi (ret_columns_of df)) df
    = with_rows df (List.map (fun r => with_cells r (clip_cells (clip lo hi) (columns df) (cells r)))
                             (rows df)).
Proof.
  unfold set_ret_cells, clip_frame, ret_columns_of, with_rows. cbn [rows columns]. f_equal.
  rewrite map_map. cbn [cells with_cells label keys]. rewrite map2_map_r.
  apply map_ext. intros r. cbn [cells with_cells]. now rewrite scatter_ret_clip_cells.
Qed.

Lemma clip_step_upto (t : Timestamp) (lo hi : float) (Z : DataFrame) :
  set_ret_cells (clip_frame lo hi (ret_columns_of (upto t Z))) (upto t Z)
    = upto t (set_ret_cells (clip_frame lo hi (ret_columns_of Z)) Z).
Proof.
  rewrite !clip_step_frame. unfold upto, rows_upto, with_rows.
  cbn [rows index_kind columns key_columns]. f_equal. symmetry. now apply filter_map_comm.
Qed.

Lemma map_upto_ext (f g : Row -> Row) (t : Timestamp) (l : list Row) :
  (forall r, In r l -> label r <= t -> f r = g r) -> (forall r, label (g r) = label r) ->
  List.map f (rows_upto t l) = rows_upto t (List.map g l).
Proof.
  intros Hfg Hg. unfold rows_upto. induction l as [|r l IH]; [reflexivity|].
  cbn [List.map List.filter]. rewrite Hg.
  destruct (Z.leb_spec (label r) t).
  - cbn [List.map]. rewrite Hfg by (auto; now left). f_equal. apply IH.
    intros; apply Hfg; auto; now right.
  - apply IH. intros; apply Hfg; auto; now right.
Qed.

Section TruncationTheorem.
Variable pct_fill_pad : bool.
Variables agg_mean agg_median agg_std : list float -> float.

Lemma month_before_dated_before (q r : Row) :
  to_period_M (label q) < to_period_M (label r) -> label q < label r.
Proof.
  intros H. destruct (Z.lt_ge_cases (label q) (label r)) as [|Hge]; [assumption|].
  apply to_period_M_mono in Hge. lia.
Qed.

Lemma joined_cells_upto (t : Timestamp) (df : DataFrame) (r : Row) :
  StronglySorted (key_le label) (rows df) -> In r (rows df) -> label r <= t ->
  joined_cells (to_period_M (label r)) (monthly_lag1 agg_mean agg_median agg_std (upto t df))
    = joined_cells (to_period_M (label r)) (monthly_lag1 agg_mean agg_median agg_std df).
Proof.
  intros Hs Hin Hle.
  rewrite (joined_cells_lagged _ _ _ (upto t df)), (joined_cells_lagged _ _ _ df); try assumption.
  - cbn [upto with_rows columns rows]. f_equal.
    unfold rows_before, rows_upto. apply filter_filter_absorb.
    intros q Hq Hm. apply Z.ltb_lt in Hm. apply month_before_dated_before in Hm.
    apply Z.leb_le. lia.
  - cbn [upto with_rows rows]. now apply StronglySorted_filter.
  - cbn [upto with_rows rows]. apply filter_In. split; [assumption | now apply Z.leb_le].
Qed.

(** X17: on a price table with one row per date, the features of the
    days up to [t] do not depend on later days.  [build_features] on the
    prices cut at [t] returns the feature matrix of the whole table cut at
    [t], and fails as the whole table does. *)
Theorem build_features_truncation (P : DataFrame) (t : Timestamp) (inc clipf : bool)
                                  (lo hi : float) :
  price_table P -> columns P <> [] -> ~ In "ym"%string (columns P) ->
  List.NoDup (index P) ->
  (exists r, In r (rows P) /\ label r <= t) ->
  build_features pct_fill_pad agg_mean agg_median agg_std (upto t P) inc clipf lo hi
    = match build_features pct_fill_pad agg_mean agg_median agg_std P inc clipf lo hi with
      | Ok out => Ok (upto t out)
      | Raise e => Raise e
      end.
Proof.
  intros HP _ _ _ _. unfold build_features.
  change (index_kind (upto t P)) with (index_kind P).
  destruct (is_DatetimeIndex (index_kind P)); cbn [negb]; [|reflexivity].
  set (D := sort_index P).
  assert (HD : price_table D) by now apply price_table_sorted.
  assert (Hs : StronglySorted (key_le label) (rows D)) by apply sort_by_sorted.
  assert (Hsort : sort_index (upto t P) = upto t D).
  { unfold sort_index, upto, with_rows, D, sort_index, with_rows.
    cbn [rows index_kind columns key_columns]. f_equal.
    unfold sort_rows, rows_upto. symmetry. apply sort_by_filter. }
  rewrite Hsort. clear Hsort.
  set (k := searchsorted_right t (rows D)).
  assert (Hk : forall l', List.map label l' = List.map label (rows D) ->
                          rows_upto t l' = firstn k l')
    by (intros l'; now apply filter_upto_firstn).
  assert (HDk : upto t D = with_rows D (firstn k (rows D)))
    by (unfold upto; now rewrite Hk).
  (* the returns *)
  set (R := add_prefix ret_prefix (pct_change pct_fill_pad D)).
  assert (HR : add_prefix ret_prefix (pct_change pct_fill_pad (upto t D)) = upto t R).
  { rewrite HDk, pct_change_firstn. unfold upto, R.
    rewrite Hk by (apply (pct_change_labels pct_fill_pad D)). reflexivity. }
  rewrite HR. clear HR.
  (* the joined table *)
  assert (HJ : (if inc then join_monthly agg_mean agg_median agg_std (upto t D) else Ok (upto t D))
               = match (if inc then join_monthly agg_mean agg_median agg_std D else Ok D) with
                 | Ok J => Ok (upto t J)
                 | Raise e => Raise e
                 end /\
               forall J, (if inc then join_monthly agg_mean agg_median agg_std D else Ok D) = Ok J ->
                         index J = index D).
  { destruct inc; [|split; [reflexivity | now intros J [= <-]]].
    assert (HDt : price_table (upto t D)).
    { apply price_table_with_rows; [assumption|]. intros r Hr. apply filter_In in Hr. tauto. }
    rewrite (join_monthly_eq _ _ _ _ HDt), (join_monthly_eq _ _ _ _ HD).
    cbn [upto with_rows columns].
    destruct (overlaps _ _); [split; [reflexivity | discriminate]|]. split.
    - assert (Hrows :
        List.map (fun r => {| label := label r;
                              cells := cells r ++ joined_cells (to_period_M (label r))
                                 (monthly_lag1 agg_mean agg_median agg_std (upto t D));
                              keys := [] |}) (rows_upto t (rows D))
        = rows_upto t (List.map (fun r => {| label := label r;
                              cells := cells r ++ joined_cells (to_period_M (label r))
                                 (monthly_lag1 agg_mean agg_median agg_std D);
                              keys := [] |}) (rows D))).
      { apply map_upto_ext; [|reflexivity].
        intros r Hr Hle. f_equal. f_equal. now apply joined_cells_upto. }
      f_equal. unfold upto, with_rows. cbn [rows index_kind columns key_columns].
      f_equal. exact Hrows.
    - intros J [= <-]. unfold index. cbn [rows]. now rewrite map_map. }
  destruct HJ as [HJ HJi]. rewrite HJ. clear HJ.
  destruct (if inc then _ else _) as [J|e]; cbn [rbind]; [|reflexivity].
  specialize (HJi J eq_refl).
  assert (HZ : concat_columns (upto t J) (upto t R) = upto t (concat_columns J R)).
  { assert (HiR : index R = index D) by apply (pct_change_labels pct_fill_pad D).
    unfold upto at 1 2 3.
    rewrite (Hk (rows J)) by exact HJi. rewrite (Hk (rows R)) by exact HiR.
    rewrite Hk.
    - unfold concat_columns, with_rows. cbn [rows index_kind columns key_columns]. f_equal.
      apply map2_firstn.
    - fold (index (concat_columns J R)). rewrite concat_columns_labels; [exact HJi|].
      now rewrite HJi, HiR. }
  rewrite HZ, cleanup_upto. destruct clipf; [|reflexivity].
  unfold loc_set_ret_columns. cbn [upto with_rows columns].
  destruct (has_duplicates _); [reflexivity|]. f_equal. apply clip_step_upto.
Qed.
End TruncationTheorem.

(** The price table of the examples and its feature matrix. *)
Lemma ex_prices_table :
  price_table ex_prices /\ columns ex_prices <> [] /\ ~ In "ym"%string (columns ex_prices).
Proof.
  split; [split; [reflexivity | repeat constructor]|].
  split; [discriminate | simpl; intuition discriminate].
Defined.

Lemma ex_matrix_built :
  build_features false nanmean nanmedian nanstd ex_prices true true (-0.25)%float 0.25%float
    = Ok ex_matrix.
Proof. vm_compute. reflexivity. Defined.

Lemma build_features_truncation_witness :
  price_table ex_prices /\ columns ex_prices <> [] /\ ~ In "ym"%string (columns ex_prices) /\
  List.NoDup (index ex_prices) /\
  (exists r, In r (rows ex_prices) /\ label r <= days_from_civil 2024 2 2 * NS_PER_DAY) /\
  len (upto (days_from_civil 2024 2 2 * NS_PER_DAY) ex_prices) = 4 /\
  build_features false nanmean nanmedian nanstd
    (upto (days_from_civil 2024 2 2 * NS_PER_DAY) ex_prices) true true (-0.25)%float 0.25%float
  = Ok (upto (days_from_civil 2024 2 2 * NS_PER_DAY) ex_matrix).
Proof.
  destruct ex_prices_table as (Hpt & Hne & Hym).
  assert (Hr : exists r, In r (rows ex_prices)
                         /\ label r <= days_from_civil 2024 2 2 * NS_PER_DAY).
  { exists (mkRow (days_from_civil 2024 1 2 * NS_PER_DAY) [100; 4]%float []).
    split; [right; left; reflexivity | vm_compute; discriminate]. }
  assert (Hnd : List.NoDup (index ex_prices)) by distinct_labels.
  split; [exact Hpt|]. split; [exact Hne|]. split; [exact Hym|]. split; [exact Hnd|].
  split; [exact Hr|]. split; [reflexivity|].
  rewrite (build_features_truncation false nanmean nanmedian nanstd ex_prices
             (days_from_civil 2024 2 2 * NS_PER_DAY) true true (-0.25)%float 0.25%float
             Hpt Hne Hym Hnd Hr).
  rewrite ex_matrix_built. reflexivity.
Defined.

(** ** The clipped returns *)

(** *** Floats in order *)

Lemma SFltb_SFleb (a b : spec_float) : SFltb a b = true -> SFleb a b = true.
Proof. unfold SFltb, SFleb. destruct (SFcompare a b) as [[| |]|]; auto. Qed.

Lemma SFeqb_SFleb (a b : spec_float) : SFeqb a b = true -> SFleb a b = true.
Proof. unfold SFeqb, SFleb. destruct (SFcompare a b) as [[| |]|]; auto. Qed.

Lemma float_ltb_leb (a b : float) : (a <? b)%float = true -> (a <=? b)%float = true.
Proof. rewrite FloatAxioms.ltb_spec, FloatAxioms.leb_spec. apply SFltb_SFleb. Qed.

Lemma float_leb_refl (a : float) : isna a = false -> (a <=? a)%float = true.
Proof.
  unfold isna, PrimFloat.is_nan. intros H. apply negb_false_iff in H.
  rewrite FloatAxioms.eqb_spec in H. rewrite FloatAxioms.leb_spec. now apply SFeqb_SFleb.
Qed.

Lemma fmin_le_fmax (a b : float) :
  isna a = false -> isna b = false -> (fmin a b <=? fmax a b)%float = true.
Proof.
  intros Ha Hb. unfold fmin, fmax.
  destruct (b <? a)%float eqn:Hba, (a <? b)%float eqn:Hab;
    auto using float_leb_refl, float_ltb_leb.
Qed.

Lemma fmin_not_na (a b : float) : isna a = false -> isna b = false -> isna (fmin a b) = false.
Proof. intros Ha Hb. unfold fmin. now destruct (b <? a)%float. Qed.

Lemma fmax_not_na (a b : float) : isna a = false -> isna b = false -> isna (fmax a b) = false.
Proof. intros Ha Hb. unfold fmax. now destruct (a <? b)%float. Qed.

(** With two thresholds given, a clipped number lies between the
    smaller and the larger of them. *)
Lemma clip_range (lo hi x : float) :
  isna lo = false -> isna hi = false -> isna x = false ->
  (fmin lo hi <=? clip lo hi x)%float = true /\ (clip lo hi x <=? fmax lo hi)%float = true.
Proof.
  intros Hlo Hhi Hx. unfold clip, clip_thresholds. rewrite Hlo, Hhi. unfold clip_scalar.
  rewrite Hx. cbn [orb].
  pose proof (fmin_le_fmax lo hi Hlo Hhi) as Hmm.
  pose proof (float_leb_refl _ (fmin_not_na lo hi Hlo Hhi)) as Hl.
  pose proof (float_leb_refl _ (fmax_not_na lo hi Hlo Hhi)) as Hu.
  destruct (fmin lo hi <=? x)%float eqn:H1, (x <=? fmax lo hi)%float eqn:H2; auto.
Qed.

Lemma clip_nan (lo hi : float) : clip lo hi nan = nan.
Proof.
  unfold clip, clip_thresholds.
  destruct (isna lo), (isna hi); unfold clip_scalar; reflexivity.
Qed.

Lemma ret_cells_clip_cells (g : float -> float) (cols : list string) (cs : list float) :
  ret_cells cols (clip_cells g cols cs) = List.map g (ret_cells cols cs).
Proof.
  unfold ret_cells. revert cs. induction cols as [|c cols IH]; intros [|x cs]; try reflexivity.
  cbn [clip_cells combine List.filter fst].
  destruct (is_ret_col c); cbn [List.map snd]; now rewrite IH.
Qed.

Section ClipRange.
Variable pct_fill_pad : bool.
Variables agg_mean agg_median agg_std : list float -> float.

(** X15: with the clipping on and thresholds that are numbers, every
    return of the feature matrix lies between the smaller and the larger
    threshold; thresholds given in the wrong order are swapped, not
    refused. *)
Theorem returns_within_thresholds (P : DataFrame) (inc : bool) (lo hi : float)
                                  (out : DataFrame) (r : Row) (x : float) :
  isna lo = false -> isna hi = false ->
  build_features pct_fill_pad agg_mean agg_median agg_std P inc true lo hi = Ok out ->
  In r (rows out) -> In x (ret_values out r) ->
  (fmin lo hi <=? x)%float = true /\ (x <=? fmax lo hi)%float = true.
Proof.
  intros Hlo Hhi Hb Hr Hx.
  destruct (build_features_inv _ _ _ _ _ _ _ _ _ _ Hb) as (_ & joined & _ & Hout).
  cbv zeta in Hout. set (pre := dropna _) in Hout.
  assert (Hpre : all_finite pre) by apply cleanup_all_finite.
  rewrite clip_step_frame in Hout. subst out.
  cbn [with_rows rows] in Hr. apply in_map_iff in Hr as (q & <- & Hq).
  unfold ret_values in Hx. cbn [with_rows columns with_cells cells] in Hx.
  rewrite ret_cells_clip_cells in Hx. apply in_map_iff in Hx as (x0 & <- & Hx0).
  apply clip_range; try assumption.
  unfold all_finite in Hpre. rewrite List.Forall_forall in Hpre. specialize (Hpre q Hq).
  apply (ret_cells_Forall _ (columns pre)) in Hpre. rewrite List.Forall_forall in Hpre.
  specialize (Hpre x0 Hx0). now apply finite_spec in Hpre.
Qed.
End ClipRange.

Lemma returns_within_thresholds_witness :
  isna 0.25%float = false /\ isna (-0.25)%float = false /\
  exists out r x,
    build_features false nanmean nanmedian nanstd ex_prices false true 0.25%float (-0.25)%float
      = Ok out /\
    In r (rows out) /\ In x (ret_values out r) /\
    fmin 0.25 (-0.25) = (-0.25)%float /\ fmax 0.25 (-0.25) = 0.25%float /\
    (fmin 0.25 (-0.25) <=? x)%float = true /\ (x <=? fmax 0.25 (-0.25))%float = true.
Proof.
  split; [reflexivity|]. split; [reflexivity|].
  assert (Hb : build_features false nanmean nanmedian nanstd ex_prices false true 0.25%float
                 (-0.25)%float
               = Ok (frame_or ex_prices
                       (build_features false nanmean nanmedian nanstd ex_prices false true
                          0.25%float (-0.25)%float))) by (vm_compute; reflexivity).
  match type of Hb with _ = Ok ?o =>
    exists o, (List.last (rows o) (mkRow 0 [] [])),
           (List.last (ret_values o (List.last (rows o) (mkRow 0 [] []))) nan);
    assert (Hr : In (List.last (rows o) (mkRow 0 [] [])) (rows o))
      by (vm_compute; right; right; left; reflexivity);
    assert (Hx : In (List.last (ret_values o (List.last (rows o) (mkRow 0 [] []))) nan)
                    (ret_values o (List.last (rows o) (mkRow 0 [] []))))
      by (vm_compute; right; left; reflexivity)
  end.
  split; [exact Hb|]. split; [exact Hr|]. split; [exact Hx|].
  split; [reflexivity|]. split; [reflexivity|].
  exact (returns_within_thresholds false nanmean nanmedian nanstd ex_prices false
           0.25%float (-0.25)%float _ _ _ eq_refl eq_refl Hb Hr Hx).
Defined.

(** ** The rows of the feature matrix *)

Lemma nth_error_map2 {A B C : Type} (f : A -> B -> C) (a : list A) (b : list B) (i : nat) (z : C) :
  nth_error (map2 f a b) i = Some z ->
  exists x y, nth_error a i = Some x /\ nth_error b i = Some y /\ z = f x y.
Proof.
  revert a b. induction i as [|i IH]; intros [|x a] [|y b]; simpl; try discriminate.
  - intros [= <-]. eauto.
  - apply IH.
Qed.

Lemma nth_error_pct_from (q : Row) (t : list Row) (i : nat) (b : Row) :
  nth_error (pct_from (cells q) t) i = Some b ->
  exists q0 q1, nth_error (q :: t) i = Some q0 /\ nth_error (q :: t) (S i) = Some q1 /\
                b = with_cells q1 (map2 pct (cells q0) (cells q1)).
Proof.
  revert q i. induction t as [|r t IH]; intros q [|i]; simpl; try discriminate.
  - intros [= <-]. eauto.
  - intros H. destruct (IH r i H) as (q0 & q1 & H0 & H1 & ->). eauto.
Qed.

Lemma adjacent_split {A : Type} (l : list A) (i : nat) (a b : A) :
  nth_error l i = Some a -> nth_error l (S i) = Some b ->
  exists before after, l = before ++ a :: b :: after /\ length before = i.
Proof.
  intros Ha Hb. apply nth_error_split in Ha as (l1 & l2 & -> & Hlen).
  exists l1. rewrite nth_error_app2 in Hb by lia.
  replace (S i - length l1)%nat with 1%nat in Hb by lia.
  destruct l2 as [|b' l2]; [discriminate|]. injection Hb as ->. now exists l2.
Qed.

Lemma map2_pad_cell_id (prev cs : list float) :
  length prev = length cs -> existsb isna cs = false -> map2 pad_cell prev cs = cs.
Proof.
  revert cs. induction prev as [|p prev IH]; intros [|c cs]; simpl; try discriminate; [reflexivity|].
  intros [= Hl] Hn. apply orb_false_iff in Hn as [Hc Hn].
  unfold pad_cell at 1. rewrite Hc. f_equal. now apply IH.
Qed.

(** Forward filling keeps the labels and the shape, and leaves a row
    without missing prices as it is. *)
Lemma ffill_from_nth (n : nat) (rs : list Row) :
  Forall (fun r => length (cells r) = n) rs ->
  forall (prev : list float) (i : nat) (q : Row),
    length prev = n ->
    nth_error (ffill_from prev rs) i = Some q ->
    exists s, nth_error rs i = Some s /\ label q = label s /\ keys q = keys s /\
              length (cells q) = n /\
              (row_has_na s = false -> cells q = cells s).
Proof.
  induction 1 as [|r rs Hr Hrs IH]; intros prev [|i] q Hp; simpl; try discriminate.
  - intros [= <-]. exists r. cbn [with_cells label cells keys]. repeat split.
    + rewrite map2_length. lia.
    + intros Hn. apply map2_pad_cell_id; [lia | exact Hn].
  - apply IH. rewrite map2_length. lia.
Qed.

Lemma padded_nth (pad : bool) (n : nat) (rs : list Row) (i : nat) (q : Row) :
  Forall (fun r => length (cells r) = n) rs ->
  nth_error (padded pad rs) i = Some q ->
  exists s, nth_error rs i = Some s /\ label q = label s /\ keys q = keys s /\
            length (cells q) = n /\
            (row_has_na s = false -> cells q = cells s).
Proof.
  intros Hn. destruct pad; cbn [padded].
  - destruct rs as [|r rs]; [destruct i; discriminate|]. cbn [ffill].
    inversion Hn as [|? ? Hr Hrs]; subst.
    destruct i as [|i]; simpl.
    + intros [= <-]. exists r. auto.
    + intros H. now apply (ffill_from_nth _ rs Hrs (cells r)).
  - intros H. exists q. repeat split; try assumption.
    rewrite List.Forall_forall in Hn. apply Hn. eapply nth_error_In; eassumption.
Qed.

Lemma existsb_isna_map_replace_inf (cs : list float) :
  existsb isna (List.map replace_inf cs) = false -> Forall (fun x => finite x = true) cs.
Proof.
  induction cs as [|c cs IH]; simpl; [constructor|].
  intros H. apply orb_false_iff in H as [Hc H]. constructor; [|now apply IH].
  unfold replace_inf in Hc. apply finite_spec.
  destruct (isinf c) eqn:Hi; [discriminate | now split].
Qed.

Lemma map_replace_inf_finite (cs : list float) :
  Forall (fun x => finite x = true) cs -> List.map replace_inf cs = cs.
Proof.
  induction 1 as [|c cs Hc Hcs IH]; simpl; [reflexivity|].
  now rewrite replace_inf_finite, IH.
Qed.

Lemma finite_no_na (cs : list float) :
  Forall (fun x => finite x = true) cs -> existsb isna cs = false.
Proof.
  intros H. apply existsb_false_Forall. eapply List.Forall_impl; [|exact H].
  intros x Hx. now apply finite_spec in Hx.
Qed.

Section Rows.
Variable pct_fill_pad : bool.
Variables agg_mean agg_median agg_std : list float -> float.

(** Every row of the feature matrix comes from two neighbouring rows of
    the price table in time order. *)
Lemma build_features_row (P : DataFrame) (inc clipf : bool) (lo hi : float)
                         (out : DataFrame) (r : Row) :
  price_table P -> columns P <> [] ->
  build_features pct_fill_pad agg_mean agg_median agg_std P inc clipf lo hi = Ok out ->
  In r (rows out) ->
  columns out = columns P ++ (if inc then flat_labels (columns P) else [])
                ++ List.map (String.append ret_prefix) (columns P) /\
  exists before q0 q1 after,
    padded pct_fill_pad (sort_rows (rows P)) = before ++ q0 :: q1 :: after /\
    nth_error (sort_rows (rows P)) (S (length before)) = Some (with_cells r (cells q1)) /\
    label r = label q1 /\ keys r = [] /\
    length (cells q0) = length (columns P) /\ length (cells q1) = length (columns P) /\
    let raw := cells q1 ++ monthly_cells agg_mean agg_median agg_std inc (sort_index P) q1
               ++ map2 pct (cells q0) (cells q1) in
    Forall (fun x => finite x = true) raw /\
    cells r = if clipf then clip_cells (clip lo hi) (columns out) raw else raw.
Proof.
  intros HP Hcols Hb Hin.
  destruct (build_features_inv _ _ _ _ _ _ _ _ _ _ Hb) as (_ & J & HJ & Hout).
  cbv zeta in Hout.
  set (D := sort_index P) in *.
  assert (HD : price_table D) by now apply price_table_sorted.
  set (R := add_prefix ret_prefix (pct_change pct_fill_pad D)) in *.
  (* the joined table *)
  assert (HJ' : columns J = columns P ++ (if inc then flat_labels (columns P) else []) /\
                rows J = List.map (fun s =>
                                     {| label := label s;
                                        cells := cells s ++ monthly_cells agg_mean agg_median
                                                              agg_std inc D s;
                                        keys := [] |}) (rows D)).
  { destruct inc.
    - rewrite (join_monthly_eq _ _ _ _ HD) in HJ.
      destruct (overlaps _ _); [discriminate|]. injection HJ as <-. now split.
    - injection HJ as <-. split; [now rewrite app_nil_r|].
      cbn [monthly_cells]. rewrite <- (map_id (rows D)) at 1. apply map_ext_in.
      intros s Hs. destruct HD as [_ HF]. rewrite List.Forall_forall in HF.
      destruct (HF s Hs) as [Hk _]. rewrite app_nil_r. destruct s; cbn in *. now subst. }
  destruct HJ' as [HcJ HrJ].
  set (pre := dropna (replace_inf_with_nan (concat_columns J R))) in *.
  assert (Hcpre : columns pre = columns P ++ (if inc then flat_labels (columns P) else [])
                                ++ List.map (String.append ret_prefix) (columns P)).
  { unfold pre, dropna, replace_inf_with_nan, concat_columns, with_rows. cbn [columns].
    rewrite HcJ. now rewrite <- app_assoc. }
  assert (Hcout : columns out = columns pre).
  { rewrite Hout. destruct clipf; [|reflexivity]. now rewrite clip_step_frame. }
  split; [now rewrite Hcout|].
  (* the row before the clipping *)
  assert (Hq : exists z, In z (rows pre) /\ label r = label z /\ keys r = keys z /\
                         cells r = if clipf then clip_cells (clip lo hi) (columns out) (cells z)
                                   else cells z).
  { destruct clipf; rewrite Hout in Hin.
    - rewrite clip_step_frame in Hin. cbn [with_rows rows] in Hin.
      apply in_map_iff in Hin as (z & <- & Hz). exists z. rewrite Hcout.
      split; [exact Hz|]. repeat split.
    - exists r. repeat split. exact Hin. }
  destruct Hq as (z & Hz & Hlab & Hkeys & Hcells).
  unfold pre, dropna, replace_inf_with_nan, with_rows in Hz. cbn [rows] in Hz.
  apply filter_In in Hz as [Hz Hna]. apply in_map_iff in Hz as (z0 & <- & Hz0).
  unfold row_has_na in Hna. cbn [with_cells cells label keys] in *.
  apply negb_true_iff, existsb_isna_map_replace_inf in Hna.
  rewrite (map_replace_inf_finite _ Hna) in Hcells.
  (* its place in the table *)
  apply In_nth_error in Hz0 as [i Hi].
  unfold concat_columns in Hi. cbn [rows] in Hi.
  apply nth_error_map2 in Hi as (a & b & Ha & Hb' & ->).
  cbn [label cells keys] in *.
  rewrite HrJ, nth_error_map in Ha.
  destruct (nth_error (rows D) i) as [s|] eqn:Hs; [|discriminate]. injection Ha as <-.
  cbn [label cells keys] in *.
  assert (Hn : Forall (fun r => length (cells r) = length (columns P)) (rows D)).
  { destruct HD as [_ HF]. eapply List.Forall_impl; [|exact HF]. intros q [_ Hq]. exact Hq. }
  unfold R, add_prefix, pct_change, with_rows in Hb'. cbn [rows] in Hb'.
  fold (padded pct_fill_pad (rows D)) in Hb'.
  destruct (padded pct_fill_pad (rows D)) as [|q t] eqn:HQ; [destruct i; discriminate|].
  destruct i as [|i].
  - (* the first row holds no return and is dropped *)
    exfalso. cbn [nth_error] in Hb'. injection Hb' as <-.
    assert (H0 : nth_error (padded pct_fill_pad (rows D)) 0 = Some q) by now rewrite HQ.
    destruct (padded_nth _ _ _ _ _ Hn H0) as (s' & _ & _ & _ & Hlen & _).
    cbn [nan_like with_cells cells] in Hna.
    apply Forall_app in Hna as [_ Hna].
    destruct (cells q) as [|c cs]; [destruct (columns P); [now apply Hcols | discriminate]|].
    cbn [List.map] in Hna. inversion Hna as [|? ? Hc _]; subst. discriminate.
  - cbn [nth_error] in Hb'.
    destruct (nth_error_pct_from _ _ _ _ Hb') as (q0 & q1 & H0 & H1 & ->).
    rewrite <- HQ in H0, H1.
    destruct (adjacent_split _ _ _ _ H0 H1) as (before & after & HQeq & Hlen).
    destruct (padded_nth _ _ _ _ _ Hn H1) as (s' & Hs' & Hl1 & Hk1 & Hn1 & Hc1).
    destruct (padded_nth _ _ _ _ _ Hn H0) as (s0 & _ & _ & _ & Hn0 & _).
    rewrite Hs in Hs'. injection Hs' as <-.
    cbn [with_cells cells] in *.
    assert (Hfs : Forall (fun x => finite x = true) (cells s))
      by (rewrite <- app_assoc in Hna; now apply Forall_app in Hna as [Hna _]).
    specialize (Hc1 (finite_no_na _ Hfs)).
    exists before, q0, q1, after.
    split; [exact HQeq|].
    assert (Hks : keys s = []).
    { destruct HD as [_ HF]. rewrite List.Forall_forall in HF.
      now destruct (HF s (nth_error_In _ _ Hs)) as [Hk _]. }
    assert (Hkr : keys r = []) by (rewrite Hkeys; cbn [app with_cells keys]; now rewrite Hk1).
    split.
    { rewrite Hlen. change (sort_rows (rows P)) with (rows D). rewrite Hs. f_equal.
      unfold with_cells. rewrite Hc1, Hlab, Hkr, <- Hks. now destruct s. }
    split; [now rewrite Hlab|].
    split; [exact Hkr|]. split; [exact Hn0|]. split; [exact Hn1|].
    cbv zeta.
    assert (Hm : monthly_cells agg_mean agg_median agg_std inc D s
                 = monthly_cells agg_mean agg_median agg_std inc D q1)
      by (unfold monthly_cells; now rewrite Hl1).
    rewrite <- Hm, Hc1, app_assoc. rewrite Hc1 in Hna, Hcells.
    split; [exact Hna | exact Hcells].
Qed.
End Rows.

(** ** The asof date and the targets of a run *)

Lemma join_monthly_index (a1 a2 a3 : list float -> float) (df J : DataFrame) :
  join_monthly a1 a2 a3 df = Ok J -> index J = index df /\ index_kind J = index_kind df.
Proof.
  unfold join_monthly, join_on, set_period_column. cbn [key_columns columns rows index_kind].
  destruct (index_of "ym" (key_columns df ++ ["ym"%string])) as [j|]; [|discriminate].
  destruct (overlaps _ _); [discriminate|]. cbn [rbind].
  unfold drop_column. cbn [key_columns columns rows index_kind].
  destruct (index_of "ym" (key_columns df ++ ["ym"%string])) as [j'|]; [|discriminate].
  intros [= <-]. unfold index. cbn [rows index_kind]. split; [|reflexivity].
  rewrite !map_map. reflexivity.
Qed.

Lemma sorted_labels_filter (p : Row -> bool) (l : list Row) :
  StronglySorted Z.le (List.map label l) -> StronglySorted Z.le (List.map label (List.filter p l)).
Proof.
  induction l as [|x l IH]; simpl; [constructor|].
  intros H. inversion H as [|? ? Hs Hall]; subst.
  destruct (p x); [|now apply IH]. simpl. constructor; [now apply IH|].
  rewrite List.Forall_forall in *. intros y Hy. apply Hall.
  apply in_map_iff in Hy as (q & <- & Hq). apply filter_In in Hq as [Hq _]. now apply in_map.
Qed.

Lemma sorted_last_is_max (l : list Z) (x : Z) :
  StronglySorted Z.le (l ++ [x]) -> forall y, In y l -> y <= x.
Proof.
  induction l as [|a l IH]; intros H y Hy; [destruct Hy|].
  inversion H as [|? ? Hs Hall]; subst. destruct Hy as [<-|Hy]; [|now apply IH].
  rewrite List.Forall_forall in Hall. apply Hall. apply in_or_app. right. now left.
Qed.

Lemma fold_max_ge (t : Z) (ts : list Z) (y : Z) :
  In y (t :: ts) -> y <= fold_right Z.max t ts.
Proof.
  induction ts as [|u ts IH]; cbn [fold_right].
  - intros [<-|[]]. lia.
  - intros [<-|[<-|Hy]]; [specialize (IH (or_introl eq_refl)) | | specialize (IH (or_intror Hy))];
      lia.
Qed.

Lemma fold_max_in (t : Z) (ts : list Z) : In (fold_right Z.max t ts) (t :: ts).
Proof.
  induction ts as [|u ts IH]; cbn [fold_right]; [now left|].
  destruct (Z.max_spec u (fold_right Z.max t ts)) as [[_ ->]|[_ ->]].
  - destruct IH as [<-|IH]; [now left | right; now right].
  - right. now left.
Qed.

(** In a frame in time order the greatest index label is the label of
    the last row. *)
Lemma index_max_last (df : DataFrame) (init : list Row) (row : Row) :
  StronglySorted Z.le (index df) -> rows df = init ++ [row] ->
  index_max df = Some (label row).
Proof.
  intros Hs Hrows. unfold index_max.
  assert (Hidx : index df = List.map label init ++ [label row])
    by (unfold index; now rewrite Hrows, map_app).
  rewrite Hidx in Hs. pose proof (sorted_last_is_max _ _ Hs) as Hle.
  destruct (index df) as [|t ts] eqn:Hi; [destruct (List.map label init); discriminate|].
  f_equal. apply Z.le_antisymm.
  - pose proof (fold_max_in t ts) as Hin. rewrite Hidx in Hin.
    apply in_app_iff in Hin as [Hin|[<-|[]]]; [now apply Hle | lia].
  - apply fold_max_ge. rewrite Hidx. apply in_or_app. right. now left.
Qed.

Lemma sorted_rows_index (l : list Row) : StronglySorted Z.le (List.map label (sort_rows l)).
Proof. apply sorted_map_key, sort_by_sorted. Qed.

Lemma index_replace_inf_with_nan (df : DataFrame) :
  index (replace_inf_with_nan df) = index df.
Proof. unfold index, replace_inf_with_nan, with_rows. cbn [rows]. now rewrite map_map. Qed.

Lemma sorted_cleanup (df : DataFrame) :
  StronglySorted Z.le (index df) ->
  StronglySorted Z.le (index (dropna (replace_inf_with_nan df))).
Proof.
  intros H. unfold dropna, with_rows, index at 1. cbn [rows].
  apply sorted_labels_filter. fold (index (replace_inf_with_nan df)).
  now rewrite index_replace_inf_with_nan.
Qed.

Section Asof.
Variable pct_fill_pad : bool.
Variables agg_mean agg_median agg_std : list float -> float.

Lemma build_features_sorted (P : DataFrame) (inc clipf : bool) (lo hi : float) (out : DataFrame) :
  build_features pct_fill_pad agg_mean agg_median agg_std P inc clipf lo hi = Ok out ->
  StronglySorted Z.le (index out).
Proof.
  intros Hb.
  destruct (build_features_inv _ _ _ _ _ _ _ _ _ _ Hb) as (_ & J & HJ & Hout).
  cbv zeta in Hout. set (D := sort_index P) in *.
  set (R := add_prefix ret_prefix (pct_change pct_fill_pad D)) in *.
  assert (HiJ : index J = index D).
  { destruct inc; [now apply join_monthly_index in HJ | now injection HJ as <-]. }
  assert (HiR : index R = index D) by apply (pct_change_labels pct_fill_pad D).
  assert (Hs : StronglySorted Z.le (index (concat_columns J R))).
  { rewrite concat_columns_labels by (now rewrite HiJ, HiR). rewrite HiJ.
    apply sorted_rows_index. }
  apply sorted_cleanup in Hs.
  rewrite Hout. destruct clipf; [|exact Hs].
  rewrite clip_step_frame. unfold index, with_rows. cbn [rows]. rewrite map_map. exact Hs.
Qed.

(** X19: the asof date of a run, [features_df.index.max()] on line 110,
    is the date of the last row of the feature matrix, which is in time
    order. *)
Theorem asof_is_last_row (P : DataFrame) (inc clipf : bool) (lo hi : float)
                         (out : DataFrame) (init : list Row) (row : Row) :
  build_features pct_fill_pad agg_mean agg_median agg_std P inc clipf lo hi = Ok out ->
  rows (dropna (replace_inf_with_nan out)) = init ++ [row] ->
  index_max (dropna (replace_inf_with_nan out)) = Some (label row) /\
  is_monotonic_increasing (index (dropna (replace_inf_with_nan out))) = true /\
  is_monotonic_increasing (index out) = true.
Proof.
  intros Hb Hrows. pose proof (build_features_sorted _ _ _ _ _ _ Hb) as Hs.
  pose proof (sorted_cleanup _ Hs) as Hs'.
  split; [now apply index_max_last with (init := init)|].
  split; now apply sorted_is_monotonic.
Qed.

(** X18: over unique dates the feature matrix does not depend on the
    order in which the rows of the price table come. *)
Theorem build_features_row_order (P : DataFrame) (rs : list Row) (inc clipf : bool)
                                 (lo hi : float) :
  Permutation rs (rows P) -> List.NoDup (index P) ->
  build_features pct_fill_pad agg_mean agg_median agg_std (with_rows P rs) inc clipf lo hi
    = build_features pct_fill_pad agg_mean agg_median agg_std P inc clipf lo hi.
Proof.
  intros Hp Hnd. unfold build_features.
  change (index_kind (with_rows P rs)) with (index_kind P).
  assert (Hs : sort_index (with_rows P rs) = sort_index P).
  { unfold sort_index, with_rows, sort_rows. cbn [rows index_kind columns key_columns]. f_equal.
    symmetry. apply sort_by_perm_eq; [now symmetry | exact Hnd]. }
  now rewrite Hs.
Qed.

Lemma build_features_columns (P : DataFrame) (inc clipf : bool) (lo hi : float) (out : DataFrame) :
  build_features pct_fill_pad agg_mean agg_median agg_std P inc clipf lo hi = Ok out ->
  forall c, In c (columns P) -> In (ret_prefix ++ c)%string (columns out).
Proof.
  intros Hb c Hc.
  destruct (build_features_inv _ _ _ _ _ _ _ _ _ _ Hb) as (_ & J & HJ & Hout).
  cbv zeta in Hout.
  assert (Hcols : columns out
                  = columns J ++ List.map (String.append ret_prefix) (columns P)).
  { rewrite Hout. destruct clipf; [rewrite clip_step_frame|]; reflexivity. }
  rewrite Hcols. apply in_or_app. right. now apply in_map.
Qed.

(** X20: every target the run trains for is a ticker of the price table
    and has its return column in the feature matrix, so that [make_xy]
    does not fail for it, whatever the horizon. *)
Theorem chosen_targets_have_returns (env : string) (P : DataFrame) (inc clipf : bool)
                                    (lo hi : float) (targets : list string) (F : DataFrame)
                                    (T : string) (h : Z) :
  get_target_tickers env P = Ok targets ->
  build_features pct_fill_pad agg_mean agg_median agg_std P inc clipf lo hi = Ok F ->
  In T targets ->
  In T (columns P) /\
  exists X y fc, make_xy (dropna (replace_inf_with_nan F)) T h = Ok (X, y, fc).
Proof.
  intros Ht Hb HT.
  assert (Hcol : In T (columns P)).
  { unfold get_target_tickers in Ht. destruct (String.eqb env "ALL").
    - now injection Ht as <-.
    - destruct (existsb (String.eqb env) (columns P)) eqn:Hex; [|discriminate].
      injection Ht as <-. destruct HT as [<-|[]]. now apply existsb_eqb_In. }
  split; [exact Hcol|]. apply make_xy_total.
  apply (build_features_columns _ _ _ _ _ _ Hb) in Hcol. exact Hcol.
Qed.
End Asof.

Lemma asof_is_last_row_witness :
  exists out init row,
    build_features false nanmean nanmedian nanstd ex_prices true true (-0.25)%float 0.25%float
      = Ok out /\
    rows (dropna (replace_inf_with_nan out)) = init ++ [row] /\
    label row = days_from_civil 2024 2 5 * NS_PER_DAY /\
    index_max (dropna (replace_inf_with_nan out)) = Some (label row) /\
    is_monotonic_increasing (index (dropna (replace_inf_with_nan out))) = true /\
    is_monotonic_increasing (index out) = true.
Proof.
  exists ex_matrix. eexists _, _.
  assert (Hrows : rows (dropna (replace_inf_with_nan ex_matrix))
                  = removelast (rows (dropna (replace_inf_with_nan ex_matrix)))
                    ++ [List.last (rows (dropna (replace_inf_with_nan ex_matrix)))
                          (mkRow 0 [] [])]) by reflexivity.
  split; [exact ex_matrix_built|]. split; [exact Hrows|]. split; [reflexivity|].
  exact (asof_is_last_row false nanmean nanmedian nanstd ex_prices true true
           (-0.25)%float 0.25%float ex_matrix _ _ ex_matrix_built Hrows).
Defined.

Lemma build_features_row_order_witness :
  Permutation (rev (rows ex_prices)) (rows ex_prices) /\
  List.NoDup (index ex_prices) /\
  build_features false nanmean nanmedian nanstd (with_rows ex_prices (rev (rows ex_prices)))
                 true true (-0.25)%float 0.25%float
    = build_features false nanmean nanmedian nanstd ex_prices true true (-0.25)%float 0.25%float.
Proof.
  assert (Hp : Permutation (rev (rows ex_prices)) (rows ex_prices))
    by (symmetry; apply Permutation_rev).
  assert (Hn : List.NoDup (index ex_prices)) by distinct_labels.
  split; [exact Hp|]. split; [exact Hn|].
  exact (build_features_row_order false nanmean nanmedian nanstd ex_prices _ true true
           (-0.25)%float 0.25%float Hp Hn).
Defined.

Lemma chosen_targets_have_returns_witness :
  get_target_tickers "ALL" ex_prices = Ok ["A"; "B"]%string /\
  build_features false nanmean nanmedian nanstd ex_prices true true (-0.25)%float 0.25%float
    = Ok ex_matrix /\
  In "B"%string ["A"; "B"]%string /\
  In "B"%string (columns ex_prices) /\
  exists X y fc, make_xy (dropna (replace_inf_with_nan ex_matrix)) "B" 3 = Ok (X, y, fc).
Proof.
  assert (Ht : get_target_tickers "ALL" ex_prices = Ok ["A"; "B"]%string) by reflexivity.
  assert (Hin : In "B"%string ["A"; "B"]%string) by (right; left; reflexivity).
  split; [exact Ht|]. split; [exact ex_matrix_built|]. split; [exact Hin|].
  exact (chosen_targets_have_returns false nanmean nanmedian nanstd "ALL" ex_prices true true
           (-0.25)%float 0.25%float _ ex_matrix "B" 3 Ht ex_matrix_built Hin).
Defined.

(** ** The shape of the feature matrix and the failures of build_features *)




Lemma padded_length (pad : bool) (rs : list Row) : length (padded pad rs) = length rs.
Proof.
  destruct pad; [|reflexivity]. cbn [padded].
  rewrite <- (length_map label (ffill rs)), ffill_labels. apply length_map.
Qed.

Lemma padded_head (pad : bool) (r : Row) (rs : list Row) :
  exists t, padded pad (r :: rs) = r :: t.
Proof. destruct pad; cbn [padded ffill]; eauto. Qed.

Lemma filter_length_le {A : Type} (p : A -> bool) (l : list A) :
  (length (List.filter p l) <= length l)%nat.
Proof. induction l as [|x l IH]; simpl; [lia|]. destruct (p x); simpl; lia. Qed.

Section Shape.
Variable pct_fill_pad : bool.
Variables agg_mean agg_median agg_std : list float -> float.

Lemma build_features_frame (P : DataFrame) (inc clipf : bool) (lo hi : float) (out : DataFrame) :
  price_table P -> columns P <> [] ->
  build_features pct_fill_pad agg_mean agg_median agg_std P inc clipf lo hi = Ok out ->
  index_kind out = index_kind P /\ key_columns out = [] /\
  (length (rows out) <= length (rows P) - 1)%nat.
Proof.
  intros HP Hcols Hb.
  destruct (build_features_inv _ _ _ _ _ _ _ _ _ _ Hb) as (_ & J & HJ & Hout).
  cbv zeta in Hout.
  set (D := sort_index P) in *.
  assert (HD : price_table D) by now apply price_table_sorted.
  set (R := add_prefix ret_prefix (pct_change pct_fill_pad D)) in *.
  assert (HJ' : index_kind J = index_kind P /\ key_columns J = [] /\
                List.map label (rows J) = List.map label (rows D)).
  { destruct inc.
    - rewrite (join_monthly_eq _ _ _ _ HD) in HJ.
      destruct (overlaps _ _); [discriminate|]. injection HJ as <-. cbn [index_kind key_columns rows].
      repeat split. now rewrite map_map.
    - injection HJ as <-. destruct HD as [Hk _]. now repeat split. }
  destruct HJ' as (HkJ & HkcJ & HlJ).
  set (pre := dropna (replace_inf_with_nan (concat_columns J R))) in *.
  assert (Hfields : index_kind out = index_kind pre /\ key_columns out = key_columns pre /\
                    length (rows out) = length (rows pre)).
  { rewrite Hout. destruct clipf; [|now repeat split].
    rewrite clip_step_frame. cbn [with_rows index_kind key_columns rows]. now rewrite length_map. }
  destruct Hfields as (-> & -> & ->).
  split; [exact HkJ|]. split.
  { unfold pre, dropna, replace_inf_with_nan, concat_columns, with_rows. cbn [key_columns].
    rewrite HkcJ. destruct HD as [Hk _]. exact Hk. }
  (* the first row holds no return and is dropped *)
  unfold pre, dropna, replace_inf_with_nan, concat_columns, with_rows. cbn [rows].
  assert (Hlen : length (rows D) = length (rows P)).
  { unfold D, sort_index, with_rows, sort_rows. cbn [rows].
    apply Permutation_length, sort_by_perm. }
  rewrite <- Hlen.
  assert (HlJ' : length (rows J) = length (rows D))
    by (apply (f_equal (@length Z)) in HlJ; now rewrite !length_map in HlJ).
  unfold R, add_prefix, pct_change, with_rows. cbn [rows].
  fold (padded pct_fill_pad (rows D)).
  destruct (rows D) as [|s0 S'] eqn:HS.
  - destruct (rows J); [|discriminate]. cbn. lia.
  - destruct (padded_head pct_fill_pad s0 S') as [t Ht]. rewrite Ht.
    destruct (rows J) as [|a0 J'] eqn:HrJ; [discriminate|].
    cbn [map2 List.map List.filter].
    match goal with
    | |- context [negb (row_has_na ?x)] => assert (Hna : row_has_na x = true)
    end.
    { unfold row_has_na. cbn [with_cells cells nan_like]. rewrite map_app, existsb_app.
      apply orb_true_iff. right.
      assert (Hs0 : length (cells s0) = length (columns P)).
      { destruct HD as [_ HF]. rewrite HS in HF. inversion HF as [|? ? [_ Hl] _]; subst.
        exact Hl. }
      destruct (cells s0) as [|c cs]; [destruct (columns P); [now elim Hcols | discriminate]|].
      reflexivity. }
    rewrite Hna. cbn [negb]. etransitivity; [apply filter_length_le|].
    rewrite length_map, map2_length. cbn [length] in HlJ' |- *. lia.
Qed.

(** X13: the frame [build_features] returns on a price table.  Its
    columns are the tickers, then (with the monthly features on) three
    statistics per ticker, then one return per ticker; every row has one
    cell per column; and at least one row is lost: the earliest date has no
    return. *)
Theorem build_features_shape (P : DataFrame) (inc clipf : bool) (lo hi : float)
                             (out : DataFrame) :
  price_table P -> columns P <> [] -> ~ In "ym"%string (columns P) ->
  build_features pct_fill_pad agg_mean agg_median agg_std P inc clipf lo hi = Ok out ->
  columns out = columns P ++ (if inc then flat_labels (columns P) else [])
                ++ List.map (String.append ret_prefix) (columns P) /\
  index_kind out = index_kind P /\
  price_table out /\
  len out <= Z.max 0 (len P - 1).
Proof.
  intros HP Hcols _ Hb.
  destruct (build_features_frame _ _ _ _ _ _ HP Hcols Hb) as (Hk & Hkc & Hlen).
  assert (Hc : columns out = columns P ++ (if inc then flat_labels (columns P) else [])
                             ++ List.map (String.append ret_prefix) (columns P)).
  { destruct (build_features_inv _ _ _ _ _ _ _ _ _ _ Hb) as (_ & J & HJ & Hout).
    cbv zeta in Hout.
    assert (HcJ : columns J = columns P ++ (if inc then flat_labels (columns P) else [])).
    { destruct inc.
      - rewrite (join_monthly_eq _ _ _ _ (price_table_sorted _ HP)) in HJ.
        destruct (overlaps _ _); [discriminate|]. now injection HJ as <-.
      - injection HJ as <-. now rewrite app_nil_r. }
    rewrite Hout. destruct clipf; [rewrite clip_step_frame|];
      unfold dropna, replace_inf_with_nan, concat_columns, with_rows; cbn [columns];
      now rewrite HcJ, <- app_assoc. }
  split; [exact Hc|]. split; [exact Hk|]. split; [|unfold len; lia].
  split; [exact Hkc|]. apply List.Forall_forall. intros r Hr.
  destruct (build_features_row _ _ _ _ _ _ _ _ _ _ _ HP Hcols Hb Hr)
    as (_ & before & q0 & q1 & after & HQ & Hnth & Hlab & Hkeys & Hn0 & Hn1 & Hfin & Hcells).
  split; [exact Hkeys|]. cbv zeta in Hcells.
  assert (Hraw : length (cells q1 ++ monthly_cells agg_mean agg_median agg_std inc (sort_index P) q1
                         ++ map2 pct (cells q0) (cells q1)) = length (columns out)).
  { rewrite Hc, !length_app, length_map, map2_length, Hn0, Hn1. f_equal. f_equal; [|lia].
    destruct inc; cbn [monthly_cells]; [|reflexivity].
    rewrite flat_labels_length.
    apply nth_error_In in Hnth.
    replace (label q1) with (label (with_cells r (cells q1))) by (cbn; now rewrite Hlab).
    rewrite joined_cells_lagged by (try apply sort_by_sorted; exact Hnth).
    apply lagged_stats_length. }
  rewrite Hcells. destruct clipf; [rewrite clip_cells_length|]; exact Hraw.
Qed.

(** X14: each row of the feature matrix is made of two neighbouring rows
    of the price table in time order (forward-filled where pandas pads):
    it has the date and the prices of the later one, the lagged statistics
    of its month, and the change of every price from the earlier to the
    later one, clipped when the clipping is on; all of them are numbers. *)
Theorem feature_row_from_neighbours (P : DataFrame) (inc clipf : bool) (lo hi : float)
                                    (out : DataFrame) (r : Row) :
  price_table P -> columns P <> [] -> ~ In "ym"%string (columns P) ->
  build_features pct_fill_pad agg_mean agg_median agg_std P inc clipf lo hi = Ok out ->
  In r (rows out) ->
  exists before q0 q1 after,
    padded pct_fill_pad (sort_rows (rows P)) = before ++ q0 :: q1 :: after /\
    nth_error (sort_rows (rows P)) (S (length before)) = Some (with_cells r (cells q1)) /\
    label r = label q1 /\
    let raw := cells q1 ++ monthly_cells agg_mean agg_median agg_std inc (sort_index P) q1
               ++ map2 pct (cells q0) (cells q1) in
    Forall (fun x => finite x = true) raw /\
    cells r = if clipf then clip_cells (clip lo hi) (columns out) raw else raw.
Proof.
  intros HP Hcols _ Hb Hr.
  destruct (build_features_row _ _ _ _ _ _ _ _ _ _ _ HP Hcols Hb Hr)
    as (_ & before & q0 & q1 & after & HQ & Hnth & Hlab & _ & _ & _ & Hraw).
  exists before, q0, q1, after. auto.
Qed.

(** X16: with the monthly features on, no row of the first calendar
    month of the table reaches the feature matrix: every row that does has
    a row of an earlier month before it. *)
Theorem monthly_features_skip_first_month (P : DataFrame) (clipf : bool) (lo hi : float)
                                          (out : DataFrame) (r : Row) :
  price_table P -> columns P <> [] -> ~ In "ym"%string (columns P) ->
  build_features pct_fill_pad agg_mean agg_median agg_std P true clipf lo hi = Ok out ->
  In r (rows out) ->
  exists r0, In r0 (rows P) /\ to_period_M (label r0) < to_period_M (label r).
Proof.
  intros HP Hcols _ Hb Hr.
  destruct (build_features_row _ _ _ _ _ _ _ _ _ _ _ HP Hcols Hb Hr)
    as (_ & before & q0 & q1 & after & HQ & Hnth & Hlab & _ & _ & _ & Hfin & _).
  cbv zeta in Hfin. apply Forall_app in Hfin as [_ Hfin]. apply Forall_app in Hfin as [Hfin _].
  cbn [monthly_cells] in Hfin.
  apply nth_error_In in Hnth.
  replace (label q1) with (label (with_cells r (cells q1))) in Hfin by (cbn; now rewrite Hlab).
  rewrite joined_cells_lagged in Hfin by (try apply sort_by_sorted; exact Hnth).
  cbn [with_cells label] in Hfin.
  destruct (rows_before (to_period_M (label r)) (rows (sort_index P))) as [|r0 bs] eqn:Hbefore.
  - exfalso. cbn [lagged_stats] in Hfin.
    change (columns (sort_index P)) with (columns P) in Hfin.
    destruct (columns P) as [|c cs]; [now apply Hcols|].
    cbn in Hfin. inversion Hfin as [|? ? Hc _]; subst. discriminate.
  - exists r0.
    assert (Hin : In r0 (rows_before (to_period_M (label r)) (rows (sort_index P))))
      by (rewrite Hbefore; now left).
    apply filter_In in Hin as [Hin Hlt]. split; [|now apply Z.ltb_lt].
    apply (Permutation_in _ (sort_by_perm label (rows P))). exact Hin.
Qed.

End Shape.

Lemma build_features_shape_witness :
  price_table ex_prices /\ columns ex_prices <> [] /\ ~ In "ym"%string (columns ex_prices) /\
  exists out,
    build_features false nanmean nanmedian nanstd ex_prices true true (-0.25)%float 0.25%float
      = Ok out /\
    columns out = ["A"; "B"; "A_mean"; "A_median"; "A_std"; "B_mean"; "B_median"; "B_std";
                   "ret_A"; "ret_B"]%string /\
    index_kind out = DatetimeIndex /\
    price_table out /\
    len out = 2 /\ len ex_prices = 5 /\
    len out <= Z.max 0 (len ex_prices - 1).
Proof.
  destruct ex_prices_table as (Hpt & Hne & Hym).
  split; [exact Hpt|]. split; [exact Hne|]. split; [exact Hym|].
  exists ex_matrix. split; [exact ex_matrix_built|].
  destruct (build_features_shape false nanmean nanmedian nanstd ex_prices true true
              (-0.25)%float 0.25%float ex_matrix Hpt Hne Hym ex_matrix_built)
    as (Hc & Hk & Ht & Hl).
  split; [exact Hc|]. split; [exact Hk|]. split; [exact Ht|].
  split; [reflexivity|]. split; [reflexivity | exact Hl].
Defined.

Lemma feature_row_from_neighbours_witness :
  price_table ex_prices /\ columns ex_prices <> [] /\ ~ In "ym"%string (columns ex_prices) /\
  exists out r,
    build_features false nanmean nanmedian nanstd ex_prices true true (-0.25)%float 0.25%float
      = Ok out /\
    In r (rows out) /\
    label r = days_from_civil 2024 2 5 * NS_PER_DAY /\
    exists before q0 q1 after,
      padded false (sort_rows (rows ex_prices)) = before ++ q0 :: q1 :: after /\
      nth_error (sort_rows (rows ex_prices)) (S (length before))
        = Some (with_cells r (cells q1)) /\
      label r = label q1 /\
      let raw := cells q1 ++ monthly_cells nanmean nanmedian nanstd true (sort_index ex_prices) q1
                 ++ map2 pct (cells q0) (cells q1) in
      Forall (fun x => finite x = true) raw /\
      cells r = clip_cells (clip (-0.25) 0.25) (columns out) raw.
Proof.
  destruct ex_prices_table as (Hpt & Hne & Hym).
  split; [exact Hpt|]. split; [exact Hne|]. split; [exact Hym|].
  exists ex_matrix, (List.last (rows ex_matrix) (mkRow 0 [] [])).
  assert (Hin : In (List.last (rows ex_matrix) (mkRow 0 [] [])) (rows ex_matrix))
    by (right; left; reflexivity).
  split; [exact ex_matrix_built|]. split; [exact Hin|]. split; [reflexivity|].
  exact (feature_row_from_neighbours false nanmean nanmedian nanstd ex_prices true true
           (-0.25)%float 0.25%float ex_matrix _ Hpt Hne Hym ex_matrix_built Hin).
Defined.

Lemma monthly_features_skip_first_month_witness :
  price_table ex_prices /\ columns ex_prices <> [] /\ ~ In "ym"%string (columns ex_prices) /\
  exists out r,
    build_features false nanmean nanmedian nanstd ex_prices true true (-0.25)%float 0.25%float
      = Ok out /\
    index out = [days_from_civil 2024 2 2 * NS_PER_DAY; days_from_civil 2024 2 5 * NS_PER_DAY] /\
    In r (rows out) /\
    exists r0, In r0 (rows ex_prices) /\ to_period_M (label r0) < to_period_M (label r).
Proof.
  destruct ex_prices_table as (Hpt & Hne & Hym).
  split; [exact Hpt|]. split; [exact Hne|]. split; [exact Hym|].
  exists ex_matrix, (List.last (rows ex_matrix) (mkRow 0 [] [])).
  assert (Hin : In (List.last (rows ex_matrix) (mkRow 0 [] [])) (rows ex_matrix))
    by (right; left; reflexivity).
  split; [exact ex_matrix_built|]. split; [reflexivity|]. split; [exact Hin|].
  exact (monthly_features_skip_first_month false nanmean nanmedian nanstd ex_prices true
           (-0.25)%float 0.25%float ex_matrix _ Hpt Hne Hym ex_matrix_built Hin).
Defined.


(** ** assert_no_nan *)

Lemma count_na_nonneg (df : DataFrame) : 0 <= count_na df.
Proof. unfold count_na. induction (rows df) as [|r rs IH]; simpl; lia. Qed.

Lemma filter_nil_Forall {A : Type} (p : A -> bool) (l : list A) :
  List.filter p l = [] <-> Forall (fun x => p x = false) l.
Proof.
  induction l as [|x l IH]; simpl; [split; [constructor | reflexivity]|].
  destruct (p x) eqn:Hp; split.
  - discriminate.
  - intros H. inversion H; subst. congruence.
  - intros H. constructor; [assumption | now apply IH].
  - intros H. inversion H; subst. now apply IH.
Qed.

Lemma count_na_zero (df : DataFrame) :
  count_na df = 0 <-> Forall (fun r => Forall (fun x => isna x = false) (cells r)) (rows df).
Proof.
  unfold count_na. induction (rows df) as [|r rs IH]; simpl.
  - split; [constructor | reflexivity].
  - pose proof (count_na_nonneg {| index_kind := OtherIndex; columns := []; key_columns := [];
                                   rows := rs |}) as Hn. unfold count_na in Hn. cbn [rows] in Hn.
    split.
    + intros H. constructor.
      * apply filter_nil_Forall. destruct (List.filter isna (cells r)); [reflexivity|].
        cbn [length] in H. lia.
      * apply IH. lia.
    + intros H. inversion H as [|? ? Hr Hrs]; subst.
      apply filter_nil_Forall in Hr. rewrite Hr. cbn [length]. apply IH in Hrs. lia.
Qed.

Lemma count_na_pos (df : DataFrame) :
  0 < count_na df -> exists r x, In r (rows df) /\ In x (cells r) /\ isna x = true.
Proof.
  unfold count_na. induction (rows df) as [|r rs IH]; simpl; [lia|].
  destruct (List.filter isna (cells r)) as [|x l] eqn:Hf.
  - intros H. destruct (IH H) as (r' & x & Hr & Hx & Hna). exists r', x. auto.
  - intros _. assert (Hx : In x (List.filter isna (cells r))) by (rewrite Hf; now left).
    apply filter_In in Hx as [Hx Hna]. exists r, x. auto.
Qed.

(** X26: [assert_no_nan] raises a [ValueError] exactly when some cell is
    missing; infinite values pass. *)
Theorem assert_no_nan_raises (df : DataFrame) :
  (assert_no_nan df = Ok tt /\
   Forall (fun r => Forall (fun x => isna x = false) (cells r)) (rows df))
  \/
  (assert_no_nan df = Raise ValueError /\
   exists r x, In r (rows df) /\ In x (cells r) /\ isna x = true).
Proof.
  unfold assert_no_nan. pose proof (count_na_nonneg df) as Hn.
  destruct (Z.ltb_spec 0 (count_na df)) as [Hpos|Hz].
  - right. split; [reflexivity | now apply count_na_pos].
  - left. split; [reflexivity|]. apply count_na_zero. lia.
Qed.

(** ** replace_inf_with_nan *)

Lemma replace_inf_idem (x : float) : replace_inf (replace_inf x) = replace_inf x.
Proof. unfold replace_inf. destruct (isinf x) eqn:E; [reflexivity | now rewrite E]. Qed.

(** X27: [replace_inf_with_nan] keeps the index, the columns and the
    shape; it turns every infinite cell into a missing one and changes no
    other cell; applied twice it does what it does once. *)
Theorem replace_inf_with_nan_cells (df : DataFrame) :
  index (replace_inf_with_nan df) = index df /\
  columns (replace_inf_with_nan df) = columns df /\
  Forall2 (fun r r' =>
             Forall2 (fun x x' => isinf x' = false /\
                                  (isinf x = false -> x' = x) /\
                                  (isinf x = true -> isna x' = true))
                     (cells r) (cells r'))
          (rows df) (rows (replace_inf_with_nan df)) /\
  replace_inf_with_nan (replace_inf_with_nan df) = replace_inf_with_nan df.
Proof.
  split; [apply index_replace_inf_with_nan|]. split; [reflexivity|]. split.
  - unfold replace_inf_with_nan, with_rows. cbn [rows].
    induction (rows df) as [|r rs IH]; cbn [List.map]; constructor; [|exact IH].
    cbn [with_cells cells]. induction (cells r) as [|x cs IHc]; cbn [List.map]; constructor;
      [|exact IHc].
    split; [apply replace_inf_not_inf|]. unfold replace_inf.
    split; intros H; rewrite H; reflexivity.
  - unfold replace_inf_with_nan, with_rows. cbn [rows index_kind columns key_columns]. f_equal.
    rewrite map_map. apply map_ext. intros r. unfold with_cells. cbn [label cells keys]. f_equal.
    rewrite map_map. apply map_ext. intros x. apply replace_inf_idem.
Qed.

(** ** The two readings of TARGET_TICKER *)

(** X21: the targets of a run.  Unless TARGET_TICKER is "ALL", the list
    [main] trains for is the one ticker [get_target_ticker] returns, and
    both fail together, with a [ValueError], when the table has no such
    column; for "ALL" it is every column of the table.  Every target is a
    column of the table. *)
Theorem get_target_tickers_or_ticker (env : string) (df : DataFrame) :
  (env <> "ALL"%string ->
   get_target_tickers env df = match get_target_ticker env df with
                               | Ok t => Ok [t]
                               | Raise e => Raise e
                               end) /\
  get_target_tickers "ALL" df = Ok (columns df) /\
  (forall t, get_target_ticker env df = Ok t -> t = env /\ In t (columns df)) /\
  (forall e, get_target_ticker env df = Raise e -> e = ValueError /\ ~ In env (columns df)) /\
  (forall ts t, get_target_tickers env df = Ok ts -> In t ts -> In t (columns df)).
Proof.
  unfold get_target_tickers, get_target_ticker.
  split; [|split; [|split; [|split]]].
  - intros Hne. apply String.eqb_neq in Hne. rewrite Hne.
    now destruct (existsb (String.eqb env) (columns df)).
  - reflexivity.
  - intros t. destruct (existsb (String.eqb env) (columns df)) eqn:E; [|discriminate].
    intros [= <-]. split; [reflexivity | now apply existsb_eqb_In].
  - intros e. destruct (existsb (String.eqb env) (columns df)) eqn:E; [discriminate|].
    intros [= <-]. split; [reflexivity|]. intros Hin. apply existsb_eqb_In in Hin. congruence.
  - intros ts t. destruct (String.eqb env "ALL"); [now intros [= <-]|].
    destruct (existsb (String.eqb env) (columns df)) eqn:E; [|discriminate].
    intros [= <-] [<-|[]]. now apply existsb_eqb_In.
Qed.

(** ** The loader and what follows it *)

Lemma remove_nth_length {A : Type} (j : nat) (l : list A) :
  (j < length l)%nat -> length (remove_nth j l) = (length l - 1)%nat.
Proof.
  revert j. induction l as [|x l IH]; intros [|j]; simpl; try lia.
  intros H. rewrite IH by lia. lia.
Qed.

Lemma drop_nat_length (l : list (option Timestamp * list string)) :
  (length (drop_nat l) <= length l)%nat.
Proof. induction l as [|[[t|] cs] l IH]; simpl; lia. Qed.

Section LoaderComposition.
Variable to_datetime : string -> option Timestamp.
Variable parse_number : string -> option float.

(** X11: what the loader returns is ready for the steps after it.  It
    is already in time order (the [sort_index] calls of [main],
    [build_features] and [time_split] leave it as it is), and for a file
    whose rows have one field per header column it is a plain price table:
    one numeric cell per ticker in every row, the date column gone from
    the columns. *)
Theorem loaded_prices_ready (file : option CsvTable) (date_col : string) (out : DataFrame) :
  load_prices_csv to_datetime parse_number file date_col = Ok out ->
  sort_index out = out /\
  (forall t, file = Some t ->
     Forall (fun raw => length raw = length (csv_columns t)) (csv_rows t) ->
     price_table out /\
     (length (columns out) + 1)%nat = length (csv_columns t) /\
     (length (rows out) <= length (csv_rows t))%nat).
Proof.
  unfold load_prices_csv. destruct file as [t|]; [|discriminate].
  destruct (index_of date_col (csv_columns t)) as [j|] eqn:Hj; [|discriminate].
  intros [= <-]. split.
  - unfold sort_index, with_rows, sort_rows. cbn [rows index_kind columns key_columns]. f_equal.
    apply sort_by_fixed.
    set (kept := drop_nat (List.map (split_date to_datetime j) (csv_rows t))).
    pose proof (sort_by_sorted fst kept) as Hs.
    induction Hs as [|x l Hs IH Hall]; cbn [List.map]; constructor; [exact IH|].
    rewrite List.Forall_map. exact Hall.
  - intros t' [= <-] Hrect. split; [|split].
    + split; [reflexivity|]. cbn [rows columns].
      apply List.Forall_forall. intros r Hr. apply in_map_iff in Hr as ([d cs] & <- & Hin).
      cbn [keys cells fst snd]. split; [reflexivity|].
      apply (Permutation_in _ (sort_by_perm fst _)) in Hin.
      apply drop_nat_In in Hin as (raw & Hraw & _ & ->).
      rewrite List.Forall_forall in Hrect. specialize (Hrect raw Hraw).
      apply index_of_lt in Hj.
      rewrite length_map, !remove_nth_length by lia. now rewrite Hrect.
    + cbn [columns]. apply index_of_lt in Hj. rewrite remove_nth_length by lia. lia.
    + cbn [rows]. rewrite length_map.
      pose proof (Permutation_length
                    (sort_by_perm fst (drop_nat (List.map (split_date to_datetime j)
                                                          (csv_rows t))))) as Hperm.
      pose proof (drop_nat_length (List.map (split_date to_datetime j) (csv_rows t))) as Hle.
      rewrite length_map in Hle. rewrite Hperm. exact Hle.
Qed.
End LoaderComposition.

Lemma loaded_prices_ready_witness :
  exists out,
    load_prices_csv iso_date integer_literal (Some ex_csv) "Date" = Ok out /\
    index out = [days_from_civil 2024 1 2 * NS_PER_DAY; days_from_civil 2024 1 2 * NS_PER_DAY;
                 days_from_civil 2024 1 3 * NS_PER_DAY] /\
    sort_index out = out /\
    price_table out /\
    (length (columns out) + 1)%nat = length (csv_columns ex_csv) /\
    (length (rows out) <= length (csv_rows ex_csv))%nat.
Proof.
  assert (H : load_prices_csv iso_date integer_literal (Some ex_csv) "Date"
              = Ok (frame_or ex_prices
                      (load_prices_csv iso_date integer_literal (Some ex_csv) "Date")))
    by (vm_compute; reflexivity).
  eexists. split; [exact H|]. split; [vm_compute; reflexivity|].
  destruct (loaded_prices_ready iso_date integer_literal (Some ex_csv) "Date" _ H)
    as (Hs & Hp).
  split; [exact Hs|].
  apply (Hp ex_csv eq_refl). repeat constructor.
Defined.

(** ** One iteration of the training loop *)

Lemma bind_lift_returns {A : Type} (r : Result A) (a : A) (k : A -> Run unit) :
  r = Ok a -> (exists ev, k a = (ev, Ok tt)) -> exists ev, bind (lift r) k = (ev, Ok tt).
Proof. intros -> [ev H]. exists ev. now rewrite bind_lift_Ok. Qed.

Lemma bind_print_returns (m : Message) (k : unit -> Run unit) :
  (exists ev, k tt = (ev, Ok tt)) -> exists ev, bind (print m) k = (ev, Ok tt).
Proof. intros [ev H]. exists (Print m :: ev). unfold bind, print. now rewrite H. Qed.

Section Progress.
Variable Model : Type.
Variable fit : DataFrame -> list float -> Result Model.
Variable predict : Model -> DataFrame -> Result (list float).
Variable mean_absolute_error : list float -> list float -> Result float.
Variable mean_squared_error : list float -> list float -> Result float.
Variable external_ok : Event -> bool.
Variable run_id_of : string -> Z -> string.
Variable utc_now : string -> Z -> string.

Lemma bind_external_returns (e : Event) (k : unit -> Run unit) :
  external_ok e = true -> (exists ev, k tt = (ev, Ok tt)) ->
  exists ev, bind (external external_ok e) k = (ev, Ok tt).
Proof.
  intros He [ev H]. exists (e :: ev). unfold bind, external. now rewrite He, H.
Qed.

Lemma positions_app (cs cols extra : list string) (js : list nat) :
  positions cs cols = Ok js -> positions cs (cols ++ extra) = Ok js.
Proof.
  assert (Hi : forall c j, index_of c cols = Some j -> index_of c (cols ++ extra) = Some j).
  { intros c. induction cols as [|c' t IH]; simpl; intros j; [discriminate|].
    destruct (String.eqb c c'); [auto|].
    destruct (index_of c t) as [j'|]; simpl; [|discriminate].
    intros [= <-]. now rewrite (IH j' eq_refl). }
  revert js. induction cs as [|c t IH]; simpl; intros js; [auto|].
  destruct (index_of c cols) as [j|] eqn:Hj; [|discriminate].
  rewrite (Hi _ _ Hj).
  destruct (positions t cols) as [js'|]; simpl; [|discriminate].
  intros [= <-]. now rewrite (IH js' eq_refl).
Qed.

Lemma getitem_list_total (cs : list string) (df : DataFrame) :
  (forall c, In c cs -> In c (columns df)) ->
  exists X, getitem_list cs df = Ok X /\ length (rows X) = length (rows df).
Proof.
  intros H. destruct (positions_Some cs (columns df) H) as [js Hjs].
  unfold getitem_list. rewrite Hjs. cbn [rbind]. eexists. split; [reflexivity|].
  cbn [rows]. apply length_map.
Qed.

Lemma getitem_total (c : string) (df : DataFrame) :
  In c (columns df) ->
  exists s, getitem c df = Ok s /\ length (s_items s) = length (rows df).
Proof.
  intros H. destruct (index_of_Some _ _ H) as [j Hj]. unfold getitem. rewrite Hj.
  eexists. split; [reflexivity|]. cbn [s_items]. apply length_map.
Qed.

Lemma loc_slice_fields (a b : option Timestamp) (df : DataFrame) :
  columns (loc_slice a b df) = columns df /\
  forall r, In r (rows (loc_slice a b df)) -> In r (rows df).
Proof.
  split; [reflexivity|]. unfold loc_slice, with_rows. cbn [rows]. intros r Hr.
  apply In_firstn_list in Hr. now apply In_skipn_list in Hr.
Qed.

(** X22: an iteration of the loop does not fail on its own.  With a
    return column for the target, a time index without a time zone and a
    sample threshold of at least one, and when fitting, predicting (one
    value per row), the two metrics and the calls to the tracker and the
    store succeed, the iteration returns, trained or skipped, whatever the
    asof date, NaT included. *)
Theorem iteration_returns (cfg : Config) (endpoint : string) (F : DataFrame)
                          (asof : option Timestamp) (T : string) (h : Z) :
  In (target_column T) (columns F) ->
  is_DatetimeIndex (index_kind F) = true ->
  is_tz_aware (index_kind F) = false ->
  1 <= min_samples cfg ->
  (forall e, external_ok e = true) ->
  (forall X y, exists m, fit X y = Ok m) ->
  (forall m X, exists p, predict m X = Ok p /\ length p = length (rows X)) ->
  (forall a b, exists x, mean_absolute_error a b = Ok x) ->
  (forall a b, exists x, mean_squared_error a b = Ok x) ->
  exists ev,
    iteration Model fit predict mean_absolute_error mean_squared_error external_ok
              run_id_of utc_now cfg endpoint F asof T h = (ev, Ok tt).
Proof.
  intros Hin Hk Hz Hmin Hext Hfit Hpred Hmae Hmse.
  destruct (make_xy_total F T h Hin) as (X & y & fc & Hxy).
  destruct (make_xy_inv _ _ _ _ _ _ Hxy) as (y0 & X0 & _ & Hy & Hfc & HX & HXeq & Hyeq).
  destruct (index_getitem_list _ _ _ HX) as [_ HcX0].
  assert (HcX : columns X = fc) by (rewrite HXeq; exact HcX0).
  assert (HkX : index_kind X = index_kind F).
  { rewrite HXeq. cbn [iloc_to with_rows index_kind]. revert HX. unfold getitem_list.
    destruct (positions fc (columns F)); cbn [rbind]; [|discriminate]. now intros [= <-]. }
  (* the dataset *)
  assert (Hny : existsb (String.eqb "y") (columns X) = false).
  { destruct (existsb (String.eqb "y") (columns X)) eqn:E; [|reflexivity].
    apply existsb_eqb_In in E. rewrite HcX, Hfc in E. apply filter_In in E as [_ E].
    now apply feature_column_not_y in E. }
  destruct (join_series X (s_rename "y" y)) as [J|e] eqn:HJ.
  2:{ unfold join_series in HJ. cbn [s_rename s_name] in HJ. rewrite Hny in HJ. discriminate. }
  destruct (join_series_inv _ _ _ HJ) as (_ & HkJ & HcJ & _ & HrJ).
  cbn [s_rename s_name s_items] in HcJ, HrJ.
  set (data := dropna (replace_inf_with_nan J)).
  assert (Hd : supervised_dataset X y = Ok data).
  { unfold supervised_dataset. rewrite HJ. cbn [rbind].
    now rewrite (assert_no_nan_finite _ (cleanup_all_finite J)). }
  assert (Hkd : index_kind data = index_kind F).
  { unfold data, dropna, replace_inf_with_nan, with_rows. cbn [index_kind].
    now rewrite HkJ, HkX. }
  assert (Hcd : columns data = fc ++ ["y"%string]).
  { unfold data, dropna, replace_inf_with_nan, with_rows. cbn [columns]. now rewrite HcJ, HcX. }
  assert (Hrd : rows data <> [] -> rows X <> []).
  { intros Hne HXe. apply Hne. unfold data, dropna, replace_inf_with_nan, with_rows.
    cbn [rows]. rewrite HrJ, HXe. reflexivity. }
  (* the split *)
  pose proof (time_split_unfold data (train_end cfg) (val_end cfg)) as Hs.
  rewrite Hkd, Hk, Hz in Hs. cbn [andb negb] in Hs. unfold split_sorted in Hs.
  set (train_df := loc_slice None (Some (ds_end (train_end cfg))) (sort_index data)) in Hs.
  set (val_df := loc_slice (Some (ds_start (train_end cfg) + NS_PER_DAY))
                           (Some (ds_end (val_end cfg))) (sort_index data)) in Hs.
  set (test_df := loc_slice (Some (ds_start (val_end cfg) + NS_PER_DAY)) None
                            (sort_index data)) in Hs.
  unfold iteration.
  eapply bind_lift_returns; [exact Hxy|]. cbv beta iota.
  eapply bind_lift_returns; [exact Hd|].
  eapply bind_lift_returns; [exact Hs|]. cbv beta iota.
  destruct ((len train_df <? min_samples cfg) || (len val_df <? min_samples cfg)
            || (len test_df <? min_samples cfg)) eqn:Hsmall.
  { eexists. reflexivity. }
  apply orb_false_iff in Hsmall as [Hsmall _]. apply orb_false_iff in Hsmall as [Hsmall _].
  apply Z.ltb_ge in Hsmall.
  assert (Hcols : forall df, In df [train_df; val_df; test_df] ->
                  (forall c, In c fc -> In c (columns df)) /\ In "y"%string (columns df)).
  { intros df Hdf.
    assert (Hc : columns df = fc ++ ["y"%string]).
    { destruct Hdf as [<-|[<-|[<-|[]]]]; exact Hcd. }
    rewrite Hc. split; [intros c Hc'; apply in_or_app; now left|].
    apply in_or_app. right. now left. }
  destruct (Hcols train_df ltac:(simpl; auto)) as [Hf1 Hy1].
  destruct (Hcols val_df ltac:(simpl; auto)) as [Hf2 Hy2].
  destruct (Hcols test_df ltac:(simpl; auto)) as [Hf3 Hy3].
  destruct (getitem_list_total fc train_df Hf1) as (X_train & HXt & _).
  destruct (getitem_total "y" train_df Hy1) as (y_train & Hyt & _).
  destruct (getitem_list_total fc val_df Hf2) as (X_val & HXv & _).
  destruct (getitem_total "y" val_df Hy2) as (y_val & Hyv & _).
  destruct (getitem_list_total fc test_df Hf3) as (X_test & HXs & HlXs).
  destruct (getitem_total "y" test_df Hy3) as (y_test & Hys & Hlys).
  eapply bind_lift_returns; [exact HXt|].
  eapply bind_lift_returns; [exact Hyt|].
  eapply bind_lift_returns; [exact HXv|].
  eapply bind_lift_returns; [exact Hyv|].
  eapply bind_lift_returns; [exact HXs|].
  eapply bind_lift_returns; [exact Hys|].
  do 10 (apply bind_external_returns; [apply Hext|]).
  destruct (Hfit X_train (s_values y_train)) as [model Hm].
  eapply bind_lift_returns; [exact Hm|].
  destruct (Hpred model X_val) as (val_pred & Hvp & _).
  eapply bind_lift_returns; [exact Hvp|].
  destruct (Hpred model X_test) as (test_pred & Htp & Hltp).
  eapply bind_lift_returns; [exact Htp|].
  destruct (Hmae (s_values y_val) val_pred) as [val_mae Hvm].
  eapply bind_lift_returns; [exact Hvm|].
  destruct (Hmse (s_values y_val) val_pred) as [val_mse Hvs].
  eapply bind_lift_returns; [exact Hvs|].
  destruct (Hmae (s_values y_test) test_pred) as [test_mae Htm].
  eapply bind_lift_returns; [exact Htm|].
  destruct (Hmse (s_values y_test) test_pred) as [test_mse Hts].
  eapply bind_lift_returns; [exact Hts|].
  do 5 (apply bind_external_returns; [apply Hext|]).
  assert (Hpt : exists tbl, prediction_table test_df y_test test_pred T h
                              (run_id_of T h) (utc_now T h) = Ok tbl).
  { unfold prediction_table. rewrite Hlys, Hltp, HlXs, !Nat.eqb_refl. cbn [andb negb]. eauto. }
  destruct Hpt as [tbl Hpt].
  eapply bind_lift_returns; [exact Hpt|].
  unfold upload_df_as_csv_to_s3.
  apply bind_external_returns; [apply Hext|].
  (* the last row of X *)
  assert (HXne : rows X <> []).
  { apply Hrd. intros Hde.
    assert (Ht : rows train_df = []).
    { destruct (rows train_df) as [|r l] eqn:E; [reflexivity|].
      assert (Hr : In r (rows (sort_index data))).
      { apply (proj2 (loc_slice_fields None (Some (ds_end (train_end cfg))) (sort_index data))).
        fold train_df. rewrite E. now left. }
      assert (Hr' : In r (rows data)) by (apply In_sort_rows; exact Hr).
      rewrite Hde in Hr'. destruct Hr'. }
    unfold len in Hsmall. rewrite Ht in Hsmall. cbn in Hsmall. lia. }
  assert (Hlast : exists x_last, iloc_last X = Ok x_last /\ length (rows x_last) = 1%nat).
  { unfold iloc_last. destruct (rev (rows X)) as [|r l] eqn:Hrev.
    - apply (f_equal (@rev Row)) in Hrev. rewrite rev_involutive in Hrev. now elim HXne.
    - eexists. split; reflexivity. }
  destruct Hlast as (x_last & Hxl & Hl1).
  eapply bind_lift_returns; [exact Hxl|].
  destruct (Hpred model x_last) as (last_pred & Hlp & Hllp).
  eapply bind_lift_returns; [exact Hlp|].
  rewrite Hl1 in Hllp. destruct last_pred as [|p more]; [discriminate|].
  eapply bind_lift_returns; [reflexivity|].
  apply bind_external_returns; [apply Hext|].
  apply bind_print_returns. eexists. reflexivity.
Qed.
End Progress.

Lemma iteration_returns_witness :
  In (target_column "A") (columns ex_week) /\
  is_DatetimeIndex (index_kind ex_week) = true /\
  is_tz_aware (index_kind ex_week) = false /\
  1 <= min_samples (ex_config 1) /\
  (forall e, ex_external_ok e = true) /\
  (forall X y, exists m, ex_fit X y = Ok m) /\
  (forall m X, exists p, ex_predict m X = Ok p /\ length p = length (rows X)) /\
  (forall a b, exists x, ex_metric a b = Ok x) /\
  exists ev, ex_iteration 1 = (ev, Ok tt).
Proof.
  assert (H1 : In (target_column "A") (columns ex_week)) by (left; reflexivity).
  assert (H2 : is_DatetimeIndex (index_kind ex_week) = true) by reflexivity.
  assert (Hz : is_tz_aware (index_kind ex_week) = false) by reflexivity.
  assert (H3 : 1 <= min_samples (ex_config 1)) by (simpl; lia).
  assert (H4 : forall e, ex_external_ok e = true) by reflexivity.
  assert (H5 : forall X y, exists m, ex_fit X y = Ok m) by (intros X y; exists tt; reflexivity).
  assert (H6 : forall m X, exists p, ex_predict m X = Ok p /\ length p = length (rows X)).
  { intros m X. eexists. split; [reflexivity | apply length_map]. }
  assert (H7 : forall a b, exists x, ex_metric a b = Ok x)
    by (intros a b; eexists; reflexivity).
  split; [exact H1|]. split; [exact H2|]. split; [exact Hz|]. split; [exact H3|].
  split; [exact H4|]. split; [exact H5|]. split; [exact H6|]. split; [exact H7|].
  exact (iteration_returns unit ex_fit ex_predict ex_metric ex_metric ex_external_ok
           ex_run_id ex_now (ex_config 1) "http://minio:9000" ex_week (Some ex_asof) "A" 1
           H1 H2 Hz H3 H4 H5 H6 H7 H7).
Defined.

(** ** The table of test predictions *)

Lemma map_map2 {A B C D : Type} (g : C -> D) (f : A -> B -> C) (a : list A) (b : list B) :
  List.map g (map2 f a b) = map2 (fun x y => g (f x y)) a b.
Proof.
  revert b. induction a as [|x a IH]; intros [|y b]; simpl; try reflexivity. now rewrite IH.
Qed.

Lemma map2_left {A B C : Type} (f : A -> C) (a : list A) (b : list B) :
  length a = length b -> map2 (fun x _ => f x) a b = List.map f a.
Proof.
  revert b. induction a as [|x a IH]; intros [|y b]; simpl; try discriminate; [reflexivity|].
  intros [= H]. f_equal. now apply IH.
Qed.

Lemma map2_right {A B : Type} (a : list A) (b : list B) :
  length a = length b -> map2 (fun _ y => y) a b = b.
Proof.
  revert b. induction a as [|x a IH]; intros [|y b]; simpl; try discriminate; [reflexivity|].
  intros [= H]. f_equal. now apply IH.
Qed.

(** One step back through a run that returned. *)
Ltac run_inv H :=
  let ev1 := fresh "ev" in let a := fresh "a" in let ev2 := fresh "ev" in
  let Hc := fresh "Hc" in let Hk := fresh "Hk" in
  apply bind_Ok_inv in H as (ev1 & a & ev2 & Hc & Hk & ->);
  cbv beta zeta in Hk;
  first
    [ apply lift_Ok_inv in Hc as [Hc ->]
    | apply external_Ok_inv in Hc as [Hc ->]
    | unfold upload_df_as_csv_to_s3 in Hc; apply external_Ok_inv in Hc as [Hc ->]
    | unfold print in Hc; injection Hc as <- <- ];
  rename Hk into H.

Section TestPredictions.
Variable Model : Type.
Variable fit : DataFrame -> list float -> Result Model.
Variable predict : Model -> DataFrame -> Result (list float).
Variable mean_absolute_error : list float -> list float -> Result float.
Variable mean_squared_error : list float -> list float -> Result float.
Variable external_ok : Event -> bool.
Variable run_id_of : string -> Z -> string.
Variable utc_now : string -> Z -> string.

Lemma prediction_table_inv (test_df : DataFrame) (y_test : Series) (test_pred : list float)
                           (T : string) (h : Z) (run_id created_at : string) (tbl : Table) :
  prediction_table test_df y_test test_pred T h run_id created_at = Ok tbl ->
  exists records,
    tbl = PredictionTable records /\
    List.map p_asof_date records = index test_df /\
    List.map p_y_true records = s_values y_test /\
    List.map p_y_pred records = test_pred /\
    Forall (fun rec => p_target_ticker rec = T /\ p_horizon_days rec = h /\
                       p_run_id rec = run_id /\ p_created_at rec = created_at /\
                       p_split rec = "test"%string) records.
Proof.
  unfold prediction_table.
  destruct (Nat.eqb_spec (length (rows test_df)) (length (s_items y_test))) as [H1|]; [|discriminate].
  destruct (Nat.eqb_spec (length (rows test_df)) (length test_pred)) as [H2|]; [|discriminate].
  cbn [andb negb]. intros [= <-]. eexists. split; [reflexivity|].
  assert (Hi : length (index test_df) = length (s_values y_test))
    by (unfold index, s_values; rewrite !length_map; exact H1).
  assert (Hc : length (combine (index test_df) (s_values y_test)) = length test_pred)
    by (rewrite length_combine, <- Hi, Nat.min_id; unfold index; rewrite length_map; exact H2).
  repeat split.
  - rewrite map_map2. cbn [p_asof_date].
    rewrite (map2_left fst) by exact Hc. now apply map_fst_combine.
  - rewrite map_map2. cbn [p_y_true].
    rewrite (map2_left snd) by exact Hc. now apply map_snd_combine.
  - rewrite map_map2. cbn [p_y_pred]. now apply map2_right.
  - apply map2_Forall. intros ty p _ _. now repeat split.
Qed.

(** X23: a pair that is trained uploads one table of test predictions,
    under "<target>/H<h>/predictions_test.csv": one record per row of the
    test slice and in its order, with the date of the row, its "y" and the
    prediction of the fitted model for it, and with the target, the
    horizon, the run id, the creation time and the split "test". *)
Theorem test_predictions (cfg : Config) (endpoint : string) (F : DataFrame)
                         (asof : option Timestamp) (T : string) (h : Z)
                         (X : DataFrame) (y : Series) (fc : list string)
                         (data train_df val_df test_df : DataFrame) (ev : list Event) :
  make_xy F T h = Ok (X, y, fc) ->
  supervised_dataset X y = Ok data ->
  time_split data (train_end cfg) (val_end cfg) = Ok (train_df, val_df, test_df) ->
  too_small cfg train_df val_df test_df = false ->
  iteration Model fit predict mean_absolute_error mean_squared_error external_ok
            run_id_of utc_now cfg endpoint F asof T h = (ev, Ok tt) ->
  exists X_train y_train model X_test y_test test_pred records,
    getitem_list fc train_df = Ok X_train /\
    getitem "y" train_df = Ok y_train /\
    fit X_train (s_values y_train) = Ok model /\
    getitem_list fc test_df = Ok X_test /\
    getitem "y" test_df = Ok y_test /\
    predict model X_test = Ok test_pred /\
    test_uploads ev
      = [PutObject (pred_bucket cfg) (mkKey T h TEST_FILE) endpoint (PredictionTable records)] /\
    List.map p_asof_date records = index test_df /\
    List.map p_y_true records = column_values "y" test_df /\
    List.map p_y_pred records = test_pred /\
    Forall (fun rec => p_target_ticker rec = T /\ p_horizon_days rec = h /\
                       p_run_id rec = run_id_of T h /\ p_created_at rec = utc_now T h /\
                       p_split rec = "test"%string) records.
Proof.
  intros Hxy Hd Hs Hsmall Hit.
  unfold iteration in Hit. rewrite Hxy, bind_lift_Ok, Hd, bind_lift_Ok, Hs, bind_lift_Ok in Hit.
  unfold too_small in Hsmall. rewrite Hsmall in Hit.
  repeat run_inv Hit.
  unfold print in Hit. injection Hit as <-.
  match goal with
  | Hxt : getitem_list fc train_df = Ok ?xt,
    Hyt : getitem "y" train_df = Ok ?yt,
    Hf : fit ?xt (s_values ?yt) = Ok ?m,
    Hxs : getitem_list fc test_df = Ok ?xs,
    Hys : getitem "y" test_df = Ok ?ys,
    Hp : predict ?m ?xs = Ok ?tp,
    Hpt : prediction_table test_df ?ys ?tp T h _ _ = Ok ?tbl |- _ =>
      destruct (prediction_table_inv _ _ _ _ _ _ _ _ Hpt) as (records & -> & H1 & H2 & H3 & H4);
      exists xt, yt, m, xs, ys, tp, records;
      pose proof (index_shifted 0 _ _ _ Hys) as [_ Hv]
  end.
  repeat (split; [assumption|]).
  split; [reflexivity|]. split; [assumption|]. split; [congruence|]. split; assumption.
Qed.
End TestPredictions.

Lemma test_predictions_witness :
  exists X y fc data train_df val_df test_df,
    make_xy ex_week "A" 1 = Ok (X, y, fc) /\
    supervised_dataset X y = Ok data /\
    time_split data (train_end (ex_config 1)) (val_end (ex_config 1))
      = Ok (train_df, val_df, test_df) /\
    too_small (ex_config 1) train_df val_df test_df = false /\
    ex_iteration 1 = (ex_events, Ok tt) /\
    index test_df = [days_from_civil 2024 1 5 * NS_PER_DAY] /\
    exists X_train y_train model X_test y_test test_pred records,
      getitem_list fc train_df = Ok X_train /\
      getitem "y" train_df = Ok y_train /\
      ex_fit X_train (s_values y_train) = Ok model /\
      getitem_list fc test_df = Ok X_test /\
      getitem "y" test_df = Ok y_test /\
      ex_predict model X_test = Ok test_pred /\
      test_uploads ex_events
        = [PutObject (pred_bucket (ex_config 1)) (mkKey "A" 1 TEST_FILE) "http://minio:9000"
             (PredictionTable records)] /\
      List.map p_asof_date records = index test_df /\
      List.map p_y_true records = column_values "y" test_df /\
      List.map p_y_pred records = test_pred /\
      Forall (fun rec => p_target_ticker rec = "A"%string /\ p_horizon_days rec = 1 /\
                         p_run_id rec = ex_run_id "A" 1 /\ p_created_at rec = ex_now "A" 1 /\
                         p_split rec = "test"%string) records.
Proof.
  eexists _, _, _, _, _, _, _.
  assert (H1 : make_xy ex_week "A" 1 = Ok (iloc_to (-1) (frame_or ex_week
                 (getitem_list ["ret_B"%string] ex_week)),
               s_iloc_to (-1) (s_shift (-1) (mkSeries "ret_A"
                  (List.map (fun r => (label r, cell_at 0 r)) (rows ex_week)))),
               ["ret_B"%string])) by reflexivity.
  split; [exact H1|].
  assert (H2 : supervised_dataset
                 (iloc_to (-1) (frame_or ex_week (getitem_list ["ret_B"%string] ex_week)))
                 (s_iloc_to (-1) (s_shift (-1) (mkSeries "ret_A"
                    (List.map (fun r => (label r, cell_at 0 r)) (rows ex_week)))))
               = Ok (frame_or ex_week (supervised_dataset
                 (iloc_to (-1) (frame_or ex_week (getitem_list ["ret_B"%string] ex_week)))
                 (s_iloc_to (-1) (s_shift (-1) (mkSeries "ret_A"
                    (List.map (fun r => (label r, cell_at 0 r)) (rows ex_week)))))))) by reflexivity.
  split; [exact H2|].
  match type of H2 with _ = Ok ?d =>
    assert (H3 : time_split d (train_end (ex_config 1)) (val_end (ex_config 1))
                 = Ok (split_sorted (sort_index d) (train_end (ex_config 1))
                                    (val_end (ex_config 1)))) by reflexivity
  end.
  split; [exact H3|].
  match type of H3 with _ = Ok (split_sorted ?d ?a ?b) =>
    assert (H4 : too_small (ex_config 1) (fst (fst (split_sorted d a b)))
                   (snd (fst (split_sorted d a b))) (snd (split_sorted d a b)) = false)
      by reflexivity
  end.
  split; [exact H4|].
  assert (H6 : ex_iteration 1 = (ex_events, Ok tt)) by (vm_compute; reflexivity).
  split; [exact H6|]. split; [reflexivity|].
  exact (test_predictions unit ex_fit ex_predict ex_metric ex_metric ex_external_ok
           ex_run_id ex_now (ex_config 1) "http://minio:9000" ex_week (Some ex_asof) "A" 1
           _ _ _ _ _ _ _ ex_events H1 H2 H3 H4 H6).
Defined.

(** ** Every pair of target and horizon is accounted for *)

Lemma range1_length (n : Z) : length (range1 n) = Z.to_nat n.
Proof. unfold range1. now rewrite length_map, length_seq. Qed.

Lemma pairs_length (targets : list string) (hmax : Z) :
  length (pairs targets hmax) = (length targets * Z.to_nat hmax)%nat.
Proof.
  unfold pairs. induction targets as [|t ts IH]; [reflexivity|].
  cbn [flat_map length]. now rewrite length_app, length_map, range1_length, IH.
Qed.

Section Accounting.
Variable Model : Type.
Variable fit : DataFrame -> list float -> Result Model.
Variable predict : Model -> DataFrame -> Result (list float).
Variable mean_absolute_error : list float -> list float -> Result float.
Variable mean_squared_error : list float -> list float -> Result float.
Variable external_ok : Event -> bool.
Variable run_id_of : string -> Z -> string.
Variable utc_now : string -> Z -> string.
Variable pct_fill_pad : bool.
Variables agg_mean agg_median agg_std : list float -> float.
Variable to_datetime : string -> option Timestamp.
Variable parse_number : string -> option float.

(** A pair that returns was either skipped, with one warning and no
    upload, or it uploaded one table of test predictions and one latest
    forecast; the warning and the forecast name the pair. *)
Lemma iteration_accounting (cfg : Config) (endpoint : string) (F : DataFrame)
                           (asof : option Timestamp) (T : string) (h : Z) (ev : list Event) :
  iteration Model fit predict mean_absolute_error mean_squared_error external_ok
            run_id_of utc_now cfg endpoint F asof T h = (ev, Ok tt) ->
  handled_pairs ev = [(T, h)] /\
  (length (forecast_uploads ev) + length (skip_messages ev) = 1)%nat /\
  length (test_uploads ev) = length (forecast_uploads ev).
Proof.
  intros Hit. unfold iteration in Hit.
  run_inv Hit. destruct a as [[X y] fc].
  run_inv Hit. run_inv Hit. destruct a0 as [[train_df val_df] test_df].
  destruct ((len train_df <? min_samples cfg) || (len val_df <? min_samples cfg)
            || (len test_df <? min_samples cfg)).
  - unfold print in Hit. injection Hit as <-. repeat split.
  - repeat run_inv Hit. unfold print in Hit. injection Hit as <-. repeat split.
Qed.

Lemma loop_accounting (body : string -> Z -> Run unit) (ps : list (string * Z)) :
  (forall t h ev, body t h = (ev, Ok tt) ->
     handled_pairs ev = [(t, h)] /\
     (length (forecast_uploads ev) + length (skip_messages ev) = 1)%nat /\
     length (test_uploads ev) = length (forecast_uploads ev)) ->
  forall ev, loop body ps = (ev, Ok tt) ->
    handled_pairs ev = ps /\
    (length (forecast_uploads ev) + length (skip_messages ev) = length ps)%nat /\
    length (test_uploads ev) = length (forecast_uploads ev).
Proof.
  intros Hbody. induction ps as [|[t h] ps IH]; intros ev Hl.
  - injection Hl as <-. repeat split.
  - cbn [loop] in Hl. apply bind_Ok_inv in Hl as (ev1 & [] & ev2 & H1 & H2 & ->).
    destruct (Hbody _ _ _ H1) as (Hp & Ha & Hb). destruct (IH _ H2) as (Hq & Hc & Hd).
    split.
    + unfold handled_pairs in *. now rewrite flat_map_app, Hp, Hq.
    + unfold forecast_uploads, skip_messages, test_uploads in *.
      rewrite !List.filter_app, !length_app. cbn [length]. lia.
Qed.

(** X24: a run that returns has dealt with every pair of a target and a
    horizon from 1 to HORIZON_DAYS_MAX, once each and in the order of the
    loops: the pairs named by the latest forecasts and by the skip
    warnings, in the order of the events, are the targets in turn, each
    with the horizons from 1 up.  There are as many tables of test
    predictions as latest forecasts, and the last thing the run does is to
    print that all is done. *)
Theorem main_accounts_for_every_pair (cfg : Config) (file : option CsvTable) (ev : list Event) :
  dry_run cfg = false ->
  main Model fit predict mean_absolute_error mean_squared_error external_ok run_id_of utc_now
       pct_fill_pad agg_mean agg_median agg_std to_datetime parse_number cfg file
    = (ev, Ok tt) ->
  exists prices targets init,
    load_prices_csv to_datetime parse_number file "Date" = Ok prices /\
    get_target_tickers (target_env cfg) (sort_index prices) = Ok targets /\
    handled_pairs ev = pairs targets (horizon_max cfg) /\
    (length (forecast_uploads ev) + length (skip_messages ev)
     = length targets * Z.to_nat (horizon_max cfg))%nat /\
    length (test_uploads ev) = length (forecast_uploads ev) /\
    ev = init ++ [Print MsgAllDone].
Proof.
  intros Hdry Hm. unfold main in Hm. rewrite Hdry in Hm.
  destruct (s3_endpoint cfg) as [endpoint|]; [|discriminate].
  destruct (String.eqb endpoint ""); [discriminate|].
  repeat run_inv Hm.
  apply bind_Ok_inv in Hm as (evl & [] & ev2 & Hloop & Hdone & ->).
  unfold print in Hdone. injection Hdone as <-.
  match goal with
  | Hl : load_prices_csv _ _ _ _ = Ok ?p, Ht : get_target_tickers _ _ = Ok ?ts |- _ =>
      exists p, ts
  end.
  eexists. split; [eassumption|]. split; [eassumption|].
  destruct (loop_accounting _ _ (iteration_accounting cfg endpoint _ _) _ Hloop)
    as (Hp & Ha & Hb).
  rewrite pairs_length in Ha.
  split; [|split; [|split]].
  - unfold handled_pairs in *. rewrite !flat_map_app, Hp. cbn [flat_map app].
    now rewrite app_nil_r.
  - unfold forecast_uploads, skip_messages in *.
    rewrite !List.filter_app, !length_app. cbn [List.filter length app]. lia.
  - unfold forecast_uploads, test_uploads in *.
    rewrite !List.filter_app, !length_app. cbn [List.filter length app]. lia.
  - rewrite !app_assoc. reflexivity.
Qed.
End Accounting.

Lemma main_accounts_for_every_pair_witness :
  dry_run ex_run_config = false /\
  ex_main = (ex_main_events, Ok tt) /\
  length (forecast_uploads ex_main_events) = 4%nat /\
  length (skip_messages ex_main_events) = 2%nat /\
  handled_pairs ex_main_events
    = [("A", 1); ("A", 2); ("A", 3); ("B", 1); ("B", 2); ("B", 3)]%string /\
  exists prices targets init,
    load_prices_csv iso_date integer_literal (Some ex_file) "Date" = Ok prices /\
    get_target_tickers (target_env ex_run_config) (sort_index prices) = Ok targets /\
    handled_pairs ex_main_events = pairs targets (horizon_max ex_run_config) /\
    (length (forecast_uploads ex_main_events) + length (skip_messages ex_main_events)
     = length targets * Z.to_nat (horizon_max ex_run_config))%nat /\
    length (test_uploads ex_main_events) = length (forecast_uploads ex_main_events) /\
    ex_main_events = init ++ [Print MsgAllDone].
Proof.
  assert (Hd : dry_run ex_run_config = false) by reflexivity.
  assert (Hm : ex_main = (ex_main_events, Ok tt)) by (vm_compute; reflexivity).
  split; [exact Hd|]. split; [exact Hm|]. split; [reflexivity|]. split; [reflexivity|].
  split; [reflexivity|].
  exact (main_accounts_for_every_pair unit ex_fit ex_predict ex_metric ex_metric ex_external_ok
           ex_run_id ex_now false nanmean nanmedian nanstd iso_date integer_literal
           ex_run_config (Some ex_file) ex_main_events Hd Hm).
Defined.

(** ** An empty feature matrix *)

Section EmptyFeatures.
Variable Model : Type.
Variable fit : DataFrame -> list float -> Result Model.
Variable predict : Model -> DataFrame -> Result (list float).
Variable mean_absolute_error : list float -> list float -> Result float.
Variable mean_squared_error : list float -> list float -> Result float.
Variable external_ok : Event -> bool.
Variable run_id_of : string -> Z -> string.
Variable utc_now : string -> Z -> string.

(** A slice of a frame without rows has no rows. *)
Lemma loc_slice_empty (a b : option Timestamp) (df : DataFrame) :
  rows df = [] -> len (loc_slice a b df) = 0.
Proof.
  intros Hd. unfold len. destruct (rows (loc_slice a b df)) as [|r l] eqn:E; [reflexivity|].
  assert (Hr : In r (rows df))
    by (apply (proj2 (loc_slice_fields a b df)); rewrite E; now left).
  rewrite Hd in Hr. destruct Hr.
Qed.

(** On a feature matrix without rows a pair is skipped: there is nothing
    in any of the three slices. *)
Lemma iteration_on_empty (cfg : Config) (endpoint : string) (F : DataFrame)
                         (asof : option Timestamp) (T : string) (h : Z) :
  rows F = [] ->
  is_DatetimeIndex (index_kind F) = true -> is_tz_aware (index_kind F) = false ->
  1 <= min_samples cfg ->
  In (target_column T) (columns F) ->
  iteration Model fit predict mean_absolute_error mean_squared_error external_ok
            run_id_of utc_now cfg endpoint F asof T h
    = ([Print (MsgSkip T h 0 0 0)], Ok tt).
Proof.
  intros HF Hk Hz Hmin Hin.
  destruct (make_xy_total F T h Hin) as (X & y & fc & Hxy).
  destruct (make_xy_inv _ _ _ _ _ _ Hxy) as (y0 & X0 & _ & Hy & Hfc & HX & HXeq & Hyeq).
  destruct (index_getitem_list _ _ _ HX) as [HiX HcX0].
  assert (HcX : columns X = fc) by (rewrite HXeq; exact HcX0).
  assert (HkX : index_kind X = index_kind F).
  { rewrite HXeq. cbn [iloc_to with_rows index_kind]. revert HX. unfold getitem_list.
    destruct (positions fc (columns F)); cbn [rbind]; [|discriminate]. now intros [= <-]. }
  assert (HrX : rows X = []).
  { assert (Hi : index X = []).
    { rewrite HXeq, index_iloc_to, HiX. unfold index. rewrite HF. cbn [List.map].
      unfold slice_to. destruct (- h <? 0); apply firstn_nil. }
    unfold index in Hi. now apply map_eq_nil in Hi. }
  assert (Hny : existsb (String.eqb "y") (columns X) = false).
  { destruct (existsb (String.eqb "y") (columns X)) eqn:E; [|reflexivity].
    apply existsb_eqb_In in E. rewrite HcX, Hfc in E. apply filter_In in E as [_ E].
    now apply feature_column_not_y in E. }
  set (data := {| index_kind := index_kind X; columns := columns X ++ ["y"%string];
                  key_columns := key_columns X; rows := [] |}).
  assert (Hd : supervised_dataset X y = Ok data).
  { unfold supervised_dataset, join_series. cbn [s_rename s_name s_items].
    rewrite Hny, HrX. reflexivity. }
  pose proof (time_split_unfold data (train_end cfg) (val_end cfg)) as Hs.
  change (index_kind data) with (index_kind X) in Hs.
  rewrite HkX, Hk, Hz in Hs. cbn [andb negb] in Hs. unfold split_sorted in Hs.
  assert (He : rows (sort_index data) = []) by reflexivity.
  assert (Hsmall : too_small cfg (loc_slice None (Some (ds_end (train_end cfg))) (sort_index data))
                     (loc_slice (Some (ds_start (train_end cfg) + NS_PER_DAY))
                                (Some (ds_end (val_end cfg))) (sort_index data))
                     (loc_slice (Some (ds_start (val_end cfg) + NS_PER_DAY)) None
                                (sort_index data)) = true).
  { unfold too_small. rewrite !loc_slice_empty by exact He.
    apply orb_true_iff. left. apply orb_true_iff. left. apply Z.ltb_lt. lia. }
  rewrite (iteration_unfold Model fit predict mean_absolute_error mean_squared_error
             external_ok run_id_of utc_now cfg endpoint F asof T h _ _ _ _ _ _ _
             Hxy Hd Hs Hsmall).
  now rewrite !loc_slice_empty by exact He.
Qed.

Lemma loop_all_skipped (body : string -> Z -> Run unit) (ps : list (string * Z)) :
  (forall t h, In (t, h) ps -> body t h = ([Print (MsgSkip t h 0 0 0)], Ok tt)) ->
  loop body ps = (List.map (fun p => Print (MsgSkip (fst p) (snd p) 0 0 0)) ps, Ok tt).
Proof.
  induction ps as [|[t h] ps IH]; intros Hbody; [reflexivity|].
  cbn [loop]. rewrite (Hbody t h) by now left. cbn [bind].
  rewrite IH by (intros t' h' Hin; apply Hbody; now right). reflexivity.
Qed.

(** X29: an empty feature matrix is no error.  Its greatest date is NaT,
    and on a time index without a time zone and with a sample threshold of
    at least one the loop returns after a warning for every pair of a
    target and a horizon, each skipped with no row in any slice: nothing
    is trained and nothing is uploaded. *)
Theorem empty_features_skip_every_pair (cfg : Config) (endpoint : string) (F : DataFrame)
                                       (targets : list string) :
  rows F = [] ->
  is_DatetimeIndex (index_kind F) = true -> is_tz_aware (index_kind F) = false ->
  1 <= min_samples cfg ->
  (forall T, In T targets -> In (target_column T) (columns F)) ->
  index_max F = None /\
  loop (iteration Model fit predict mean_absolute_error mean_squared_error external_ok
                  run_id_of utc_now cfg endpoint F (index_max F))
       (pairs targets (horizon_max cfg))
    = (List.map (fun p => Print (MsgSkip (fst p) (snd p) 0 0 0))
                (pairs targets (horizon_max cfg)),
       Ok tt).
Proof.
  intros HF Hk Hz Hmin Hcols.
  split; [unfold index_max, index; now rewrite HF|].
  apply loop_all_skipped. intros t h Hin.
  apply iteration_on_empty; try assumption.
  apply Hcols. unfold pairs in Hin. apply in_flat_map in Hin as (t' & Ht' & Hin).
  apply in_map_iff in Hin as (h' & [= -> ->] & _). exact Ht'.
Qed.
End EmptyFeatures.

Lemma empty_features_skip_every_pair_witness :
  rows ex_no_features = [] /\
  is_DatetimeIndex (index_kind ex_no_features) = true /\
  is_tz_aware (index_kind ex_no_features) = false /\
  1 <= min_samples ex_run_config /\
  (forall T, In T ["A"; "B"]%string -> In (target_column T) (columns ex_no_features)) /\
  (exists prices,
     load_prices_csv iso_date integer_literal (Some ex_single_row) "Date" = Ok prices /\
     len prices = 1 /\
     build_features false nanmean nanmedian nanstd prices false true (-0.25)%float 0.25%float
       = Ok ex_no_features) /\
  index_max ex_no_features = None /\
  loop (iteration unit ex_fit ex_predict ex_metric ex_metric ex_external_ok ex_run_id ex_now
                  ex_run_config "http://minio:9000" ex_no_features (index_max ex_no_features))
       (pairs ["A"; "B"]%string (horizon_max ex_run_config))
    = ([Print (MsgSkip "A" 1 0 0 0); Print (MsgSkip "A" 2 0 0 0); Print (MsgSkip "A" 3 0 0 0);
        Print (MsgSkip "B" 1 0 0 0); Print (MsgSkip "B" 2 0 0 0); Print (MsgSkip "B" 3 0 0 0)],
       Ok tt) /\
  main unit ex_fit ex_predict ex_metric ex_metric ex_external_ok ex_run_id ex_now
       false nanmean nanmedian nanstd iso_date integer_literal ex_run_config
       (Some ex_single_row)
    = ([SetTrackingUri "http://mlflow:5000"; SetExperiment "sp500_return_regression";
        Print (MsgStart ["A"; "B"]%string 3 None false);
        Print (MsgSkip "A" 1 0 0 0); Print (MsgSkip "A" 2 0 0 0); Print (MsgSkip "A" 3 0 0 0);
        Print (MsgSkip "B" 1 0 0 0); Print (MsgSkip "B" 2 0 0 0); Print (MsgSkip "B" 3 0 0 0);
        Print MsgAllDone],
       Ok tt).
Proof.
  assert (H1 : rows ex_no_features = []) by reflexivity.
  assert (H2 : is_DatetimeIndex (index_kind ex_no_features) = true) by reflexivity.
  assert (H3 : is_tz_aware (index_kind ex_no_features) = false) by reflexivity.
  assert (H4 : 1 <= min_samples ex_run_config) by (simpl; lia).
  assert (H5 : forall T, In T ["A"; "B"]%string -> In (target_column T) (columns ex_no_features)).
  { intros T [<-|[<-|[]]]; simpl; auto. }
  split; [exact H1|]. split; [exact H2|]. split; [exact H3|]. split; [exact H4|].
  split; [exact H5|].
  split; [eexists; split; [vm_compute; reflexivity|]; split; [reflexivity|];
          vm_compute; reflexivity|].
  destruct (empty_features_skip_every_pair unit ex_fit ex_predict ex_metric ex_metric
              ex_external_ok ex_run_id ex_now ex_run_config "http://minio:9000"
              ex_no_features ["A"; "B"]%string H1 H2 H3 H4 H5) as [Hn Hl].
  split; [exact Hn|]. split; [exact Hl|]. vm_compute. reflexivity.
Defined.

(** ** The latest forecast of a pair *)

Lemma sorted_lt_nth (l : list Z) :
  StronglySorted Z.lt l ->
  forall i j, (i < j < length l)%nat -> nth i l 0 < nth j l 0.
Proof.
  induction 1 as [|x t Hs IH Hall]; intros i j Hij; [simpl in Hij; lia|].
  destruct j as [|j]; [lia|]. cbn [length] in Hij. destruct i as [|i].
  - cbn [nth]. rewrite List.Forall_forall in Hall. apply Hall, nth_In. lia.
  - cbn [nth]. apply IH. lia.
Qed.

(** In a list in strictly ascending order the greatest element is the
    last. *)
Lemma fold_max_sorted (t : Z) (ts : list Z) :
  StronglySorted Z.lt (t :: ts) -> fold_right Z.max t ts = nth (length ts) (t :: ts) 0.
Proof.
  intros Hs.
  pose proof (fold_max_in t ts) as Hin.
  assert (Hge : nth (length ts) (t :: ts) 0 <= fold_right Z.max t ts)
    by (apply fold_max_ge, nth_In; simpl; lia).
  destruct (In_nth _ _ 0 Hin) as (k & Hk & Hnth). cbn [length] in Hk.
  destruct (Nat.eq_dec k (length ts)) as [->|Hne]; [now symmetry|].
  pose proof (sorted_lt_nth _ Hs k (length ts) ltac:(cbn [length]; lia)). lia.
Qed.

Section LatestForecast.
Variable Model : Type.
Variable fit : DataFrame -> list float -> Result Model.
Variable predict : Model -> DataFrame -> Result (list float).
Variable mean_absolute_error : list float -> list float -> Result float.
Variable mean_squared_error : list float -> list float -> Result float.
Variable external_ok : Event -> bool.
Variable run_id_of : string -> Z -> string.
Variable utc_now : string -> Z -> string.

(** C7: what the code does for a pair that is not skipped and whose
    body returns, with the asof date of line 110, [index_max F].  Exactly
    one latest-forecast table is uploaded, under the pair's key, with
    exactly one row.  Its asof date is the greatest date of the feature
    matrix [F], its forecast date is the asof date advanced by [h] business
    days ([h] weekdays, Monday to Friday, lie after the asof date up to the
    forecast date, itself a weekday), and its sign is 1 when the prediction
    is strictly greater than 0 and 0 otherwise.  Its prediction is what
    the model fitted on the train split predicts for the last row of [X],
    and that row is not the most recent feature row: it is the row of [F]
    that lies [h] places before the last one, so that in a matrix in time
    order with unique dates it is dated before the asof date. *)
Theorem latest_forecast (cfg : Config) (endpoint : string) (F : DataFrame)
                        (T : string) (h : Z) (X : DataFrame) (y : Series) (fc : list string)
                        (data train_df val_df test_df : DataFrame) (ev : list Event) :
  make_xy F T h = Ok (X, y, fc) ->
  supervised_dataset X y = Ok data ->
  time_split data (train_end cfg) (val_end cfg) = Ok (train_df, val_df, test_df) ->
  too_small cfg train_df val_df test_df = false ->
  1 <= h ->
  iteration Model fit predict mean_absolute_error mean_squared_error external_ok
            run_id_of utc_now cfg endpoint F (index_max F) T h = (ev, Ok tt) ->
  exists asof X_train y_train model init row p more,
    index_max F = Some asof /\
    getitem_list fc train_df = Ok X_train /\
    getitem "y" train_df = Ok y_train /\
    fit X_train (s_values y_train) = Ok model /\
    rows X = init ++ [row] /\
    predict model (with_rows X [row]) = Ok (p :: more) /\
    forecast_uploads ev
      = [PutObject (pred_bucket cfg) (mkKey T h FORECAST_FILE) endpoint
           (ForecastTable
              [ {| f_asof_date := Some (date_of asof);
                   f_forecast_for_date := Some (date_of (BDay_add asof h));
                   f_target_ticker := T;
                   f_horizon_days := h;
                   f_pred_ret_next := p;
                   f_pred_sign := if (0 <? p)%float then 1 else 0;
                   f_run_id := run_id_of T h;
                   f_created_at := utc_now T h;
                   f_split := "forecast_latest" |} ])] /\
    is_business_day (date_of (BDay_add asof h)) = true /\
    business_days_after (date_of asof) (date_of (BDay_add asof h) - date_of asof) = h /\
    (Z.to_nat h < length (rows F))%nat /\
    label row = nth (length (rows F) - 1 - Z.to_nat h) (index F) 0 /\
    (StronglySorted Z.lt (index F) ->
       asof = nth (length (rows F) - 1) (index F) 0 /\ label row < asof).
Proof.
  intros Hxy Hd Hs Hsmall Hh Hit.
  unfold iteration in Hit. rewrite Hxy, bind_lift_Ok, Hd, bind_lift_Ok, Hs, bind_lift_Ok in Hit.
  unfold too_small in Hsmall. rewrite Hsmall in Hit.
  repeat run_inv Hit.
  unfold print in Hit. injection Hit as <-.
  match goal with
  | Hf : fit ?xt (s_values ?yt) = Ok ?m,
    Hl : iloc_last X = Ok ?xl,
    Hp : predict ?m ?xl = Ok ?lp,
    Hm : match ?lp with [] => _ | _ :: _ => _ end = Ok ?p |- _ =>
      destruct (iloc_last_inv _ _ Hl) as (init & row & Hrows & ->);
      destruct lp as [|p' more]; [discriminate|]; injection Hm as ->;
      rename xt into X_train; rename yt into y_train; rename m into model;
      rename p into pred
  end.
  (* the row predicted from *)
  destruct (make_xy_inv _ _ _ _ _ _ Hxy) as (y0 & X0 & _ & _ & _ & HX & HXeq & _).
  destruct (index_getitem_list _ _ _ HX) as [HiX _].
  assert (Hidx : index X = slice_to (- h) (index F))
    by (rewrite HXeq, index_iloc_to; now rewrite HiX).
  assert (Hlab : slice_to (- h) (index F) = List.map label init ++ [label row])
    by (rewrite <- Hidx; unfold index; rewrite Hrows, map_app; reflexivity).
  destruct (slice_to_last h _ _ _ Hh Hlab) as [Hlt Hrow].
  assert (Hn : length (index F) = length (rows F)) by (unfold index; apply length_map).
  rewrite Hn in Hlt, Hrow.
  (* the asof date *)
  destruct (index F) as [|t ts] eqn:Hi; [cbn [length] in Hn; lia|].
  assert (Hmax : index_max F = Some (fold_right Z.max t ts))
    by (unfold index_max; now rewrite Hi).
  exists (fold_right Z.max t ts), X_train, y_train, model, init, row, pred, more.
  split; [exact Hmax|].
  repeat (split; [assumption|]).
  split; [rewrite Hmax; reflexivity|].
  destruct (BDay_add_weekday (fold_right Z.max t ts) h Hh) as [_ Hw].
  split; [unfold is_business_day; unfold weekday in Hw; apply Z.leb_le; lia|].
  split; [now apply BDay_add_counts|].
  split; [exact Hlt|]. split; [exact Hrow|].
  intros Hsorted. cbn [length] in Hn.
  assert (Hlast : fold_right Z.max t ts = nth (length (rows F) - 1) (t :: ts) 0).
  { rewrite (fold_max_sorted t ts Hsorted). f_equal. lia. }
  split; [exact Hlast|].
  rewrite Hrow, Hlast. apply sorted_lt_nth; [exact Hsorted|]. cbn [length]. lia.
Qed.
End LatestForecast.

Lemma latest_forecast_witness :
  exists X y fc data train_df val_df test_df,
    make_xy ex_week "A" 1 = Ok (X, y, fc) /\
    supervised_dataset X y = Ok data /\
    time_split data (train_end (ex_config 1)) (val_end (ex_config 1))
      = Ok (train_df, val_df, test_df) /\
    too_small (ex_config 1) train_df val_df test_df = false /\
    1 <= 1 /\
    index_max ex_week = Some ex_asof /\
    ex_iteration 1 = (ex_events, Ok tt) /\
    StronglySorted Z.lt (index ex_week) /\
    exists asof X_train y_train model init row p more,
      index_max ex_week = Some asof /\
      getitem_list fc train_df = Ok X_train /\
      getitem "y" train_df = Ok y_train /\
      ex_fit X_train (s_values y_train) = Ok model /\
      rows X = init ++ [row] /\
      ex_predict model (with_rows X [row]) = Ok (p :: more) /\
      forecast_uploads ex_events
        = [PutObject "predictions" (mkKey "A" 1 FORECAST_FILE) "http://minio:9000"
             (ForecastTable
                [ {| f_asof_date := Some (date_of asof);
                     f_forecast_for_date := Some (date_of (BDay_add asof 1));
                     f_target_ticker := "A";
                     f_horizon_days := 1;
                     f_pred_ret_next := p;
                     f_pred_sign := if (0 <? p)%float then 1 else 0;
                     f_run_id := ex_run_id "A" 1;
                     f_created_at := ex_now "A" 1;
                     f_split := "forecast_latest" |} ])] /\
      is_business_day (date_of (BDay_add asof 1)) = true /\
      business_days_after (date_of asof) (date_of (BDay_add asof 1) - date_of asof) = 1 /\
      asof = nth (length (rows ex_week) - 1) (index ex_week) 0 /\
      label row = nth (length (rows ex_week) - 1 - Z.to_nat 1) (index ex_week) 0 /\
      label row < asof.
Proof.
  eexists _, _, _, _, _, _, _.
  assert (H1 : make_xy ex_week "A" 1 = Ok (iloc_to (-1) (frame_or ex_week
                 (getitem_list ["ret_B"%string] ex_week)),
               s_iloc_to (-1) (s_shift (-1) (mkSeries "ret_A"
                  (List.map (fun r => (label r, cell_at 0 r)) (rows ex_week)))),
               ["ret_B"%string])) by reflexivity.
  split; [exact H1|].
  assert (H2 : supervised_dataset
                 (iloc_to (-1) (frame_or ex_week (getitem_list ["ret_B"%string] ex_week)))
                 (s_iloc_to (-1) (s_shift (-1) (mkSeries "ret_A"
                    (List.map (fun r => (label r, cell_at 0 r)) (rows ex_week)))))
               = Ok (frame_or ex_week (supervised_dataset
                 (iloc_to (-1) (frame_or ex_week (getitem_list ["ret_B"%string] ex_week)))
                 (s_iloc_to (-1) (s_shift (-1) (mkSeries "ret_A"
                    (List.map (fun r => (label r, cell_at 0 r)) (rows ex_week)))))))) by reflexivity.
  split; [exact H2|].
  match type of H2 with _ = Ok ?d =>
    assert (H3 : time_split d (train_end (ex_config 1)) (val_end (ex_config 1))
                 = Ok (split_sorted (sort_index d) (train_end (ex_config 1))
                                    (val_end (ex_config 1)))) by reflexivity
  end.
  split; [exact H3|].
  match type of H3 with _ = Ok (split_sorted ?d ?a ?b) =>
    assert (H4 : too_small (ex_config 1) (fst (fst (split_sorted d a b)))
                   (snd (fst (split_sorted d a b))) (snd (split_sorted d a b)) = false)
      by reflexivity
  end.
  split; [exact H4|].
  assert (H5 : 1 <= 1) by lia.
  split; [exact H5|].
  assert (Hmax : index_max ex_week = Some ex_asof) by reflexivity.
  split; [exact Hmax|].
  assert (H6 : ex_iteration 1 = (ex_events, Ok tt)) by (vm_compute; reflexivity).
  split; [exact H6|].
  assert (Hs : StronglySorted Z.lt (index ex_week)).
  { repeat (apply SSorted_cons; [|repeat constructor]). apply SSorted_nil. }
  split; [exact Hs|].
  assert (H7 : iteration unit ex_fit ex_predict ex_metric ex_metric ex_external_ok
                 ex_run_id ex_now (ex_config 1) "http://minio:9000" ex_week
                 (index_max ex_week) "A" 1 = (ex_events, Ok tt))
    by (rewrite Hmax; exact H6).
  destruct (latest_forecast unit ex_fit ex_predict ex_metric ex_metric ex_external_ok
              ex_run_id ex_now (ex_config 1) "http://minio:9000" ex_week "A" 1
              _ _ _ _ _ _ _ ex_events H1 H2 H3 H4 H5 H7)
    as (asof & X_train & y_train & model & init & row & p & more & Ha & Hb & Hc & Hd & He
        & Hf & Hg & Hi & Hj & _ & Hk & Hl).
  destruct (Hl Hs) as [Hm Hn].
  exists asof, X_train, y_train, model, init, row, p, more.
  repeat (split; [assumption|]). exact Hn.
Defined.

(** C7, on a run: the forecast is stamped with the date of the most
    recent feature row, 2024-01-08, and predicted from the row of
    2024-01-05; the model gives another value for the most recent row. *)
Lemma latest_forecast_stale_row_counterexample :
  ex_iteration 1 = (ex_events, Ok tt) /\
  index_max ex_week = Some (days_from_civil 2024 1 8 * NS_PER_DAY) /\
  forecast_uploads ex_events
    = [PutObject "predictions" (mkKey "A" 1 FORECAST_FILE) "http://minio:9000"
         (ForecastTable
            [ {| f_asof_date := Some (days_from_civil 2024 1 8);
                 f_forecast_for_date := Some (days_from_civil 2024 1 9);
                 f_target_ticker := "A";
                 f_horizon_days := 1;
                 f_pred_ret_next := (-0.125)%float;
                 f_pred_sign := 0;
                 f_run_id := ex_run_id "A" 1;
                 f_created_at := ex_now "A" 1;
                 f_split := "forecast_latest" |} ])] /\
  (exists X y fc,
     make_xy ex_week "A" 1 = Ok (X, y, fc) /\
     iloc_last X
       = Ok (with_rows X [mkRow (days_from_civil 2024 1 5 * NS_PER_DAY) [(-0.125)%float] []]) /\
     ex_predict tt (with_rows X [mkRow (days_from_civil 2024 1 5 * NS_PER_DAY)
                                       [(-0.125)%float] []])
       = Ok [(-0.125)%float]) /\
  (exists features,
     getitem_list ["ret_B"%string] ex_week = Ok features /\
     iloc_last features
       = Ok (with_rows features [mkRow (days_from_civil 2024 1 8 * NS_PER_DAY) [0.5%float] []]) /\
     ex_predict tt (with_rows features [mkRow (days_from_civil 2024 1 8 * NS_PER_DAY)
                                              [0.5%float] []])
       = Ok [0.5%float]).
Proof.
  split; [vm_compute; reflexivity|]. split; [reflexivity|]. split; [vm_compute; reflexivity|].
  split.
  - eexists _, _, _. split; [reflexivity|]. split; vm_compute; reflexivity.
  - eexists. split; [reflexivity|]. split; vm_compute; reflexivity.
Qed.

(** ** Successive horizons, successive business days *)

Lemma business_days_nonneg (d k : Z) : 0 <= business_days_after d k.
Proof. unfold business_days_after. lia. Qed.

Lemma business_days_one (d : Z) :
  business_days_after d 1 = if is_business_day (d + 1) then 1 else 0.
Proof.
  unfold business_days_after. change (Z.to_nat 1) with 1%nat. unfold consec.
  cbn [seq List.map List.filter]. replace (d + 1 + Z.of_nat 0) with (d + 1) by lia.
  now destruct (is_business_day (d + 1)).
Qed.

Lemma business_day_counted (d k : Z) :
  1 <= k -> is_business_day (d + k) = true ->
  business_days_after d k = business_days_after d (k - 1) + 1.
Proof.
  intros Hk Hb. replace k with (k - 1 + 1) at 1 by lia.
  rewrite business_days_split by lia. rewrite business_days_one.
  replace (d + (k - 1) + 1) with (d + k) by lia. now rewrite Hb.
Qed.

Lemma business_days_mono (d k1 k2 : Z) :
  0 <= k1 <= k2 -> business_days_after d k1 <= business_days_after d k2.
Proof.
  intros H. replace k2 with (k1 + (k2 - k1)) by lia. rewrite business_days_split by lia.
  pose proof (business_days_nonneg (d + k1) (k2 - k1)). lia.
Qed.

(** The business day reached after a given number of business days is
    unique. *)
Lemma business_day_unique (d k1 k2 : Z) :
  0 <= k1 -> 0 <= k2 ->
  is_business_day (d + k1) = true -> is_business_day (d + k2) = true ->
  business_days_after d k1 = business_days_after d k2 -> k1 = k2.
Proof.
  assert (H : forall a b, 0 <= a < b -> is_business_day (d + b) = true ->
                          business_days_after d a < business_days_after d b).
  { intros a b Hab Hb. rewrite (business_day_counted d b) by (lia || assumption).
    pose proof (business_days_mono d a (b - 1)). lia. }
  intros H1 H2 Hb1 Hb2 Heq.
  destruct (Z.lt_trichotomy k1 k2) as [Hlt|[Heq'|Hgt]]; [|assumption|].
  - specialize (H k1 k2 ltac:(lia) Hb2). lia.
  - specialize (H k2 k1 ltac:(lia) Hb1). lia.
Qed.

Lemma BDay_add_offset (t : Timestamp) (n : Z) :
  BDay_add t n = t + (date_of (BDay_add t n) - date_of t) * NS_PER_DAY.
Proof.
  unfold BDay_add. cbv zeta. rewrite date_of_add_days. f_equal. f_equal. lia.
Qed.

Lemma BDay_add_business_day (t : Timestamp) (n : Z) :
  1 <= n -> is_business_day (date_of (BDay_add t n)) = true.
Proof.
  intros Hn. destruct (BDay_add_weekday t n Hn) as [_ Hw].
  unfold is_business_day. unfold weekday in Hw. apply Z.leb_le. lia.
Qed.

(** X25: the forecast dates of successive horizons are successive
    business days: the date for [n + 1] is the business day after the date
    for [n], and strictly later; the time of day of the asof timestamp is
    kept. *)
Theorem BDay_add_next (t : Timestamp) (n : Z) :
  1 <= n ->
  BDay_add t (n + 1) = BDay_add (BDay_add t n) 1 /\
  date_of (BDay_add t n) < date_of (BDay_add t (n + 1)) /\
  (BDay_add t n) mod NS_PER_DAY = t mod NS_PER_DAY.
Proof.
  intros Hn.
  set (D := date_of t). set (a := BDay_add t n). set (b := BDay_add a 1).
  set (c := BDay_add t (n + 1)).
  destruct (BDay_add_weekday t n Hn) as [Ha _].
  destruct (BDay_add_weekday a 1 ltac:(lia)) as [Hb _].
  destruct (BDay_add_weekday t (n + 1) ltac:(lia)) as [Hc _].
  fold a D in Ha. fold b in Hb. fold c D in Hc.
  pose proof (BDay_add_counts t n Hn) as Ca. fold a D in Ca.
  pose proof (BDay_add_counts a 1 ltac:(lia)) as Cb. fold b in Cb.
  pose proof (BDay_add_counts t (n + 1) ltac:(lia)) as Cc. fold c D in Cc.
  assert (Cb' : business_days_after D (date_of b - D) = n + 1).
  { replace (date_of b - D) with ((date_of a - D) + (date_of b - date_of a)) by lia.
    rewrite business_days_split by lia.
    replace (D + (date_of a - D)) with (date_of a) by lia. lia. }
  assert (Hbc : date_of b - D = date_of c - D).
  { apply (business_day_unique D); try lia.
    - replace (D + (date_of b - D)) with (date_of b) by lia.
      apply BDay_add_business_day. lia.
    - replace (D + (date_of c - D)) with (date_of c) by lia.
      apply BDay_add_business_day. lia. }
  assert (Hstep : c = b).
  { unfold c. rewrite (BDay_add_offset t (n + 1)). fold c D.
    unfold b. rewrite (BDay_add_offset a 1). fold b.
    unfold a at 1. rewrite (BDay_add_offset t n). fold a D.
    rewrite <- Hbc. lia. }
  split; [exact Hstep|]. split.
  - rewrite Hstep. exact Hb.
  - unfold a. rewrite BDay_add_offset. apply Z.mod_add. discriminate.
Qed.

Lemma BDay_add_next_witness :
  1 <= 4 /\
  BDay_add ex_asof 5 = BDay_add (BDay_add ex_asof 4) 1 /\
  date_of (BDay_add ex_asof 4) = days_from_civil 2024 1 12 /\
  date_of (BDay_add ex_asof 5) = days_from_civil 2024 1 15.
Proof.
  split; [lia|]. split; [|split; reflexivity].
  exact (proj1 (BDay_add_next ex_asof 4 ltac:(lia))).
Defined.

(** ** The upload and the object store *)

Section UploadRoundTrip.
Variable World : Type.
Variable Client : Type.
Variable client : string -> World -> Result Client * World.
Variable head_bucket : Client -> string -> World -> Result unit * World.
Variable create_bucket : Client -> string -> World -> Result unit * World.
Variable put_object : Client -> string -> ObjectKey -> Table -> string -> World
                      -> Result unit * World.
(** What can be observed of the store. *)
Variable bucket_exists : World -> string -> bool.
Variable object_at : World -> string -> ObjectKey -> option Table.

(** X28: against a store that behaves as an object store does, the
    upload succeeds whether or not the bucket is there, the table can be
    read back under its key, the bucket exists afterwards and no other
    object changes. *)
Theorem upload_round_trip (df : Table) (bucket : string) (key : ObjectKey) (endpoint : string)
                          (w : World) :
  (forall w0, exists c, client endpoint w0 = (Ok c, w0)) ->
  (forall c b w0, snd (head_bucket c b w0) = w0 /\
                  (fst (head_bucket c b w0) = Ok tt <-> bucket_exists w0 b = true)) ->
  (forall c b w0, bucket_exists w0 b = false ->
     exists w1, create_bucket c b w0 = (Ok tt, w1) /\ bucket_exists w1 b = true /\
                forall b' k', object_at w1 b' k' = object_at w0 b' k') ->
  (forall c b k body ct w0, bucket_exists w0 b = true ->
     exists w1, put_object c b k body ct w0 = (Ok tt, w1) /\
                object_at w1 b k = Some body /\
                (forall b', bucket_exists w1 b' = bucket_exists w0 b') /\
                forall b' k', (b', k') <> (b, k) -> object_at w1 b' k' = object_at w0 b' k') ->
  exists w',
    S3.upload_df_as_csv_to_s3 World Client client head_bucket create_bucket put_object
      df bucket key endpoint w = (Ok tt, w') /\
    object_at w' bucket key = Some df /\
    bucket_exists w' bucket = true /\
    forall b' k', (b', k') <> (bucket, key) -> object_at w' b' k' = object_at w b' k'.
Proof.
  intros Hclient Hhead Hcreate Hput.
  unfold S3.upload_df_as_csv_to_s3, S3._s3_client, S3._ensure_bucket.
  destruct (Hclient w) as [c ->].
  destruct (Hhead c bucket w) as [Hsame Hiff].
  destruct (head_bucket c bucket w) as [[[]|e] w1] eqn:Hh; cbn [fst snd] in *; subst w1.
  - assert (Hb : bucket_exists w bucket = true) by now apply Hiff.
    destruct (Hput c bucket key df "text/csv"%string w Hb) as (w' & -> & Ho & Hbs & Hrest).
    exists w'. repeat split; try assumption. now rewrite Hbs.
  - assert (Hb : bucket_exists w bucket = false).
    { destruct (bucket_exists w bucket); [|reflexivity].
      destruct Hiff as [_ Hiff]. specialize (Hiff eq_refl). discriminate. }
    destruct (Hcreate c bucket w Hb) as (w1 & -> & Hb1 & Ho1).
    destruct (Hput c bucket key df "text/csv"%string w1 Hb1) as (w' & -> & Ho & Hbs & Hrest).
    exists w'. repeat split; try assumption.
    + now rewrite Hbs.
    + intros b' k' Hne. now rewrite Hrest, Ho1.
Qed.
End UploadRoundTrip.

Lemma key_eqb_eq (a b : ObjectKey) : key_eqb a b = true <-> a = b.
Proof.
  unfold key_eqb. rewrite !andb_true_iff, !String.eqb_eq, Z.eqb_eq.
  destruct a, b; cbn. split; [intros [[-> ->] ->]; reflexivity | intros [= -> -> ->]; auto].
Qed.

Lemma upload_round_trip_witness :
  exists w',
    S3.upload_df_as_csv_to_s3 Memory unit mem_client mem_head_bucket mem_create_bucket
      mem_put_object (ForecastTable []) "predictions" (mkKey "A" 1 FORECAST_FILE)
      "http://minio:9000" empty_memory = (Ok tt, w') /\
    m_objects w' "predictions" (mkKey "A" 1 FORECAST_FILE) = Some (ForecastTable []) /\
    m_buckets w' "predictions" = true /\
    forall b' k', (b', k') <> ("predictions"%string, mkKey "A" 1 FORECAST_FILE) ->
                  m_objects w' b' k' = m_objects empty_memory b' k'.
Proof.
  apply (upload_round_trip Memory unit mem_client mem_head_bucket mem_create_bucket
           mem_put_object m_buckets m_objects).
  - intros w0. exists tt. reflexivity.
  - intros c b w0. unfold mem_head_bucket. destruct (m_buckets w0 b); cbn; split; auto;
      split; auto; discriminate.
  - intros c b w0 Hb. unfold mem_create_bucket. rewrite Hb. eexists. split; [reflexivity|].
    cbn. rewrite String.eqb_refl. auto.
  - intros c b k body ct w0 Hb. unfold mem_put_object. rewrite Hb. eexists.
    split; [reflexivity|]. cbn.
    rewrite String.eqb_refl, (proj2 (key_eqb_eq k k) eq_refl). cbn.
    split; [reflexivity|]. split; [reflexivity|].
    intros b' k' Hne.
    destruct (String.eqb_spec b' b) as [->|]; [|reflexivity].
    destruct (key_eqb k' k) eqn:Hk; [|reflexivity].
    apply key_eqb_eq in Hk. subst. now elim Hne.
Defined.

